(** * StateController of the hexapod high-level controller

    A shallow embedding of [src/stateController.cpp] (class declared in
    [include/simple_hexapod_controller/stateController.h]).

    Conventions of the embedding.
    - The controller object is a record [StateController]; every member
      function is a function from controller to controller (explicit state
      passing).
    - C++ [double] values are modelled as rationals [Q].  No property below
      depends on rounding: they are about control flow, flags and which value
      is handed to which collaborator.
    - The walk, pose and impedance controllers, the kinematic model's
      algorithms and the helper headers live in other files of the
      package.  Their member functions are the fields of the interface
      [Collaborators]; the controller is verified for every implementation of
      that interface.
    - Every call to a collaborator, every warning or fatal log line and every
      [ros::shutdown()] appends an [Event] to the field [trace], so that the
      order of calls inside a tick can be stated.  Informational log lines
      are not recorded. *)

From Stdlib Require Import ZArith QArith Qabs Qminmax List Bool String Lia.
Import ListNotations.

Local Open Scope Z_scope.

(** ** Enumerations (parametersAndStates.h)

    The header that declares the enumerations is not available here; their
    values are the ones stateController.cpp names and the specification
    lists. *)

(** Modelled from the spec: the system states. *)
Inductive SystemState : Type :=
  | WAITING_FOR_USER | UNKNOWN | OFF | PACKED | READY | RUNNING | SUSPENDED.

(** Modelled from the spec: the states of the walker. *)
Inductive WalkState : Type := STARTING | MOVING | STOPPING | STOPPED.

(** Modelled from the spec: the states of a leg. *)
Inductive LegState : Type :=
  | WALKING | MANUAL | WALKING_TO_MANUAL | MANUAL_TO_WALKING.

(** Modelled from the spec: the selectable gaits. *)
Inductive GaitDesignation : Type :=
  | TRIPOD_GAIT | RIPPLE_GAIT | WAVE_GAIT | AMBLE_GAIT | GAIT_UNDESIGNATED.

(** Modelled from the spec: the manual posing modes. *)
Inductive PosingMode : Type :=
  | NO_POSING | X_Y_POSING | PITCH_ROLL_POSING | Z_YAW_POSING.

(** Modelled from the spec: the cruise control modes. *)
Inductive CruiseControlMode : Type := CRUISE_CONTROL_OFF | CRUISE_CONTROL_ON.

(** Modelled from the spec: the auto navigation modes. *)
Inductive AutoNavigationMode : Type :=
  | AUTO_NAVIGATION_OFF | AUTO_NAVIGATION_ON.

(** Modelled from the spec: the pose reset modes. *)
Inductive PoseResetMode : Type :=
  | NO_RESET | Z_AND_YAW_RESET | X_AND_Y_RESET | PITCH_AND_ROLL_RESET
  | ALL_RESET | IMMEDIATE_ALL_RESET.

(** Modelled from the spec: the keys of the adjustable parameters.  The
    callback obtains a key by [static_cast] from the integer of a message,
    so a key can also hold an integer that is the value of none of the
    nine enumerators: [PARAMETER_UNLISTED value]. *)
Inductive ParameterSelection : Type :=
  | NO_PARAMETER_SELECTION
  | STEP_FREQUENCY | STEP_CLEARANCE | BODY_CLEARANCE | LEG_SPAN_SCALE
  | VIRTUAL_MASS | VIRTUAL_STIFFNESS | VIRTUAL_DAMPING | FORCE_GAIN
  | PARAMETER_UNLISTED (value : Z).

(** Modelled from the spec: a leg designation is the id number of a leg
    or the value [LEG_UNDESIGNATED]. *)
Inductive LegDesignation : Type :=
  | LEG (id : nat)
  | LEG_UNDESIGNATED.

Scheme Equality for SystemState.
Scheme Equality for WalkState.
Scheme Equality for LegState.
Scheme Equality for GaitDesignation.
Scheme Equality for PosingMode.
Scheme Equality for CruiseControlMode.
Scheme Equality for AutoNavigationMode.
Scheme Equality for PoseResetMode.
Scheme Equality for ParameterSelection.

Definition LegDesignation_beq (a b : LegDesignation) : bool :=
  match a, b with
  | LEG i, LEG j => Nat.eqb i j
  | LEG_UNDESIGNATED, LEG_UNDESIGNATED => true
  | _, _ => false
  end.

(** The comparison [==] of the C++ enumerations. *)
Class EqB (A : Type) : Type := eqb : A -> A -> bool.

#[global] Instance SystemState_EqB : EqB SystemState := SystemState_beq.
#[global] Instance WalkState_EqB : EqB WalkState := WalkState_beq.
#[global] Instance LegState_EqB : EqB LegState := LegState_beq.
#[global] Instance GaitDesignation_EqB : EqB GaitDesignation :=
  GaitDesignation_beq.
#[global] Instance PosingMode_EqB : EqB PosingMode := PosingMode_beq.
#[global] Instance CruiseControlMode_EqB : EqB CruiseControlMode :=
  CruiseControlMode_beq.
#[global] Instance AutoNavigationMode_EqB : EqB AutoNavigationMode :=
  AutoNavigationMode_beq.
#[global] Instance PoseResetMode_EqB : EqB PoseResetMode := PoseResetMode_beq.
#[global] Instance ParameterSelection_EqB : EqB ParameterSelection :=
  ParameterSelection_beq.
#[global] Instance LegDesignation_EqB : EqB LegDesignation :=
  LegDesignation_beq.

Declare Scope cpp_scope.
Delimit Scope cpp_scope with cpp.
Infix "==" := eqb (at level 70, no associativity) : cpp_scope.
Notation "a != b" := (negb (eqb a b)) (at level 70, no associativity)
  : cpp_scope.

(** [#define MAX_MANUAL_LEGS 2] *)
Definition MAX_MANUAL_LEGS : Z := 2.

(** ** Vectors *)

Record Vector2d : Type := mkVector2d { v2x : Q; v2y : Q }.
Record Vector3d : Type := mkVector3d { v3x : Q; v3y : Q; v3z : Q }.

(** [v[i]] and [v[i] = q] on a three-vector; an index above 2 is outside
    the vector and never used by the controller. *)
Definition vec3_get (v : Vector3d) (i : nat) : Q :=
  match i with
  | O => v3x v
  | S O => v3y v
  | _ => v3z v
  end.

Definition vec3_set (v : Vector3d) (i : nat) (q : Q) : Vector3d :=
  match i with
  | O => mkVector3d q (v3y v) (v3z v)
  | S O => mkVector3d (v3x v) q (v3z v)
  | _ => mkVector3d (v3x v) (v3y v) q
  end.

(** ** Numeric helpers *)

(** Modelled from the spec: [clamped] of standardIncludes.h, a header that
    is not available here; the value is clamped into
    [[min_value, max_value]]. *)
Definition clamped (value min_value max_value : Q) : Q :=
  Qmax min_value (Qmin value max_value).

(** Modelled from the spec: [sign] of standardIncludes.h, a header that is
    not available here; the sign of a number as [1] or [-1]. *)
Definition sign (q : Q) : Z := if Qle_bool 0 q then 1 else -1.

(** [int(x)] on a double: truncation toward zero. *)
Definition double_to_int (q : Q) : Z := Z.quot (Qnum q) (Zpos (Qden q)).

Definition Qlt_bool (a b : Q) : bool := negb (Qle_bool b a).

(** ** Model data (model.h)

    The classes [Joint], [Leg] and [Model] of model.h are not available
    here.  The records keep the members that stateController.cpp reads or
    writes through the accessors it calls. *)

(** Modelled from the spec: the class [Joint]. *)
Record Joint : Type := mkJoint {
  joint_name : string;
  current_position : Q;
  current_velocity : Q;
  current_effort : Q;
  desired_position : Q;
  prev_desired_position : Q;
  desired_velocity : Q;
  position_offset : Q;
  packed_position : Q
}.

(** Modelled from the spec: the class [Leg]. *)
Record Leg : Type := mkLeg {
  id_number : nat;
  id_name : string;
  leg_state : LegState;
  delta_z : Q;
  tip_force : Q;
  virtual_stiffness : Q;
  (** [getLegPoser()->getCurrentTipPosition()] *)
  poser_current_tip_position : Vector3d;
  desired_tip_position : Vector3d;
  (** [getJointContainer()], a [std::map<int, Joint*>] in key order *)
  joint_container : list Joint
}.

(** Modelled from the spec: the class [Model].  [getLegContainer()] is a
    [std::map<int, Leg*>]; the list holds its legs in key order, each leg
    carrying its key as [id_number]. *)
Record Model : Type := mkModel {
  leg_container : list Leg
}.

(** Modelled from the spec: [Model::getLegCount], absent from the sources;
    the model owns one leg per id [0..N-1] and the count is [N]. *)
Definition getLegCount (m : Model) : Z := Z.of_nat (List.length (leg_container m)).

Definition getLegByIDNumber (m : Model) (d : LegDesignation) : option Leg :=
  match d with
  | LEG n => find (fun l => Nat.eqb (id_number l) n) (leg_container m)
  | LEG_UNDESIGNATED => None
  end.

Definition setLegState (s : LegState) (l : Leg) : Leg :=
  mkLeg (id_number l) (id_name l) s (delta_z l) (tip_force l)
        (virtual_stiffness l) (poser_current_tip_position l)
        (desired_tip_position l) (joint_container l).

Definition setDesiredTipPosition (v : Vector3d) (l : Leg) : Leg :=
  mkLeg (id_number l) (id_name l) (leg_state l) (delta_z l) (tip_force l)
        (virtual_stiffness l) (poser_current_tip_position l) v
        (joint_container l).

Definition setTipForce (f : Q) (l : Leg) : Leg :=
  mkLeg (id_number l) (id_name l) (leg_state l) (delta_z l) f
        (virtual_stiffness l) (poser_current_tip_position l)
        (desired_tip_position l) (joint_container l).

Definition setJointContainer (js : list Joint) (l : Leg) : Leg :=
  mkLeg (id_number l) (id_name l) (leg_state l) (delta_z l) (tip_force l)
        (virtual_stiffness l) (poser_current_tip_position l)
        (desired_tip_position l) js.

(** Writing through a [Leg*]: the leg stored under the pointer's key is
    replaced. *)
Definition store_leg (l : Leg) (m : Model) : Model :=
  mkModel (map (fun k => if Nat.eqb (id_number k) (id_number l) then l else k)
               (leg_container m)).

(** ** Parameters (parametersAndStates.h)

    The parameter classes of parametersAndStates.h are not available here.
    [Parameters] keeps the members that stateController.cpp reads or
    writes; a plain parameter is its [data]. *)

(** Modelled from the spec: the class [AdjustableParameter]. *)
Record AdjustableParameter : Type := mkAdjustableParameter {
  name : string;
  data : Q;
  current_value : Q;
  default_value : Q;
  min_value : Q;
  max_value : Q;
  adjust_step : Q
}.

(** Modelled from the spec: the gait description that
    [initGaitParameters] loads from the parameter server under [/hexapod/gait_parameters/<gait_type>/]. *)
Record GaitParameters : Type := mkGaitParameters {
  stance_phase : Z;
  swing_phase : Z;
  phase_offset : Z;
  offset_multiplier : list Z
}.

(** Modelled from the spec: the struct [Parameters]. *)
Record Parameters : Type := mkParameters {
  time_delta : Q;
  impedance_control : bool;
  imu_rotation_offset : Vector3d;
  gait_type : string;
  step_frequency : AdjustableParameter;
  step_clearance : AdjustableParameter;
  body_clearance : AdjustableParameter;
  leg_span_scale : AdjustableParameter;
  max_linear_acceleration : Q;
  max_angular_acceleration : Q;
  force_cruise_velocity : bool;
  linear_cruise_velocity : Vector2d;
  angular_cruise_velocity : Q;
  start_up_sequence : bool;
  dynamic_stiffness : bool;
  use_joint_effort : bool;
  virtual_mass : AdjustableParameter;
  (** [params_.virtual_stiffness]; [virtual_stiffness] names the member of
      [Leg] *)
  virtual_stiffness_parameter : AdjustableParameter;
  virtual_damping_ratio : AdjustableParameter;
  force_gain : AdjustableParameter;
  debug_IK : bool;
  gait_parameters : GaitParameters
}.

(** [params_.map]: the entries inserted by [initParameters], as a lookup
    from the selection key to the parameter object it points to.  There is
    no entry for [NO_PARAMETER_SELECTION], nor for a key that is none of
    the enumerators. *)
Definition map_lookup (p : Parameters) (k : ParameterSelection)
  : option AdjustableParameter :=
  match k with
  | NO_PARAMETER_SELECTION => None
  | STEP_FREQUENCY => Some (step_frequency p)
  | STEP_CLEARANCE => Some (step_clearance p)
  | BODY_CLEARANCE => Some (body_clearance p)
  | LEG_SPAN_SCALE => Some (leg_span_scale p)
  | VIRTUAL_MASS => Some (virtual_mass p)
  | VIRTUAL_STIFFNESS => Some (virtual_stiffness_parameter p)
  | VIRTUAL_DAMPING => Some (virtual_damping_ratio p)
  | FORCE_GAIN => Some (force_gain p)
  | PARAMETER_UNLISTED _ => None
  end.

(** Writing through an [AdjustableParameter*] obtained from [params_.map]:
    the pointer aliases a member of [params_], so the member changes. *)
Definition map_store (k : ParameterSelection) (a : AdjustableParameter)
  (p : Parameters) : Parameters :=
  let pick (k' : ParameterSelection) (old : AdjustableParameter) :=
    if ParameterSelection_beq k k' then a else old in
  mkParameters (time_delta p) (impedance_control p) (imu_rotation_offset p)
    (gait_type p)
    (pick STEP_FREQUENCY (step_frequency p))
    (pick STEP_CLEARANCE (step_clearance p))
    (pick BODY_CLEARANCE (body_clearance p))
    (pick LEG_SPAN_SCALE (leg_span_scale p))
    (max_linear_acceleration p) (max_angular_acceleration p)
    (force_cruise_velocity p) (linear_cruise_velocity p)
    (angular_cruise_velocity p) (start_up_sequence p) (dynamic_stiffness p)
    (use_joint_effort p)
    (pick VIRTUAL_MASS (virtual_mass p))
    (pick VIRTUAL_STIFFNESS (virtual_stiffness_parameter p))
    (pick VIRTUAL_DAMPING (virtual_damping_ratio p))
    (pick FORCE_GAIN (force_gain p))
    (debug_IK p) (gait_parameters p).

Definition set_current_value (v : Q) (a : AdjustableParameter)
  : AdjustableParameter :=
  mkAdjustableParameter (name a) (data a) v (default_value a) (min_value a)
    (max_value a) (adjust_step a).

Definition set_adjust_step (v : Q) (a : AdjustableParameter)
  : AdjustableParameter :=
  mkAdjustableParameter (name a) (data a) (current_value a) (default_value a)
    (min_value a) (max_value a) v.

Definition set_gait (g : string) (gp : GaitParameters) (p : Parameters)
  : Parameters :=
  mkParameters (time_delta p) (impedance_control p) (imu_rotation_offset p)
    g (step_frequency p) (step_clearance p) (body_clearance p)
    (leg_span_scale p) (max_linear_acceleration p)
    (max_angular_acceleration p) (force_cruise_velocity p)
    (linear_cruise_velocity p) (angular_cruise_velocity p)
    (start_up_sequence p) (dynamic_stiffness p) (use_joint_effort p)
    (virtual_mass p) (virtual_stiffness_parameter p) (virtual_damping_ratio p)
    (force_gain p) (debug_IK p) gp.

Definition set_max_accelerations (lin ang : Q) (p : Parameters)
  : Parameters :=
  mkParameters (time_delta p) (impedance_control p) (imu_rotation_offset p)
    (gait_type p) (step_frequency p) (step_clearance p) (body_clearance p)
    (leg_span_scale p) lin ang (force_cruise_velocity p)
    (linear_cruise_velocity p) (angular_cruise_velocity p)
    (start_up_sequence p) (dynamic_stiffness p) (use_joint_effort p)
    (virtual_mass p) (virtual_stiffness_parameter p) (virtual_damping_ratio p)
    (force_gain p) (debug_IK p) (gait_parameters p).

(** ** Sensor messages *)

Record ImuMessage : Type := mkImuMessage {
  orientation_w : Q; orientation_x : Q; orientation_y : Q; orientation_z : Q;
  linear_acceleration : Vector3d;
  angular_velocity : Vector3d
}.

(** [sensor_msgs::JointState]: parallel arrays. *)
Record JointStateMessage : Type := mkJointStateMessage {
  msg_name : list string;
  msg_position : list Q;
  msg_velocity : list Q;
  msg_effort : list Q
}.

(** ** The trace of observable actions *)

Inductive Event : Type :=
  | EvUpdateCurrentPose
  | EvUpdateStiffness
  | EvUpdateImpedance (leg : nat)
  | EvDirectStartup
  | EvUnpackLegs
  | EvPackLegs
  | EvStartUpSequence
  | EvShutDownSequence
  | EvSetGaitParams
  | EvImpedanceInit
  | EvWalkerInit
  | EvStepToNewStance
  | EvCalculateDefaultPose
  | EvSetPoseResetMode (mode : PoseResetMode)
  | EvPoseForLegManipulation
  | EvUpdateLegStiffness (leg : nat)
  | EvUpdateWalk
  | EvUpdateManual
  | EvUpdateStance
  | EvApplyIK (leg : nat) (desired_tip : Vector3d)
  | EvPublish
  | EvWarn (message : string)
  | EvFatal (message : string)
  | EvShutdown
  | EvInvalidPointer.

(** ** The collaborating objects

    [robot] groups the four objects the controller reaches through the
    pointers [model_], [walker_], [poser_] and [impedance_].  The three
    controllers keep a pointer to the model, so a call on one of them may
    change the model as well. *)

Set Implicit Arguments.

Record Robot (W P I : Type) : Type := mkRobot {
  model_ : Model;
  walker_ : W;
  poser_ : P;
  impedance_ : I
}.

Unset Implicit Arguments.

(** The member functions of the absent classes that stateController.cpp
    calls, and the parameter server.  Each takes the parameters it can read
    through its [Parameters*]; none of them writes them. *)
Class Collaborators (W P I : Type) : Type := {
  getWalkState : W -> WalkState;
  getBodyHeight : W -> Q;
  updateWalk : Parameters -> Vector2d -> Q -> Robot W P I -> Robot W P I;
  updateManual : Parameters -> LegDesignation -> Vector3d -> LegDesignation
                 -> Vector3d -> Robot W P I -> Robot W P I;
  setGaitParams : Parameters -> Robot W P I -> Robot W P I;
  getPoseResetMode : P -> PoseResetMode;
  setPoseResetMode : PoseResetMode -> P -> P;
  setManualPoseInput : Vector3d -> Vector3d -> P -> P;
  setImuData : Vector3d -> ImuMessage -> P -> P;
  updateCurrentPose : Parameters -> Q -> Robot W P I -> Robot W P I;
  updateStance : Parameters -> Robot W P I -> Robot W P I;
  directStartup : Parameters -> Robot W P I -> Q * Robot W P I;
  unpackLegs : Parameters -> Q -> Robot W P I -> bool * Robot W P I;
  packLegs : Parameters -> Q -> Robot W P I -> bool * Robot W P I;
  startUpSequence : Parameters -> Robot W P I -> bool * Robot W P I;
  shutDownSequence : Parameters -> Robot W P I -> bool * Robot W P I;
  stepToNewStance : Parameters -> Robot W P I -> Q * Robot W P I;
  calculateDefaultPose : Parameters -> Robot W P I -> Robot W P I;
  poseForLegManipulation : Parameters -> Robot W P I -> Q * Robot W P I;
  impedanceInit : Parameters -> Robot W P I -> Robot W P I;
  updateStiffness : Parameters -> Robot W P I -> Robot W P I;
  updateLegStiffness : Parameters -> I -> Leg -> Q -> I * Leg;
  updateImpedance : Parameters -> bool -> I -> Leg -> I * Leg;
  applyIK : bool -> bool -> Leg -> Leg;
  rosparam_gait_type : string;
  rosparam_gait_parameters : string -> GaitParameters;
  UNASSIGNED_VALUE : Q
}.

(** ** The controller object (stateController.h) *)

Set Implicit Arguments.

Record StateController (W P I : Type) : Type := mkStateController {
  robot : Robot W P I;
  params_ : Parameters;
  system_state_ : SystemState;
  new_system_state_ : SystemState;
  gait_selection_ : GaitDesignation;
  posing_mode_ : PosingMode;
  cruise_control_mode_ : CruiseControlMode;
  auto_navigation_mode_ : AutoNavigationMode;
  parameter_selection_ : ParameterSelection;
  (** the key of the [params_.map] entry the pointer was read from;
      [NO_PARAMETER_SELECTION] while the pointer was never assigned, and a
      key without an entry for the null pointer read under that key *)
  parameter_being_adjusted_ : ParameterSelection;
  primary_leg_selection_ : LegDesignation;
  secondary_leg_selection_ : LegDesignation;
  primary_leg_state_ : LegState;
  secondary_leg_state_ : LegState;
  (** the key of the leg the pointer refers to *)
  primary_leg_ : LegDesignation;
  secondary_leg_ : LegDesignation;
  manual_leg_count_ : Z;
  user_input_flag_ : bool;
  gait_change_flag_ : bool;
  toggle_primary_leg_state_ : bool;
  toggle_secondary_leg_state_ : bool;
  parameter_adjust_flag_ : bool;
  new_parameter_set_ : bool;
  joint_positions_initialised : bool;
  transition_state_flag_ : bool;
  linear_velocity_input_ : Vector2d;
  angular_velocity_input_ : Q;
  primary_tip_velocity_input_ : Vector3d;
  secondary_tip_velocity_input_ : Vector3d;
  linear_cruise_velocity_ : Vector2d;
  angular_cruise_velocity_ : Q;
  (** instrumentation: the actions performed so far, oldest first *)
  trace : list Event;
  (** [ros::shutdown()] was called *)
  shutdown_requested : bool
}.

Unset Implicit Arguments.

Section Controller.

Context {W P I : Type} {C : Collaborators W P I}.

Local Abbreviation SC := (StateController W P I).

(** *** Member assignment

    [eta] rebuilds a controller from its members; the assignment to one
    member is [eta] with that member replaced. *)

Definition eta (st : SC) : SC :=
  mkStateController
    (robot st) (params_ st) (system_state_ st) (new_system_state_ st)
    (gait_selection_ st) (posing_mode_ st) (cruise_control_mode_ st)
    (auto_navigation_mode_ st) (parameter_selection_ st)
    (parameter_being_adjusted_ st) (primary_leg_selection_ st)
    (secondary_leg_selection_ st) (primary_leg_state_ st)
    (secondary_leg_state_ st) (primary_leg_ st) (secondary_leg_ st)
    (manual_leg_count_ st) (user_input_flag_ st) (gait_change_flag_ st)
    (toggle_primary_leg_state_ st) (toggle_secondary_leg_state_ st)
    (parameter_adjust_flag_ st) (new_parameter_set_ st)
    (joint_positions_initialised st) (transition_state_flag_ st)
    (linear_velocity_input_ st) (angular_velocity_input_ st)
    (primary_tip_velocity_input_ st) (secondary_tip_velocity_input_ st)
    (linear_cruise_velocity_ st) (angular_cruise_velocity_ st)
    (trace st) (shutdown_requested st).

Ltac assign member :=
  let v := fresh "v" in
  let st := fresh "st" in
  intros v st;
  let body := eval cbv beta delta [eta] in (eta st) in
  let abstracted := eval pattern (member W P I st) in body in
  match abstracted with
  | ?f _ => let r := eval cbv beta in (f v) in exact r
  end.

Definition set_robot : Robot W P I -> SC -> SC := ltac:(assign @robot).
Definition set_params : Parameters -> SC -> SC := ltac:(assign @params_).
Definition set_system_state : SystemState -> SC -> SC :=
  ltac:(assign @system_state_).
Definition set_new_system_state : SystemState -> SC -> SC :=
  ltac:(assign @new_system_state_).
Definition set_gait_selection : GaitDesignation -> SC -> SC :=
  ltac:(assign @gait_selection_).
Definition set_posing_mode : PosingMode -> SC -> SC :=
  ltac:(assign @posing_mode_).
Definition set_cruise_control_mode : CruiseControlMode -> SC -> SC :=
  ltac:(assign @cruise_control_mode_).
Definition set_auto_navigation_mode : AutoNavigationMode -> SC -> SC :=
  ltac:(assign @auto_navigation_mode_).
Definition set_parameter_selection : ParameterSelection -> SC -> SC :=
  ltac:(assign @parameter_selection_).
Definition set_parameter_being_adjusted : ParameterSelection -> SC -> SC :=
  ltac:(assign @parameter_being_adjusted_).
Definition set_primary_leg_selection : LegDesignation -> SC -> SC :=
  ltac:(assign @primary_leg_selection_).
Definition set_secondary_leg_selection : LegDesignation -> SC -> SC :=
  ltac:(assign @secondary_leg_selection_).
Definition set_primary_leg_state : LegState -> SC -> SC :=
  ltac:(assign @primary_leg_state_).
Definition set_secondary_leg_state : LegState -> SC -> SC :=
  ltac:(assign @secondary_leg_state_).
Definition set_primary_leg : LegDesignation -> SC -> SC :=
  ltac:(assign @primary_leg_).
Definition set_secondary_leg : LegDesignation -> SC -> SC :=
  ltac:(assign @secondary_leg_).
Definition set_manual_leg_count : Z -> SC -> SC :=
  ltac:(assign @manual_leg_count_).
Definition set_user_input_flag : bool -> SC -> SC :=
  ltac:(assign @user_input_flag_).
Definition set_gait_change_flag : bool -> SC -> SC :=
  ltac:(assign @gait_change_flag_).
Definition set_toggle_primary_leg_state : bool -> SC -> SC :=
  ltac:(assign @toggle_primary_leg_state_).
Definition set_toggle_secondary_leg_state : bool -> SC -> SC :=
  ltac:(assign @toggle_secondary_leg_state_).
Definition set_parameter_adjust_flag : bool -> SC -> SC :=
  ltac:(assign @parameter_adjust_flag_).
Definition set_new_parameter_set : bool -> SC -> SC :=
  ltac:(assign @new_parameter_set_).
Definition set_joint_positions_initialised : bool -> SC -> SC :=
  ltac:(assign @joint_positions_initialised).
Definition set_transition_state_flag : bool -> SC -> SC :=
  ltac:(assign @transition_state_flag_).
Definition set_linear_velocity_input : Vector2d -> SC -> SC :=
  ltac:(assign @linear_velocity_input_).
Definition set_angular_velocity_input : Q -> SC -> SC :=
  ltac:(assign @angular_velocity_input_).
Definition set_primary_tip_velocity_input : Vector3d -> SC -> SC :=
  ltac:(assign @primary_tip_velocity_input_).
Definition set_secondary_tip_velocity_input : Vector3d -> SC -> SC :=
  ltac:(assign @secondary_tip_velocity_input_).
Definition set_linear_cruise_velocity : Vector2d -> SC -> SC :=
  ltac:(assign @linear_cruise_velocity_).
Definition set_angular_cruise_velocity : Q -> SC -> SC :=
  ltac:(assign @angular_cruise_velocity_).
Definition set_trace : list Event -> SC -> SC := ltac:(assign @trace).
Definition set_shutdown_requested : bool -> SC -> SC :=
  ltac:(assign @shutdown_requested).

Definition set_model (m : Model) (r : Robot W P I) : Robot W P I :=
  mkRobot m (walker_ r) (poser_ r) (impedance_ r).
Definition set_poser (p : P) (r : Robot W P I) : Robot W P I :=
  mkRobot (model_ r) (walker_ r) p (impedance_ r).
Definition set_impedance (i : I) (r : Robot W P I) : Robot W P I :=
  mkRobot (model_ r) (walker_ r) (poser_ r) i.

(** *** Logging, shutdown and calls on collaborators *)

Local Open Scope cpp_scope.

Definition emit (e : Event) (st : SC) : SC := set_trace (trace st ++ [e]) st.

Definition ROS_WARN (message : string) (st : SC) : SC :=
  emit (EvWarn message) st.

Definition ROS_FATAL (message : string) (st : SC) : SC :=
  emit (EvFatal message) st.

(** [ros::shutdown()] requests the shutdown of the node and returns; the
    calling function runs to its end. *)
Definition ros_shutdown (st : SC) : SC :=
  emit EvShutdown (set_shutdown_requested true st).

(** A call on a collaborator that returns nothing. *)
Definition call (e : Event)
  (f : Parameters -> Robot W P I -> Robot W P I) (st : SC) : SC :=
  emit e (set_robot (f (params_ st) (robot st)) st).

(** A call on a collaborator that returns a value. *)
Definition call_returning {A : Type} (e : Event)
  (f : Parameters -> Robot W P I -> A * Robot W P I) (st : SC) : A * SC :=
  let (a, r) := f (params_ st) (robot st) in
  (a, emit e (set_robot r st)).

Definition walk_state (st : SC) : WalkState :=
  getWalkState (walker_ (robot st)).

(** Dereferencing a [Leg*] obtained from the model.  Where the model holds
    no leg under the key the C++ program has no defined behaviour; the
    embedding records [EvInvalidPointer] and goes on without the access. *)
Definition with_leg (d : LegDesignation) (k : Leg -> SC -> SC) (st : SC)
  : SC :=
  match getLegByIDNumber (model_ (robot st)) d with
  | Some leg => k leg st
  | None => emit EvInvalidPointer st
  end.

Definition write_leg (leg : Leg) (st : SC) : SC :=
  set_robot (set_model (store_leg leg (model_ (robot st))) (robot st)) st.

Definition zero_velocity_inputs (st : SC) : SC :=
  set_angular_velocity_input 0%Q
    (set_linear_velocity_input (mkVector2d 0%Q 0%Q) st).

(** *** impedanceControl (stateController.cpp:147) *)

(** The loop over the leg container: the legs are visited in key order and
    the impedance controller is threaded through the visits. *)
Fixpoint impedance_loop (p : Parameters) (legs : list Leg) (imp : I)
  (log : list Event) : list Leg * I * list Event :=
  match legs with
  | [] => ([], imp, log)
  | leg :: rest =>
      if leg_state leg == WALKING then
        let (imp1, leg1) := updateImpedance p (use_joint_effort p) imp leg in
        let '(rest1, imp2, log1) :=
          impedance_loop p rest imp1
            (log ++ [EvUpdateImpedance (id_number leg)]) in
        (leg1 :: rest1, imp2, log1)
      else
        let '(rest1, imp1, log1) := impedance_loop p rest imp log in
        (leg :: rest1, imp1, log1)
  end.

Definition impedanceControl (st : SC) : SC :=
  let st1 :=
    if walk_state st != STOPPED
    then call EvUpdateStiffness updateStiffness st
    else st in
  let '(legs, imp, log) :=
    impedance_loop (params_ st1) (leg_container (model_ (robot st1)))
      (impedance_ (robot st1)) (trace st1) in
  set_trace log
    (set_robot (set_impedance imp (set_model (mkModel legs) (robot st1))) st1).

(** *** transitionSystemState (stateController.cpp:168) *)

Definition MSG_PACKED_NO_STARTUP : string :=
  "Hexapod currently in packed state and cannot run direct startup sequence.".

Definition MSG_START_UP_FALSE : string :=
  "start_up_sequence parameter is set to false, ensure hexapod is off the ground before transitioning system state.".

Definition MSG_STATE_UNKNOWN : string :=
  "Hexapod state is unknown. Future state transitions may be undesireable, recommend ensuring hexapod is off the ground before proceeding.".

Definition MSG_UNDEFINED_TRANSITION : string :=
  "Undefined system state transition was requested! Shutting down controller!".

(** [int(abs(current_position - packed_position) < joint_tolerance)], with
    [abs] the absolute value of a double. *)
Definition joint_is_packed (joint : Joint) : Z :=
  let joint_tolerance := 0.01%Q in
  Z.b2z (Qlt_bool (Qabs (current_position joint - packed_position joint))
                  joint_tolerance).

(** The two nested loops that accumulate [check_packed]. *)
Definition count_packed_joints (check_packed : Z) (leg : Leg) : Z :=
  fold_left (fun n joint => n + joint_is_packed joint) (joint_container leg)
            check_packed.

Definition count_packed (m : Model) : Z :=
  fold_left count_packed_joints (leg_container m) 0.

Definition transitionSystemState (st : SC) : SC :=
  let start_up := start_up_sequence (params_ st) in
  let st1 :=
    (* UNKNOWN -> OFF/PACKED/READY/RUNNING *)
    if system_state_ st == UNKNOWN then
      let check_packed := count_packed (model_ (robot st)) in
      if Z.eqb check_packed (getLegCount (model_ (robot st))) then
        if negb start_up
        then ros_shutdown (ROS_FATAL MSG_PACKED_NO_STARTUP st)
        else set_system_state PACKED st
      else if negb start_up
      then set_system_state OFF (ROS_WARN MSG_START_UP_FALSE st)
      else ROS_WARN MSG_STATE_UNKNOWN (set_system_state PACKED st)
    (* OFF -> !OFF *)
    else if (system_state_ st == OFF) && (new_system_state_ st != OFF) then
      (* OFF -> RUNNING (direct startup) *)
      if (new_system_state_ st == RUNNING) && negb start_up then
        let (result, st2) :=
          call_returning EvDirectStartup directStartup st in
        let progress := double_to_int (result * 100) in
        let complete := Z.eqb progress 100 in
        if complete then set_system_state RUNNING st2 else st2
      (* OFF -> PACKED/READY/RUNNING (start controller) *)
      else set_system_state PACKED st
    (* PACKED -> OFF *)
    else if (system_state_ st == PACKED) && (new_system_state_ st == OFF) then
      set_system_state OFF st
    (* PACKED -> READY/RUNNING *)
    else if (system_state_ st == PACKED)
            && ((new_system_state_ st == READY)
                || (new_system_state_ st == RUNNING)) then
      let (complete, st2) :=
        call_returning EvUnpackLegs
          (fun p => unpackLegs p (2 / data (step_frequency p))) st in
      if complete then set_system_state READY st2 else st2
    (* READY -> PACKED/OFF *)
    else if (system_state_ st == READY)
            && ((new_system_state_ st == PACKED)
                || (new_system_state_ st == OFF)) then
      let (complete, st2) :=
        call_returning EvPackLegs
          (fun p => packLegs p (2 / data (step_frequency p))) st in
      if complete then set_system_state PACKED st2 else st2
    (* READY -> RUNNING *)
    else if (system_state_ st == READY) && (new_system_state_ st == RUNNING)
    then
      let (complete, st2) :=
        call_returning EvStartUpSequence startUpSequence st in
      if complete then set_system_state RUNNING st2 else st2
    (* RUNNING -> !RUNNING *)
    else if (system_state_ st == RUNNING) && (new_system_state_ st != RUNNING)
    then
      if (new_system_state_ st == OFF) && negb start_up then
        set_system_state OFF st
      else
        let (complete, st2) :=
          call_returning EvShutDownSequence shutDownSequence st in
        if complete then set_system_state READY st2 else st2
    (* undefined system transition *)
    else ros_shutdown (ROS_FATAL MSG_UNDEFINED_TRANSITION st) in
  (* transition complete *)
  if system_state_ st1 == new_system_state_ st1
  then set_transition_state_flag false st1
  else st1.

(** *** adjustParameter (stateController.cpp:366) *)

Definition adjustParameter (st : SC) : SC :=
  if walk_state st == STOPPED then
    if negb (new_parameter_set_ st) then
      match map_lookup (params_ st) (parameter_being_adjusted_ st) with
      | None => emit EvInvalidPointer st
      | Some p =>
          let p1 :=
            set_current_value
              (clamped (current_value p + adjust_step p) (min_value p)
                       (max_value p)) p in
          let st1 :=
            set_params (map_store (parameter_being_adjusted_ st) p1
                                  (params_ st)) st in
          (* walker_->init() is commented out in the source *)
          let st2 := call EvImpedanceInit impedanceInit st1 in
          set_new_parameter_set true st2
      end
    else
      (* update tip positions for the new parameter value *)
      let (progress, st1) :=
        call_returning EvStepToNewStance stepToNewStance st in
      let complete := Qeq_bool progress 1 in
      if complete
      then set_new_parameter_set false (set_parameter_adjust_flag false st1)
      else st1
  else
    (* force hexapod to stop walking *)
    zero_velocity_inputs st.

(** *** initGaitParameters and changeGait (stateController.cpp:1254, 405) *)

Definition initGaitParameters (gaitSelection : GaitDesignation) (st : SC)
  : SC :=
  let gait :=
    match gaitSelection with
    | TRIPOD_GAIT => "tripod_gait"%string
    | RIPPLE_GAIT => "ripple_gait"%string
    | WAVE_GAIT => "wave_gait"%string
    | AMBLE_GAIT => "amble_gait"%string
    | GAIT_UNDESIGNATED => rosparam_gait_type
    end in
  set_params (set_gait gait (rosparam_gait_parameters gait) (params_ st)) st.

Definition changeGait (st : SC) : SC :=
  if walk_state st == STOPPED then
    let st1 := initGaitParameters (gait_selection_ st) st in
    let st2 := call EvSetGaitParams setGaitParams st1 in
    let st3 :=
      set_params (set_max_accelerations (-1) (-1) (params_ st2)) st2 in
    set_gait_change_flag false st3
  else
    (* force hexapod to stop walking *)
    zero_velocity_inputs st.

(** *** legStateToggle (stateController.cpp:428) *)

Definition clear_toggle_flags (st : SC) : SC :=
  set_toggle_secondary_leg_state false
    (set_toggle_primary_leg_state false st).

Definition call_setPoseResetMode (mode : PoseResetMode) (st : SC) : SC :=
  emit (EvSetPoseResetMode mode)
    (set_robot (set_poser (setPoseResetMode mode (poser_ (robot st)))
                          (robot st)) st).

(** [impedance_->updateStiffness(transitioning_leg, res)] *)
Definition call_updateLegStiffness (d : LegDesignation) (res : Q) (st : SC)
  : SC :=
  with_leg d (fun leg st0 =>
    let (imp, leg1) :=
      updateLegStiffness (params_ st0) (impedance_ (robot st0)) leg res in
    emit (EvUpdateLegStiffness (id_number leg))
      (write_leg leg1 (set_robot (set_impedance imp (robot st0)) st0))) st.

(** The common part of the two [*_TO_*] branches: pose the body for the
    manipulation, and once the pose is reached set the leg to [final],
    clear the request and add [count_step] to [manual_leg_count_]. *)
Definition progress_leg_transition (d : LegDesignation) (final : LegState)
  (count_step : Z) (st : SC) : SC :=
  let st1 := call_setPoseResetMode IMMEDIATE_ALL_RESET st in
  let (res, st2) :=
    call_returning EvPoseForLegManipulation poseForLegManipulation st1 in
  let st3 :=
    if dynamic_stiffness (params_ st2)
    then call_updateLegStiffness d res st2
    else st2 in
  if Qeq_bool res 1 then
    let st4 := with_leg d (fun leg => write_leg (setLegState final leg)) st3 in
    let st5 := clear_toggle_flags st4 in
    let st6 := call_setPoseResetMode NO_RESET st5 in
    set_manual_leg_count (manual_leg_count_ st6 + count_step) st6
  else st3.

Definition legStateToggle (st : SC) : SC :=
  if walk_state st == STOPPED then
    (* choose primary or secondary leg state to transition; with neither
       request raised the pointer is left unassigned *)
    let transitioning_leg :=
      if toggle_primary_leg_state_ st then primary_leg_selection_ st
      else if toggle_secondary_leg_state_ st then secondary_leg_selection_ st
      else LEG_UNDESIGNATED in
    (* transitioning_leg->getIDName() *)
    with_leg transitioning_leg (fun _ st0 =>
      let st1 := call EvCalculateDefaultPose calculateDefaultPose st0 in
      with_leg transitioning_leg (fun leg st2 =>
        match leg_state leg with
        | WALKING =>
            if Z.ltb (manual_leg_count_ st2) MAX_MANUAL_LEGS
            then write_leg (setLegState WALKING_TO_MANUAL leg) st2
            else clear_toggle_flags st2
        | MANUAL => write_leg (setLegState MANUAL_TO_WALKING leg) st2
        | WALKING_TO_MANUAL =>
            progress_leg_transition transitioning_leg MANUAL 1 st2
        | MANUAL_TO_WALKING =>
            progress_leg_transition transitioning_leg WALKING (-1) st2
        end) st1) st
  else
    (* force hexapod to stop walking *)
    zero_velocity_inputs st.

(** *** runningState (stateController.cpp:310) *)

(** The first [if ... else if] chain of [runningState]. *)
Definition running_action (st : SC) : SC :=
  if gait_change_flag_ st then changeGait st
  else if parameter_adjust_flag_ st then adjustParameter st
  else if toggle_primary_leg_state_ st || toggle_secondary_leg_state_ st
  then legStateToggle st
  else if cruise_control_mode_ st == CRUISE_CONTROL_ON then
    set_angular_velocity_input (angular_cruise_velocity_ st)
      (set_linear_velocity_input (linear_cruise_velocity_ st) st)
  else st.

(** The guard of the second [if] of [runningState]. *)
Definition pipeline_guard (st : SC) : bool :=
  negb ((gait_change_flag_ st || parameter_adjust_flag_ st
         || toggle_primary_leg_state_ st || toggle_secondary_leg_state_ st)
        && (walk_state st == STOPPED)).

(** The loop that applies inverse kinematics on each leg.  The event of a
    visit carries the [desired_tip_position] of the leg at the moment
    [applyIK] is called on it. *)
Fixpoint ik_loop (debug : bool) (legs : list Leg) (log : list Event)
  : list Leg * list Event :=
  match legs with
  | [] => ([], log)
  | leg :: rest =>
      let target_tip_position := poser_current_tip_position leg in
      let target_tip_position :=
        (* don't apply delta Z to manually manipulated legs *)
        if leg_state leg != MANUAL
        then vec3_set target_tip_position 2
               (vec3_get target_tip_position 2 - delta_z leg)
        else target_tip_position in
      let leg1 := setDesiredTipPosition target_tip_position leg in
      let log1 :=
        log ++ [EvApplyIK (id_number leg1) (desired_tip_position leg1)] in
      let leg2 := applyIK true debug leg1 in
      let (rest1, log2) := ik_loop debug rest log1 in
      (leg2 :: rest1, log2)
  end.

(** The walker and poser calls in the body of the second [if] of
    [runningState]. *)
Definition update_walk_and_pose (st : SC) : SC :=
  (* update tip positions for walking legs *)
  let st1 :=
    call EvUpdateWalk
      (fun p => updateWalk p (linear_velocity_input_ st)
                           (angular_velocity_input_ st)) st in
  (* update tip positions for manually controlled legs *)
  let st2 :=
    call EvUpdateManual
      (fun p => updateManual p (primary_leg_selection_ st1)
                  (primary_tip_velocity_input_ st1)
                  (secondary_leg_selection_ st1)
                  (secondary_tip_velocity_input_ st1)) st1 in
  (* pose controller applies pose compensation *)
  call EvUpdateStance updateStance st2.

(** The loop over the legs that ends the body of the second [if]. *)
Definition apply_ik_to_legs (st : SC) : SC :=
  let (legs, log) :=
    ik_loop (debug_IK (params_ st)) (leg_container (model_ (robot st)))
            (trace st) in
  set_trace log (set_robot (set_model (mkModel legs) (robot st)) st).

(** The body of the second [if] of [runningState]. *)
Definition update_tip_positions (st : SC) : SC :=
  apply_ik_to_legs (update_walk_and_pose st).

Definition runningState (st : SC) : SC :=
  let st1 := running_action st in
  if pipeline_guard st1 then update_tip_positions st1 else st1.

(** *** loop (stateController.cpp:119) *)

(** The first [if] of [loop]: pose compensation and impedance control. *)
Definition loop_compensation (st : SC) : SC :=
  if system_state_ st != UNKNOWN then
    let st1 :=
      call EvUpdateCurrentPose
        (fun p r => updateCurrentPose p (getBodyHeight (walker_ r)) r) st in
    (* impedance control - updates deltaZ values *)
    if impedance_control (params_ st1) then impedanceControl st1 else st1
  else st.

(** The second [if] of [loop]: the hexapod state machine. *)
Definition loop_state_machine (st : SC) : SC :=
  if transition_state_flag_ st then transitionSystemState st
  else if system_state_ st == RUNNING then runningState st
  else st.

Definition loop (st : SC) : SC := loop_state_machine (loop_compensation st).

(** *** publishDesiredJointState (stateController.cpp:521) *)

Definition publish_joint (time_delta : Q) (joint : Joint) : Joint :=
  let v := ((desired_position joint - prev_desired_position joint)
            / time_delta)%Q in
  mkJoint (joint_name joint) (current_position joint)
    (current_velocity joint) (current_effort joint) (desired_position joint)
    (desired_position joint) v (position_offset joint)
    (packed_position joint).

Definition publishDesiredJointState (st : SC) : SC :=
  let dt := time_delta (params_ st) in
  let legs :=
    map (fun leg =>
           setJointContainer (map (publish_joint dt) (joint_container leg))
                             leg)
        (leg_container (model_ (robot st))) in
  emit EvPublish (set_robot (set_model (mkModel legs) (robot st)) st).

(** *** Topic callbacks (stateController.cpp:709-1142)

    A callback on an [Int8] topic casts the number to an enumeration; the
    embedding takes the value of the enumeration as the argument.  For the
    parameter selection, whose value is used as a key of [params_.map],
    the argument can also be a number that names no enumerator. *)

Definition bodyVelocityInputCallback (linear_x linear_y angular_z : Q)
  (st : SC) : SC :=
  set_angular_velocity_input angular_z
    (set_linear_velocity_input (mkVector2d linear_x linear_y) st).

Definition primaryTipVelocityInputCallback (input : Vector3d) (st : SC)
  : SC :=
  set_primary_tip_velocity_input input st.

Definition secondaryTipVelocityInputCallback (input : Vector3d) (st : SC)
  : SC :=
  set_secondary_tip_velocity_input input st.

Definition bodyPoseInputCallback (linear angular : Vector3d) (st : SC) : SC :=
  if system_state_ st != WAITING_FOR_USER then
    let rotation_input := angular in
    let translation_input := linear in
    set_robot
      (set_poser (setManualPoseInput translation_input rotation_input
                                     (poser_ (robot st))) (robot st)) st
  else st.

Definition systemStateCallback (input_state : SystemState) (st : SC) : SC :=
  let st1 :=
    (* get initial system state from input *)
    if new_system_state_ st == WAITING_FOR_USER then
      set_new_system_state input_state st
    (* wait for user input (start button = new state received) *)
    else if (system_state_ st == WAITING_FOR_USER)
            && (new_system_state_ st != input_state) then
      set_user_input_flag true (set_new_system_state input_state st)
    (* if startUpSequence is false then skip READY and PACKED states *)
    else if (system_state_ st != WAITING_FOR_USER)
            && negb (start_up_sequence (params_ st)) then
      let st2 := set_new_system_state input_state st in
      if (new_system_state_ st2 == READY) || (new_system_state_ st2 == PACKED)
      then set_new_system_state OFF st2
      else st2
    else st in
  if (new_system_state_ st1 != system_state_ st1)
     && (system_state_ st1 != WAITING_FOR_USER)
  then set_transition_state_flag true st1
  else st1.

Definition gaitSelectionCallback (new_gait_selection : GaitDesignation)
  (st : SC) : SC :=
  if system_state_ st == RUNNING then
    if (new_gait_selection != gait_selection_ st)
       && (new_gait_selection != GAIT_UNDESIGNATED)
    then set_gait_change_flag true (set_gait_selection new_gait_selection st)
    else st
  else st.

Definition posingModeCallback (new_posing_mode : PosingMode) (st : SC) : SC :=
  if system_state_ st == RUNNING then
    if new_posing_mode != posing_mode_ st
    then set_posing_mode new_posing_mode st
    else st
  else st.

Definition cruiseControlCallback (new_cruise_control_mode : CruiseControlMode)
  (st : SC) : SC :=
  if system_state_ st == RUNNING then
    if new_cruise_control_mode != cruise_control_mode_ st then
      let st1 := set_cruise_control_mode new_cruise_control_mode st in
      if new_cruise_control_mode == CRUISE_CONTROL_ON then
        if force_cruise_velocity (params_ st1) then
          (* set cruise velocity according to parameters *)
          set_angular_cruise_velocity (angular_cruise_velocity (params_ st1))
            (set_linear_cruise_velocity
               (linear_cruise_velocity (params_ st1)) st1)
        else
          (* save current velocity input as cruise input *)
          set_angular_cruise_velocity (angular_velocity_input_ st1)
            (set_linear_cruise_velocity (linear_velocity_input_ st1) st1)
      else st1
    else st
  else st.

Definition autoNavigationCallback
  (new_auto_navigation_mode : AutoNavigationMode) (st : SC) : SC :=
  if system_state_ st == RUNNING then
    if new_auto_navigation_mode != auto_navigation_mode_ st
    then set_auto_navigation_mode new_auto_navigation_mode st
    else st
  else st.

(** [params_.map[parameter_selection_]] inserts a null pointer for a key
    that has no entry and returns it; the pointer is then the key itself,
    whose lookup finds nothing.  [ROS_INFO] reads the name of the parameter
    through the pointer at once. *)
Definition parameterSelectionCallback
  (new_parameter_selection : ParameterSelection) (st : SC) : SC :=
  if system_state_ st == RUNNING then
    if new_parameter_selection != parameter_selection_ st then
      let st1 := set_parameter_selection new_parameter_selection st in
      if parameter_selection_ st1 != NO_PARAMETER_SELECTION
      then
        let st2 :=
          set_parameter_being_adjusted (parameter_selection_ st1) st1 in
        match map_lookup (params_ st2) (parameter_being_adjusted_ st2) with
        | Some _ => st2
        | None => emit EvInvalidPointer st2
        end
      else st1
    else st
  else st.

Definition parameterAdjustCallback (adjust_direction : Z) (st : SC) : SC :=
  if system_state_ st == RUNNING then
    if negb (Z.eqb adjust_direction 0) && negb (parameter_adjust_flag_ st)
       && (parameter_selection_ st != NO_PARAMETER_SELECTION) then
      match map_lookup (params_ st) (parameter_being_adjusted_ st) with
      | None => emit EvInvalidPointer st
      | Some p =>
          let st1 :=
            (* if directions differ, change direction *)
            if negb (Z.eqb (sign (adjust_step p))
                           (sign (inject_Z adjust_direction)))
            then
              set_params
                (map_store (parameter_being_adjusted_ st)
                   (set_adjust_step (adjust_step p * -1) p) (params_ st)) st
            else st in
          set_parameter_adjust_flag true st1
      end
    else st
  else st.

Definition poseResetCallback (input : PoseResetMode) (st : SC) : SC :=
  if system_state_ st != WAITING_FOR_USER then
    if getPoseResetMode (poser_ (robot st)) != IMMEDIATE_ALL_RESET then
      set_robot
        (set_poser (setPoseResetMode input (poser_ (robot st))) (robot st)) st
    else st
  else st.

Definition primaryLegSelectionCallback
  (new_primary_leg_selection : LegDesignation) (st : SC) : SC :=
  if system_state_ st == RUNNING then
    if primary_leg_selection_ st != new_primary_leg_selection then
      let st1 := set_primary_leg_selection new_primary_leg_selection st in
      if new_primary_leg_selection != LEG_UNDESIGNATED then
        (* primary_leg_->getIDName() for the log line *)
        with_leg (primary_leg_selection_ st1)
          (fun _ => set_primary_leg (primary_leg_selection_ st1)) st1
      else st1
    else st
  else st.

Definition secondaryLegSelectionCallback
  (new_secondary_leg_selection : LegDesignation) (st : SC) : SC :=
  if system_state_ st == RUNNING then
    if secondary_leg_selection_ st != new_secondary_leg_selection then
      let st1 := set_secondary_leg_selection new_secondary_leg_selection st in
      if new_secondary_leg_selection != LEG_UNDESIGNATED then
        (* secondary_leg_->getIDName() for the log line *)
        with_leg (secondary_leg_selection_ st1)
          (fun _ => set_secondary_leg (secondary_leg_selection_ st1)) st1
      else st1
    else st
  else st.

Definition primaryLegStateCallback (newPrimaryLegState : LegState) (st : SC)
  : SC :=
  if system_state_ st == RUNNING then
    if newPrimaryLegState != primary_leg_state_ st then
      if primary_leg_selection_ st == LEG_UNDESIGNATED then st
      else if toggle_secondary_leg_state_ st then st
      else
        set_toggle_primary_leg_state true
          (set_primary_leg_state newPrimaryLegState st)
    else st
  else st.

Definition secondaryLegStateCallback (newSecondaryLegState : LegState)
  (st : SC) : SC :=
  if system_state_ st == RUNNING then
    if newSecondaryLegState != secondary_leg_state_ st then
      if secondary_leg_selection_ st == LEG_UNDESIGNATED then st
      else if toggle_primary_leg_state_ st then st
      else
        set_toggle_secondary_leg_state true
          (set_secondary_leg_state newSecondaryLegState st)
    else st
  else st.

(** The rotation of the raw data by [imu_rotation_offset] is quaternion
    arithmetic of the absent [Quat] class; it is part of [setImuData]
    here, which receives the offset and the raw message. *)
Definition imuCallback (message : ImuMessage) (st : SC) : SC :=
  let euler_offset := imu_rotation_offset (params_ st) in
  set_robot
    (set_poser (setImuData euler_offset message (poser_ (robot st)))
               (robot st)) st.

(** One visit of the inner loop of [jointStatesCallback] on one leg:
    [leg->getJointByIDName(joint_name)] and the assignments through the
    returned pointer. *)
Definition receive_joint_state (joint_name0 : string) (position : Q)
  (velocity effort : option Q) (leg : Leg) : Leg :=
  let receive (joint : Joint) : Joint :=
    if String.eqb (joint_name joint) joint_name0 then
      mkJoint (joint_name joint) (position - position_offset joint)
        (match velocity with Some v => v | None => current_velocity joint end)
        (match effort with Some e => e | None => current_effort joint end)
        (desired_position joint) (prev_desired_position joint)
        (desired_velocity joint) (position_offset joint)
        (packed_position joint)
    else joint in
  setJointContainer (map receive (joint_container leg)) leg.

Fixpoint receive_joint_states (i : nat) (names : list string)
  (message : JointStateMessage) (legs : list Leg) : list Leg :=
  match names with
  | [] => legs
  | joint_name0 :: rest =>
      let get_velocity_values :=
        negb (Nat.eqb (List.length (msg_velocity message)) 0) in
      let get_effort_values :=
        negb (Nat.eqb (List.length (msg_effort message)) 0) in
      let velocity :=
        if get_velocity_values
        then Some (nth i (msg_velocity message) 0%Q) else None in
      let effort :=
        if get_effort_values
        then Some (nth i (msg_effort message) 0%Q) else None in
      receive_joint_states (S i) rest message
        (map (receive_joint_state joint_name0
                (nth i (msg_position message) 0%Q) velocity effort) legs)
  end.

Definition all_joints_assigned (legs : list Leg) : bool :=
  forallb (fun leg =>
             forallb (fun joint =>
                        negb (Qeq_bool (current_position joint)
                                       UNASSIGNED_VALUE))
                     (joint_container leg)) legs.

Definition jointStatesCallback (joint_states : JointStateMessage) (st : SC)
  : SC :=
  let legs :=
    receive_joint_states 0 (msg_name joint_states) joint_states
      (leg_container (model_ (robot st))) in
  let st1 := set_robot (set_model (mkModel legs) (robot st)) st in
  (* check if all joint positions have been received from topic *)
  if negb (joint_positions_initialised st1)
  then set_joint_positions_initialised (all_joints_assigned legs) st1
  else st1.

(** The loop of [tipForceCallback] over the leg container.  The read
    [effort[n]] is unchecked: past the end of the vector the C++ program
    has no defined behaviour; as for an invalid pointer the embedding
    records [EvInvalidPointer] and goes on without the access. *)
Fixpoint tip_force_loop (raw_tip_forces : JointStateMessage)
  (legs : list Leg) (log : list Event) : list Leg * list Event :=
  match legs with
  | [] => ([], log)
  | leg :: rest =>
      let force_offset := 1255%Q in
      let max_force := 1000%Q in
      let min_force := 0%Q in
      match nth_error (msg_effort raw_tip_forces) (id_number leg * 2) with
      | Some effort =>
          let tip_force0 :=
            clamped (effort - force_offset) min_force max_force in
          let (rest1, log1) := tip_force_loop raw_tip_forces rest log in
          (setTipForce tip_force0 leg :: rest1, log1)
      | None =>
          let (rest1, log1) :=
            tip_force_loop raw_tip_forces rest (log ++ [EvInvalidPointer]) in
          (leg :: rest1, log1)
      end
  end.

Definition tipForceCallback (raw_tip_forces : JointStateMessage) (st : SC)
  : SC :=
  let (legs, log) :=
    tip_force_loop raw_tip_forces (leg_container (model_ (robot st)))
                   (trace st) in
  set_trace log (set_robot (set_model (mkModel legs) (robot st)) st).

(** *** init (stateController.cpp:84)

    The controller objects created by [init] are the ones held in [robot];
    [init] sets the gait selection from the configured gait type and the
    system state to [UNKNOWN]. *)
Definition init (st : SC) : SC :=
  let gait := gait_type (params_ st) in
  let st1 :=
    if String.eqb gait "tripod_gait" then set_gait_selection TRIPOD_GAIT st
    else if String.eqb gait "ripple_gait"
    then set_gait_selection RIPPLE_GAIT st
    else if String.eqb gait "wave_gait" then set_gait_selection WAVE_GAIT st
    else if String.eqb gait "amble_gait"
    then set_gait_selection AMBLE_GAIT st
    else st in
  set_system_state UNKNOWN st1.

(** *** The operations of a constructed controller

    What the node runs on the controller once it is constructed: [init],
    the tick, the publication of the joint targets and the callbacks of the
    subscribed topics.  (The telemetry publishers only read the
    controller.) *)
Inductive Operation : Type :=
  | OpInit
  | OpLoop
  | OpPublishDesiredJointState
  | OpBodyVelocityInput (linear_x linear_y angular_z : Q)
  | OpPrimaryTipVelocityInput (input : Vector3d)
  | OpSecondaryTipVelocityInput (input : Vector3d)
  | OpBodyPoseInput (linear angular : Vector3d)
  | OpSystemState (input : SystemState)
  | OpGaitSelection (input : GaitDesignation)
  | OpPosingMode (input : PosingMode)
  | OpCruiseControl (input : CruiseControlMode)
  | OpAutoNavigation (input : AutoNavigationMode)
  | OpParameterSelection (input : ParameterSelection)
  | OpParameterAdjust (input : Z)
  | OpPrimaryLegSelection (input : LegDesignation)
  | OpSecondaryLegSelection (input : LegDesignation)
  | OpPrimaryLegState (input : LegState)
  | OpSecondaryLegState (input : LegState)
  | OpPoseReset (input : PoseResetMode)
  | OpImu (message : ImuMessage)
  | OpJointStates (message : JointStateMessage)
  | OpTipForce (message : JointStateMessage).

Definition perform (op : Operation) (st : SC) : SC :=
  match op with
  | OpInit => init st
  | OpLoop => loop st
  | OpPublishDesiredJointState => publishDesiredJointState st
  | OpBodyVelocityInput x y z => bodyVelocityInputCallback x y z st
  | OpPrimaryTipVelocityInput v => primaryTipVelocityInputCallback v st
  | OpSecondaryTipVelocityInput v => secondaryTipVelocityInputCallback v st
  | OpBodyPoseInput l a => bodyPoseInputCallback l a st
  | OpSystemState s => systemStateCallback s st
  | OpGaitSelection g => gaitSelectionCallback g st
  | OpPosingMode m => posingModeCallback m st
  | OpCruiseControl m => cruiseControlCallback m st
  | OpAutoNavigation m => autoNavigationCallback m st
  | OpParameterSelection k => parameterSelectionCallback k st
  | OpParameterAdjust d => parameterAdjustCallback d st
  | OpPrimaryLegSelection d => primaryLegSelectionCallback d st
  | OpSecondaryLegSelection d => secondaryLegSelectionCallback d st
  | OpPrimaryLegState s => primaryLegStateCallback s st
  | OpSecondaryLegState s => secondaryLegStateCallback s st
  | OpPoseReset m => poseResetCallback m st
  | OpImu m => imuCallback m st
  | OpJointStates m => jointStatesCallback m st
  | OpTipForce m => tipForceCallback m st
  end.

(** Performing operations one after the other, first to last. *)
Definition run (ops : list Operation) (st : SC) : SC :=
  fold_left (fun s op => perform op s) ops st.

(** *** Observations on a tick *)

(** The events a function appends to the trace of [st]. *)
Definition appended (f : SC -> SC) (st : SC) : list Event :=
  skipn (List.length (trace st)) (trace (f st)).


(** One of the gait-change, parameter-adjust and leg-state-toggle requests
    is raised. *)
Definition action_pending (st : SC) : bool :=
  gait_change_flag_ st || parameter_adjust_flag_ st
  || toggle_primary_leg_state_ st || toggle_secondary_leg_state_ st.

End Controller.

(** ** Pipeline stages

    The four stages of the tick pipeline and the events that belong to
    them: the walker calls, the pose controller's stance update, the
    impedance controller's per-tick update of stiffness and delta Z, and
    the inverse kinematics of a leg. *)

Inductive Stage : Type := StageWalk | StagePose | StageImpedance | StageIK.

Definition stage_of_event (e : Event) : option Stage :=
  match e with
  | EvUpdateWalk | EvUpdateManual => Some StageWalk
  | EvUpdateStance => Some StagePose
  | EvUpdateStiffness | EvUpdateImpedance _ => Some StageImpedance
  | EvApplyIK _ _ => Some StageIK
  | _ => None
  end.

Fixpoint stages (events : list Event) : list Stage :=
  match events with
  | [] => []
  | e :: rest =>
      match stage_of_event e with
      | Some s => s :: stages rest
      | None => stages rest
      end
  end.




Definition is_update_walk (e : Event) : bool :=
  match e with EvUpdateWalk => true | _ => false end.


Definition is_manual_associated (s : LegState) : bool :=
  match s with
  | WALKING => false
  | MANUAL | WALKING_TO_MANUAL | MANUAL_TO_WALKING => true
  end.

(** The number of legs in a state of MANUAL, WALKING_TO_MANUAL or
    MANUAL_TO_WALKING. *)
Definition manual_associated_legs (m : Model) : Z :=
  Z.of_nat
    (List.length
       (filter (fun leg => is_manual_associated (leg_state leg))
               (leg_container m))).

(** Every joint of every leg is within 0.01 rad of its packed position. *)
Definition all_joints_packed (m : Model) : bool :=
  forallb (fun leg =>
             forallb (fun joint =>
                        Qlt_bool (Qabs (current_position joint
                                        - packed_position joint)) 0.01%Q)
                     (joint_container leg))
          (leg_container m).

(** The input of the inverse kinematics of a leg as the specification
    words it: the posed tip, with delta Z taken off its z component unless
    the leg is MANUAL. *)
Definition posed_tip_minus_delta_z (leg : Leg) : Vector3d :=
  let posed_tip := poser_current_tip_position leg in
  match leg_state leg with
  | MANUAL => posed_tip
  | _ => mkVector3d (v3x posed_tip) (v3y posed_tip)
                    (v3z posed_tip - delta_z leg)%Q
  end.


(** The acceleration limits hold the sentinel that disables clamping. *)
Definition acceleration_clamping_disabled (p : Parameters) : Prop :=
  max_linear_acceleration p = (-1)%Q /\ max_angular_acceleration p = (-1)%Q.

(** ** What a step of the controller leaves alone *)

Section Frames.

Context {W P I : Type}.

Local Abbreviation SC := (StateController W P I).

(** The lifecycle members keep their values: the two system states and
    the transition flag. *)
Definition keeps_lifecycle (st st' : SC) : Prop :=
  system_state_ st' = system_state_ st
  /\ new_system_state_ st' = new_system_state_ st
  /\ transition_state_flag_ st' = transition_state_flag_ st.

(** The trace grows by events that belong to no pipeline stage. *)
Definition logs_no_stage (st st' : SC) : Prop :=
  exists evs : list Event, trace st' = trace st ++ evs /\ stages evs = [].

(** Disabled acceleration clamping stays disabled. *)
Definition keeps_clamping_disabled (st st' : SC) : Prop :=
  acceleration_clamping_disabled (params_ st) ->
  acceleration_clamping_disabled (params_ st').

(** The frame of the handlers of the RUNNING state. *)
Definition handler_frame (st st' : SC) : Prop :=
  keeps_lifecycle st st' /\ logs_no_stage st st'
  /\ keeps_clamping_disabled st st'.

End Frames.

Create HintDb frame.

(** ** A test double for the collaborators

    A robot whose walker is its walk state, whose pose controller is its
    pose reset mode and whose choreographies finish in one call.  It serves
    to run the controller on concrete inputs. *)

Module Bench.

Definition R : Type := Robot WalkState PoseResetMode unit.

#[global] Instance collaborators : Collaborators WalkState PoseResetMode unit :=
  {| getWalkState := fun w => w;
     getBodyHeight := fun _ => 0%Q;
     updateWalk := fun _ _ _ r => r;
     updateManual := fun _ _ _ _ _ r => r;
     setGaitParams := fun _ r => r;
     getPoseResetMode := fun p => p;
     setPoseResetMode := fun m _ => m;
     setManualPoseInput := fun _ _ p => p;
     setImuData := fun _ _ p => p;
     updateCurrentPose := fun _ _ r => r;
     updateStance := fun _ r => r;
     directStartup := fun _ (r : R) => (1%Q, r);
     unpackLegs := fun _ _ (r : R) => (true, r);
     packLegs := fun _ _ (r : R) => (true, r);
     startUpSequence := fun _ (r : R) => (true, r);
     shutDownSequence := fun _ (r : R) => (true, r);
     stepToNewStance := fun _ (r : R) => (1%Q, r);
     calculateDefaultPose := fun _ r => r;
     poseForLegManipulation := fun _ (r : R) => (1%Q, r);
     impedanceInit := fun _ r => r;
     updateStiffness := fun _ r => r;
     updateLegStiffness := fun _ i leg _ => (i, leg);
     updateImpedance := fun _ _ i leg => (i, leg);
     applyIK := fun _ _ leg => leg;
     rosparam_gait_type := "tripod_gait"%string;
     rosparam_gait_parameters := fun _ => mkGaitParameters 2 2 2 [0; 1; 0; 1; 0; 1];
     UNASSIGNED_VALUE := 10000000000%Q |}.

Definition joint (n : string) (position packed : Q) : Joint :=
  mkJoint n position 0 0 0 0 0 0 packed.

(** A leg of three joints, all at [position], whose packed position is 0;
    the posed tip is (1, 2, 3) and delta Z is 1/4. *)
Definition leg (id : nat) (n : string) (s : LegState) (position : Q) : Leg :=
  mkLeg id n s (1 # 4) 0 0 (mkVector3d 1 2 3) (mkVector3d 0 0 0)
    [joint "coxa" position 0; joint "femur" position 0;
     joint "tibia" position 0].

(** Six walking legs with every joint at [position]. *)
Definition hexapod (position : Q) : Model :=
  mkModel [leg 0 "AR" WALKING position; leg 1 "BR" WALKING position;
           leg 2 "CR" WALKING position; leg 3 "CL" WALKING position;
           leg 4 "BL" WALKING position; leg 5 "AL" WALKING position].

Definition adjustable (n : string) (value lo hi step : Q)
  : AdjustableParameter :=
  mkAdjustableParameter n value value value lo hi step.

Definition parameters (start_up : bool) : Parameters :=
  mkParameters (1 # 50) true (mkVector3d 0 0 0) "tripod_gait"
    (adjustable "step_frequency" 1 (1 # 10) 3 (1 # 10))
    (adjustable "step_clearance" (1 # 10) (1 # 100) (4 # 10) (5 # 100))
    (adjustable "body_clearance" (1 # 2) (1 # 10) 1 (5 # 100))
    (adjustable "leg_span_scale" 1 (1 # 2) (3 # 2) (1 # 10))
    (5 # 100) (5 # 100) false (mkVector2d 0 0) 0 start_up false false
    (adjustable "virtual_mass" 10 1 100 5)
    (adjustable "virtual_stiffness" 10 1 100 5)
    (adjustable "virtual_damping_ratio" 1 (1 # 10) 10 (1 # 10))
    (adjustable "force_gain" 1 (1 # 10) 10 (1 # 10))
    false (mkGaitParameters 2 2 2 [0; 1; 0; 1; 0; 1]).

(** The controller as constructed: the member initialisers of
    stateController.h, over the given model, walk state and parameters. *)
Definition constructed (m : Model) (w : WalkState) (p : Parameters)
  : StateController WalkState PoseResetMode unit :=
  mkStateController (mkRobot m w NO_RESET tt) p
    WAITING_FOR_USER WAITING_FOR_USER GAIT_UNDESIGNATED NO_POSING
    CRUISE_CONTROL_OFF AUTO_NAVIGATION_OFF NO_PARAMETER_SELECTION
    NO_PARAMETER_SELECTION LEG_UNDESIGNATED LEG_UNDESIGNATED WALKING WALKING
    LEG_UNDESIGNATED LEG_UNDESIGNATED 0 false false false false false false
    false false (mkVector2d 0 0) 0 (mkVector3d 0 0 0) (mkVector3d 0 0 0)
    (mkVector2d 0 0) 0 [] false.

(** The controller in system state [s] with target [s], no request
    pending. *)
Definition settled (s : SystemState) (m : Model) (w : WalkState)
  (p : Parameters) : StateController WalkState PoseResetMode unit :=
  set_new_system_state s (set_system_state s (constructed m w p)).

(** A hexapod whose legs 0 and 1 have every joint at the packed position
    0 and whose other legs have every joint at 1 rad: six of its eighteen
    joints are packed. *)
Definition hexapod_two_legs_packed : Model :=
  mkModel [leg 0 "AR" WALKING 0; leg 1 "BR" WALKING 0;
           leg 2 "CR" WALKING 1; leg 3 "CL" WALKING 1;
           leg 4 "BL" WALKING 1; leg 5 "AL" WALKING 1].

(** The controller of model [m] in state UNKNOWN, with [start_up_sequence]
    false and the transition to RUNNING requested: the user chose RUNNING
    before [init] and the command is repeated after it. *)
Definition started (m : Model)
  : StateController WalkState PoseResetMode unit :=
  run [OpSystemState RUNNING; OpInit; OpSystemState RUNNING]
      (constructed m STOPPED (parameters false)).

(** A standing hexapod in state RUNNING, impedance control enabled. *)
Definition running_hexapod (w : WalkState)
  : StateController WalkState PoseResetMode unit :=
  settled RUNNING (hexapod 0) w (parameters true).

(** The same with the adjustment of the step frequency requested. *)
Definition adjusting (w : WalkState)
  : StateController WalkState PoseResetMode unit :=
  run [OpParameterSelection STEP_FREQUENCY; OpParameterAdjust 1]
      (running_hexapod w).


(** The same with a gait change to the wave gait requested. *)
Definition changing_gait
  : StateController WalkState PoseResetMode unit :=
  run [OpGaitSelection WAVE_GAIT] (running_hexapod STOPPED).

(** A controller in state OFF on its way to RUNNING by direct start-up
    ([start_up_sequence] false, transition flag raised). *)
Definition starting_directly
  : StateController WalkState PoseResetMode unit :=
  run [OpSystemState RUNNING]
      (settled OFF (hexapod 1) STOPPED (parameters false)).

(** A controller settled in state OFF, without start-up sequence. *)
Definition switched_off
  : StateController WalkState PoseResetMode unit :=
  settled OFF (hexapod 1) STOPPED (parameters false).

(** A controller in state PACKED asked to switch OFF. *)
Definition switching_off
  : StateController WalkState PoseResetMode unit :=
  run [OpSystemState OFF]
      (settled PACKED (hexapod 0) STOPPED (parameters false)).

(** The primary leg selection is moved from leg 0 to leg 1 and to leg 2
    while the toggle request of the primary slot is raised. *)
Definition reselect_during_toggle : list Operation :=
  [OpPrimaryLegSelection (LEG 0); OpPrimaryLegState MANUAL; OpLoop;
   OpPrimaryLegSelection (LEG 1); OpLoop;
   OpPrimaryLegSelection (LEG 2); OpLoop].

(** Operations that follow a gait change: walking, a parameter
    adjustment, a second gait change, a leg toggle and a shutdown. *)
Definition busy_session : list Operation :=
  [OpLoop; OpBodyVelocityInput 1 0 0; OpLoop; OpPublishDesiredJointState;
   OpParameterSelection STEP_FREQUENCY; OpParameterAdjust (-1); OpLoop;
   OpLoop; OpGaitSelection RIPPLE_GAIT; OpLoop; OpCruiseControl
   CRUISE_CONTROL_ON; OpPrimaryLegSelection (LEG 3); OpPrimaryLegState MANUAL;
   OpLoop; OpLoop; OpTipForce (mkJointStateMessage [] [] [] [1300%Q; 0%Q; 1255%Q]);
   OpSystemState OFF; OpLoop].

End Bench.

(** ** Further observations on the controller *)

(** The system states in which the callback behind an operation acts on
    its input: the callbacks of the selection, mode and adjustment topics
    test for RUNNING, those of the pose topics for anything but
    WAITING_FOR_USER, the others do not test the system state. *)
Definition accepted_in (op : Operation) (s : SystemState) : bool :=
  match op with
  | OpGaitSelection _ | OpPosingMode _ | OpCruiseControl _
  | OpAutoNavigation _ | OpParameterSelection _ | OpParameterAdjust _
  | OpPrimaryLegSelection _ | OpSecondaryLegSelection _
  | OpPrimaryLegState _ | OpSecondaryLegState _ =>
      SystemState_beq s RUNNING
  | OpBodyPoseInput _ _ | OpPoseReset _ =>
      negb (SystemState_beq s WAITING_FOR_USER)
  | _ => true
  end.

(** The operations that are topic callbacks. *)
Definition is_callback (op : Operation) : bool :=
  match op with
  | OpInit | OpLoop | OpPublishDesiredJointState => false
  | _ => true
  end.

(** The edges of the system state graph: a state and the states that one
    call of [transitionSystemState] can put in its place. *)
Definition allowed_step (from to : SystemState) : bool :=
  match from, to with
  | UNKNOWN, (UNKNOWN | OFF | PACKED) => true
  | OFF, (OFF | PACKED | RUNNING) => true
  | PACKED, (PACKED | OFF | READY) => true
  | READY, (READY | PACKED | RUNNING) => true
  | RUNNING, (RUNNING | OFF | READY) => true
  | WAITING_FOR_USER, WAITING_FOR_USER => true
  | SUSPENDED, SUSPENDED => true
  | _, _ => false
  end.

(** The pairs of current and target state, the current one not UNKNOWN,
    for which no transition is defined. *)
Definition undefined_transition (current target : SystemState) : bool :=
  match current with
  | UNKNOWN => false
  | OFF => SystemState_beq target OFF
  | PACKED =>
      match target with OFF | READY | RUNNING => false | _ => true end
  | READY =>
      match target with PACKED | OFF | RUNNING => false | _ => true end
  | RUNNING => SystemState_beq target RUNNING
  | WAITING_FOR_USER | SUSPENDED => true
  end.

Definition is_invalid_pointer (e : Event) : bool :=
  match e with EvInvalidPointer => true | _ => false end.

(** The calls that [impedanceControl] makes: the stiffness update for the
    walk cycle and the impedance update of a leg. *)
Definition is_impedance_control_call (e : Event) : bool :=
  match e with
  | EvUpdateStiffness | EvUpdateImpedance _ => true
  | _ => false
  end.

(** The message holds the effort entry [2 n] for every leg [n]. *)
Definition tip_forces_present (m : JointStateMessage) (legs : list Leg)
  : bool :=
  forallb (fun leg =>
             Nat.ltb (id_number leg * 2) (List.length (msg_effort m))) legs.

(** The key is one of the nine enumerators of [ParameterSelection]. *)
Definition names_enumerator (k : ParameterSelection) : bool :=
  match k with PARAMETER_UNLISTED _ => false | _ => true end.

(** The operation is no parameter selection message, or one whose integer
    is the value of an enumerator. *)
Definition selects_enumerator (op : Operation) : bool :=
  match op with
  | OpParameterSelection k => names_enumerator k
  | _ => true
  end.

(** A joint is within 0.01 rad of its packed position. *)
Definition within_packed_tolerance (joint : Joint) : bool :=
  Qlt_bool (Qabs (current_position joint - packed_position joint)) 0.01%Q.

(** The number of joints of the model within tolerance of their packed
    position. *)
Definition packed_joints (m : Model) : nat :=
  List.length
    (filter within_packed_tolerance
            (flat_map joint_container (leg_container m))).


Section Observations.

Context {W P I : Type} {C : Collaborators W P I}.

Local Abbreviation SC := (StateController W P I).

(** The name under which a gait is looked up on the parameter server. *)
Definition gait_name (g : GaitDesignation) : string :=
  match g with
  | TRIPOD_GAIT => "tripod_gait"
  | RIPPLE_GAIT => "ripple_gait"
  | WAVE_GAIT => "wave_gait"
  | AMBLE_GAIT => "amble_gait"
  | GAIT_UNDESIGNATED => rosparam_gait_type
  end.

(** The members that hold what the user selected or sent last, and the
    two latches set by callbacks. *)
Definition selections (st : SC) :=
  (gait_selection_ st, posing_mode_ st, cruise_control_mode_ st,
   auto_navigation_mode_ st, parameter_selection_ st,
   parameter_being_adjusted_ st, primary_leg_selection_ st,
   secondary_leg_selection_ st, primary_leg_state_ st,
   secondary_leg_state_ st, primary_leg_ st, secondary_leg_ st,
   user_input_flag_ st, joint_positions_initialised st,
   primary_tip_velocity_input_ st, secondary_tip_velocity_input_ st,
   linear_cruise_velocity_ st, angular_cruise_velocity_ st).

(** The request flags of [st'] are those of [st] or lowered. *)
Definition requests_only_lowered (st st' : SC) : Prop :=
  implb (gait_change_flag_ st') (gait_change_flag_ st) = true
  /\ implb (parameter_adjust_flag_ st') (parameter_adjust_flag_ st) = true
  /\ implb (toggle_primary_leg_state_ st') (toggle_primary_leg_state_ st)
     = true
  /\ implb (toggle_secondary_leg_state_ st')
           (toggle_secondary_leg_state_ st) = true.

(** What a tick leaves alone: the selections stay, the requests are at
    most lowered. *)
Definition tick_frame (st st' : SC) : Prop :=
  selections st' = selections st /\ requests_only_lowered st st'.

(** The selection is an enumerator; the parameter pointer refers to the
    selected parameter, and to some parameter of the map while an
    adjustment is requested. *)
Definition parameter_pointer_assigned (st : SC) : Prop :=
  names_enumerator (parameter_selection_ st) = true
  /\ (parameter_selection_ st <> NO_PARAMETER_SELECTION ->
      parameter_being_adjusted_ st = parameter_selection_ st)
  /\ (parameter_adjust_flag_ st = true ->
      map_lookup (params_ st) (parameter_being_adjusted_ st) <> None).

(** At most one of the two leg toggle requests is raised. *)
Definition one_toggle_at_most (st : SC) : Prop :=
  toggle_primary_leg_state_ st && toggle_secondary_leg_state_ st = false.

End Observations.

(** ** Further runs on the test double *)

Module Scenarios.

Import Bench.

(** The constructed controller, waiting for the user. *)
Definition waiting : StateController WalkState PoseResetMode unit :=
  constructed (hexapod 0) STOPPED (parameters false).

(** A running hexapod, no start-up sequence, asked for the state
    UNKNOWN. *)
Definition running_asked_for_unknown
  : StateController WalkState PoseResetMode unit :=
  run [OpSystemState UNKNOWN]
      (settled RUNNING (hexapod 0) STOPPED (parameters false)).

(** A toggle of a primary leg, the selection moved while it is pending,
    then a toggle of a secondary leg. *)
Definition toggles_of_both_slots : list Operation :=
  reselect_during_toggle
  ++ [OpSecondaryLegSelection (LEG 4); OpSecondaryLegState MANUAL; OpLoop;
      OpPrimaryLegState WALKING; OpLoop].

(** A parameter is selected, its adjustment requested, the selection
    cleared, and a tick follows. *)
Definition adjustment_with_selection_cleared : list Operation :=
  [OpParameterSelection STEP_FREQUENCY; OpParameterAdjust 1;
   OpParameterSelection NO_PARAMETER_SELECTION; OpLoop].

(** The controller after two different commands and a joint state
    message: both latches are raised. *)
Definition latched : StateController WalkState PoseResetMode unit :=
  run [OpSystemState RUNNING; OpSystemState OFF;
       OpJointStates (mkJointStateMessage [] [] [] [])] waiting.

(** A walking hexapod driven at 1/2 along x. *)
Definition walking_forward : StateController WalkState PoseResetMode unit :=
  run [OpBodyVelocityInput (1 # 2) 0 0] (running_hexapod MOVING).

(** A running hexapod with the step frequency selected. *)
Definition step_frequency_selected
  : StateController WalkState PoseResetMode unit :=
  run [OpParameterSelection STEP_FREQUENCY] (running_hexapod STOPPED).

(** The packed hexapod with the start-up sequence, in state UNKNOWN with
    the transition to RUNNING requested. *)
Definition cold : StateController WalkState PoseResetMode unit :=
  run [OpSystemState RUNNING; OpInit; OpSystemState RUNNING]
      (constructed (hexapod 0) STOPPED (parameters true)).

(** The parameters of the test double with impedance control off and
    dynamic stiffness on. *)
Definition parameters_without_impedance : Parameters :=
  mkParameters (1 # 50) false (mkVector3d 0 0 0) "tripod_gait"
    (adjustable "step_frequency" 1 (1 # 10) 3 (1 # 10))
    (adjustable "step_clearance" (1 # 10) (1 # 100) (4 # 10) (5 # 100))
    (adjustable "body_clearance" (1 # 2) (1 # 10) 1 (5 # 100))
    (adjustable "leg_span_scale" 1 (1 # 2) (3 # 2) (1 # 10))
    (5 # 100) (5 # 100) false (mkVector2d 0 0) 0 true true false
    (adjustable "virtual_mass" 10 1 100 5)
    (adjustable "virtual_stiffness" 10 1 100 5)
    (adjustable "virtual_damping_ratio" 1 (1 # 10) 10 (1 # 10))
    (adjustable "force_gain" 1 (1 # 10) 10 (1 # 10))
    false (mkGaitParameters 2 2 2 [0; 1; 0; 1; 0; 1]).

Definition running_without_impedance
  : StateController WalkState PoseResetMode unit :=
  settled RUNNING (hexapod 0) STOPPED parameters_without_impedance.

(** The same with leg 0 on its way from WALKING to MANUAL. *)
Definition toggling_without_impedance
  : StateController WalkState PoseResetMode unit :=
  run [OpPrimaryLegSelection (LEG 0); OpPrimaryLegState MANUAL; OpLoop]
      running_without_impedance.


(** Two tip force messages for six legs that differ at the odd indices,
    in their length and in the fields that are not efforts. *)
Definition forces_a : JointStateMessage :=
  mkJointStateMessage [] [] []
    [1300%Q; 7%Q; 1255%Q; 7%Q; 0%Q; 7%Q; 3000%Q; 7%Q; 2255%Q; 7%Q; 1755%Q].

Definition forces_b : JointStateMessage :=
  mkJointStateMessage ["x"%string] [1%Q] []
    [1300%Q; 9%Q; 1255%Q; 9%Q; 0%Q; 9%Q; 3000%Q; 9%Q; 2255%Q; 9%Q; 1755%Q;
     9%Q].

(** A tip force message too short for six legs. *)
Definition forces_short : JointStateMessage :=
  mkJointStateMessage [] [] [] [1300%Q; 7%Q; 1255%Q].

End Scenarios.

Create HintDb tick.

(** * Properties *)

Section Properties.

Context {W P I : Type} {C : Collaborators W P I}.

Local Abbreviation SC := (StateController W P I).

Local Open Scope cpp_scope.

(** ** Proof support *)

Ltac unfold_eqb :=
  cbv [eqb SystemState_EqB WalkState_EqB LegState_EqB GaitDesignation_EqB
       PosingMode_EqB CruiseControlMode_EqB AutoNavigationMode_EqB
       PoseResetMode_EqB ParameterSelection_EqB LegDesignation_EqB] in *.

(** Case analysis on the innermost scrutinee of the goal. *)
Ltac break_innermost :=
  match goal with
  | |- context [match ?x with _ => _ end] =>
      lazymatch x with
      | context [match _ with _ => _ end] => fail
      | _ => destruct x eqn:?
      end
  end.

Lemma SystemState_beq_eq (a b : SystemState) :
  SystemState_beq a b = true <-> a = b.
Proof. destruct a, b; simpl; split; intro H; try reflexivity; discriminate H. Qed.

Lemma WalkState_beq_eq (a b : WalkState) :
  WalkState_beq a b = true <-> a = b.
Proof. destruct a, b; simpl; split; intro H; try reflexivity; discriminate H. Qed.

Lemma SystemState_beq_refl (a : SystemState) : SystemState_beq a a = true.
Proof. destruct a; reflexivity. Qed.

Lemma skipn_length_app {A : Type} (l evs : list A) :
  skipn (List.length l) (l ++ evs) = evs.
Proof. induction l as [|x l IH]; simpl; [reflexivity | exact IH]. Qed.

Lemma appended_of_extension (f : SC -> SC) (st : SC) (evs : list Event) :
  trace (f st) = trace st ++ evs -> appended f st = evs.
Proof. intro H. unfold appended. rewrite H. apply skipn_length_app. Qed.

Lemma stages_app (a b : list Event) : stages (a ++ b) = stages a ++ stages b.
Proof.
  induction a as [|e a IH]; simpl; [reflexivity|].
  destruct (stage_of_event e); simpl; rewrite IH; reflexivity.
Qed.

(** *** What the compensation step of a tick leaves alone *)

Lemma impedanceControl_frame (st : SC) :
  system_state_ (impedanceControl st) = system_state_ st
  /\ new_system_state_ (impedanceControl st) = new_system_state_ st
  /\ transition_state_flag_ (impedanceControl st) = transition_state_flag_ st
  /\ params_ (impedanceControl st) = params_ st
  /\ shutdown_requested (impedanceControl st) = shutdown_requested st.
Proof.
  unfold impedanceControl.
  destruct (walk_state st != STOPPED);
    match goal with
    | |- context [impedance_loop ?p ?l ?i ?t] =>
        destruct (impedance_loop p l i t) as [[legs imp] log]
    end; simpl; repeat split; reflexivity.
Qed.

Lemma loop_compensation_frame (st : SC) :
  system_state_ (loop_compensation st) = system_state_ st
  /\ new_system_state_ (loop_compensation st) = new_system_state_ st
  /\ transition_state_flag_ (loop_compensation st) = transition_state_flag_ st
  /\ params_ (loop_compensation st) = params_ st
  /\ shutdown_requested (loop_compensation st) = shutdown_requested st.
Proof.
  unfold loop_compensation.
  destruct (system_state_ st != UNKNOWN); [|repeat split; reflexivity].
  match goal with
  | |- context [if ?b then _ else _] => destruct b
  end.
  - match goal with
    | |- context [impedanceControl ?s] =>
        destruct (impedanceControl_frame s) as (H1 & H2 & H3 & H4 & H5);
        rewrite H1, H2, H3, H4, H5
    end.
    simpl. repeat split; reflexivity.
  - simpl. repeat split; reflexivity.
Qed.

(** ** The system state machine *)

Lemma transitionSystemState_clears_flag (st : SC) :
  system_state_ (transitionSystemState st)
  = new_system_state_ (transitionSystemState st) ->
  transition_state_flag_ (transitionSystemState st) = false.
Proof.
  unfold transitionSystemState.
  match goal with
  | |- context [if system_state_ ?s == new_system_state_ ?s then _ else _] =>
      generalize s; intro st1
  end.
  destruct (system_state_ st1 == new_system_state_ st1) eqn:E.
  - intros _. reflexivity.
  - intro H. unfold_eqb. rewrite H, SystemState_beq_refl in E. discriminate E.
Qed.

(** C9.  Entering [transitionSystemState] with the system state equal to the
    target state, for a state among OFF, PACKED, READY and RUNNING, takes
    the undefined-transition branch: the fatal message is logged and the
    shutdown is requested; the state is kept and the flag is cleared.  The
    situation arises from a command: while a transition from OFF to RUNNING
    is pending (flag raised) and [start_up_sequence] is false, the command
    OFF makes the target equal to the current state and leaves the flag
    raised, and the next tick shuts the controller down. *)
Theorem transition_between_equal_states_is_fatal :
  (forall (st : SC) (s : SystemState),
      In s [OFF; PACKED; READY; RUNNING] ->
      system_state_ st = s ->
      new_system_state_ st = s ->
      trace (transitionSystemState st)
      = trace st ++ [EvFatal MSG_UNDEFINED_TRANSITION; EvShutdown]
      /\ shutdown_requested (transitionSystemState st) = true
      /\ system_state_ (transitionSystemState st) = s
      /\ transition_state_flag_ (transitionSystemState st) = false)
  /\
  (forall st : SC,
      start_up_sequence (params_ st) = false ->
      system_state_ st = OFF ->
      new_system_state_ st = RUNNING ->
      transition_state_flag_ st = true ->
      system_state_ (systemStateCallback OFF st) = OFF
      /\ new_system_state_ (systemStateCallback OFF st) = OFF
      /\ transition_state_flag_ (systemStateCallback OFF st) = true
      /\ shutdown_requested (loop (systemStateCallback OFF st)) = true).
Proof.
  assert (fatal : forall (st : SC) (s : SystemState),
      In s [OFF; PACKED; READY; RUNNING] ->
      system_state_ st = s ->
      new_system_state_ st = s ->
      trace (transitionSystemState st)
      = trace st ++ [EvFatal MSG_UNDEFINED_TRANSITION; EvShutdown]
      /\ shutdown_requested (transitionSystemState st) = true
      /\ system_state_ (transitionSystemState st) = s
      /\ transition_state_flag_ (transitionSystemState st) = false).
  { intros st s Hs Hsys Hnew.
    unfold transitionSystemState. rewrite Hsys, Hnew.
    simpl in Hs.
    destruct Hs as [<- | [<- | [<- | [<- | []]]]]; unfold_eqb; simpl;
      rewrite ?Hsys, ?Hnew; simpl; rewrite <- ?app_assoc; simpl;
      repeat split; solve [reflexivity | assumption]. }
  split; [exact fatal|].
  intros st Hstart Hsys Hnew Hflag.
  assert (Hcb : system_state_ (systemStateCallback OFF st) = OFF
                /\ new_system_state_ (systemStateCallback OFF st) = OFF
                /\ transition_state_flag_ (systemStateCallback OFF st) = true).
  { unfold systemStateCallback. rewrite Hsys, Hnew, Hstart.
    unfold_eqb. simpl. rewrite Hsys. simpl. auto. }
  destruct Hcb as (H1 & H2 & H3).
  repeat split; try assumption.
  unfold loop, loop_state_machine.
  destruct (loop_compensation_frame (systemStateCallback OFF st))
    as (F1 & F2 & F3 & _ & _).
  rewrite F3, H3.
  apply (fatal _ OFF).
  - simpl. auto.
  - rewrite F1. exact H1.
  - rewrite F2. exact H2.
Qed.

(** *** What the RUNNING state leaves alone *)

Ltac solve_extension :=
  first
    [ exists []; split; [symmetry; apply app_nil_r | reflexivity]
    | eexists; split;
      [rewrite <- ?app_assoc; reflexivity | reflexivity] ].

Ltac frame_leaf :=
  unfold handler_frame, keeps_lifecycle, logs_no_stage,
    keeps_clamping_disabled, acceleration_clamping_disabled;
  simpl;
  repeat match goal with |- _ /\ _ => split end;
  first [ reflexivity | solve_extension | tauto
        | intros _; split; reflexivity ].

Lemma handler_frame_refl (st : SC) : handler_frame st st.
Proof. frame_leaf. Qed.

Lemma handler_frame_trans (a b c : SC) :
  handler_frame a b -> handler_frame b c -> handler_frame a c.
Proof.
  intros ((A1 & A2 & A3) & (ea & Ea & Sa) & Ka)
         ((B1 & B2 & B3) & (eb & Eb & Sb) & Kb).
  repeat split.
  - congruence.
  - congruence.
  - congruence.
  - exists (ea ++ eb). split.
    + rewrite Eb, Ea, app_assoc. reflexivity.
    + rewrite stages_app, Sa, Sb. reflexivity.
  - apply Kb, Ka; assumption.
  - apply Kb, Ka; assumption.
Qed.

(** The frame of the primitive steps. *)

Lemma one_event_has_no_stage (e : Event) :
  stage_of_event e = None -> stages [e] = [].
Proof. intro H. simpl. rewrite H. reflexivity. Qed.

Lemma emit_frame (e : Event) (st : SC) :
  stage_of_event e = None -> handler_frame st (emit e st).
Proof.
  intro H. split; [|split].
  - repeat split.
  - exists [e]. split; [reflexivity | apply one_event_has_no_stage, H].
  - intro K. exact K.
Qed.

Lemma call_frame (e : Event) f (st : SC) :
  stage_of_event e = None -> handler_frame st (call e f st).
Proof.
  intro H. split; [|split].
  - repeat split.
  - exists [e]. split; [reflexivity | apply one_event_has_no_stage, H].
  - intro K. exact K.
Qed.

Lemma call_returning_frame {A : Type} (e : Event) f (st st' : SC) (a : A) :
  call_returning e f st = (a, st') ->
  stage_of_event e = None -> handler_frame st st'.
Proof.
  unfold call_returning. destruct (f (params_ st) (robot st)) as [a0 r].
  intros E H. injection E as _ <-.
  split; [|split].
  - repeat split.
  - exists [e]. split; [reflexivity | apply one_event_has_no_stage, H].
  - intro K. exact K.
Qed.

Lemma with_leg_frame (d : LegDesignation) (k : Leg -> SC -> SC) (st : SC) :
  (forall leg s, handler_frame s (k leg s)) ->
  handler_frame st (with_leg d k st).
Proof.
  intro H. unfold with_leg.
  destruct (getLegByIDNumber (model_ (robot st)) d).
  - apply H.
  - apply emit_frame. reflexivity.
Qed.

Lemma set_params_frame (p : Parameters) (st : SC) :
  (acceleration_clamping_disabled (params_ st) ->
   acceleration_clamping_disabled p) ->
  handler_frame st (set_params p st).
Proof.
  intro H. split; [|split].
  - repeat split.
  - exists []. split; [symmetry; apply app_nil_r | reflexivity].
  - exact H.
Qed.

Lemma set_robot_frame r (st : SC) : handler_frame st (set_robot r st).
Proof. frame_leaf. Qed.

Lemma set_gait_change_flag_frame b (st : SC) :
  handler_frame st (set_gait_change_flag b st).
Proof. frame_leaf. Qed.

Lemma set_parameter_adjust_flag_frame b (st : SC) :
  handler_frame st (set_parameter_adjust_flag b st).
Proof. frame_leaf. Qed.

Lemma set_new_parameter_set_frame b (st : SC) :
  handler_frame st (set_new_parameter_set b st).
Proof. frame_leaf. Qed.

Lemma set_toggle_primary_leg_state_frame b (st : SC) :
  handler_frame st (set_toggle_primary_leg_state b st).
Proof. frame_leaf. Qed.

Lemma set_toggle_secondary_leg_state_frame b (st : SC) :
  handler_frame st (set_toggle_secondary_leg_state b st).
Proof. frame_leaf. Qed.

Lemma set_manual_leg_count_frame n (st : SC) :
  handler_frame st (set_manual_leg_count n st).
Proof. frame_leaf. Qed.

Lemma set_linear_velocity_input_frame v (st : SC) :
  handler_frame st (set_linear_velocity_input v st).
Proof. frame_leaf. Qed.

Lemma set_angular_velocity_input_frame v (st : SC) :
  handler_frame st (set_angular_velocity_input v st).
Proof. frame_leaf. Qed.

Lemma write_leg_frame leg (st : SC) : handler_frame st (write_leg leg st).
Proof. apply set_robot_frame. Qed.

#[local] Hint Resolve set_robot_frame set_gait_change_flag_frame
  set_parameter_adjust_flag_frame set_new_parameter_set_frame
  set_toggle_primary_leg_state_frame set_toggle_secondary_leg_state_frame
  set_manual_leg_count_frame set_linear_velocity_input_frame
  set_angular_velocity_input_frame write_leg_frame : frame.

(** Composition of frames along the structure of the resulting state. *)
Ltac frame :=
  cbv beta zeta;
  lazymatch goal with
  | |- handler_frame ?s ?s => apply handler_frame_refl
  | H : call_returning _ _ ?s0 = (_, ?s1) |- handler_frame ?s ?s1 =>
      apply (handler_frame_trans s s0 s1);
      [frame | apply (call_returning_frame _ _ _ _ _ H); reflexivity]
  | |- handler_frame _ (if ?b then _ else _) => destruct b eqn:?; frame
  | |- handler_frame _ (match ?x with _ => _ end) => destruct x eqn:?; frame
  | |- handler_frame ?s (with_leg ?d ?k ?s') =>
      apply (handler_frame_trans s s' _);
      [frame | apply with_leg_frame; intros; frame]
  | |- handler_frame ?s (emit ?e ?s') =>
      apply (handler_frame_trans s s' _);
      [frame | apply emit_frame; reflexivity]
  | |- handler_frame ?s (call ?e ?f ?s') =>
      apply (handler_frame_trans s s' _);
      [frame | apply call_frame; reflexivity]
  | |- handler_frame ?s (set_params ?p ?s') =>
      apply (handler_frame_trans s s' _);
      [frame
      | apply set_params_frame;
        unfold acceleration_clamping_disabled; simpl;
        first [tauto | intros _; split; reflexivity] ]
  | |- handler_frame ?s (?f ?s') =>
      apply (handler_frame_trans s s' _);
      [frame | solve [auto with frame] ]
  end.

Lemma zero_velocity_inputs_frame (st : SC) :
  handler_frame st (zero_velocity_inputs st).
Proof. unfold zero_velocity_inputs. frame. Qed.

Lemma clear_toggle_flags_frame (st : SC) :
  handler_frame st (clear_toggle_flags st).
Proof. unfold clear_toggle_flags. frame. Qed.

Lemma call_setPoseResetMode_frame mode (st : SC) :
  handler_frame st (call_setPoseResetMode mode st).
Proof. unfold call_setPoseResetMode. frame. Qed.

Lemma call_updateLegStiffness_frame d res (st : SC) :
  handler_frame st (call_updateLegStiffness d res st).
Proof. unfold call_updateLegStiffness. frame. Qed.

#[local] Hint Resolve zero_velocity_inputs_frame clear_toggle_flags_frame
  call_setPoseResetMode_frame call_updateLegStiffness_frame : frame.

Lemma progress_leg_transition_frame d final count_step (st : SC) :
  handler_frame st (progress_leg_transition d final count_step st).
Proof. unfold progress_leg_transition. frame. Qed.

#[local] Hint Resolve progress_leg_transition_frame : frame.

Lemma adjustParameter_frame (st : SC) : handler_frame st (adjustParameter st).
Proof. unfold adjustParameter. frame. Qed.

Lemma changeGait_frame (st : SC) : handler_frame st (changeGait st).
Proof. unfold changeGait, initGaitParameters. frame. Qed.

Lemma legStateToggle_frame (st : SC) : handler_frame st (legStateToggle st).
Proof. unfold legStateToggle. frame. Qed.

Lemma running_action_frame (st : SC) : handler_frame st (running_action st).
Proof.
  unfold running_action.
  destruct (gait_change_flag_ st); [apply changeGait_frame|].
  destruct (parameter_adjust_flag_ st); [apply adjustParameter_frame|].
  destruct (toggle_primary_leg_state_ st || toggle_secondary_leg_state_ st);
    [apply legStateToggle_frame|].
  destruct (cruise_control_mode_ st == CRUISE_CONTROL_ON); frame.
Qed.

(** ** The pipeline *)

Lemma ik_target_as_specified (leg : Leg) :
  (if leg_state leg != MANUAL
   then vec3_set (poser_current_tip_position leg) 2
          (vec3_get (poser_current_tip_position leg) 2 - delta_z leg)
   else poser_current_tip_position leg)
  = posed_tip_minus_delta_z leg.
Proof.
  unfold posed_tip_minus_delta_z. unfold_eqb.
  destruct (leg_state leg); reflexivity.
Qed.

Lemma ik_loop_log (debug : bool) (legs : list Leg) (log : list Event) :
  snd (ik_loop debug legs log)
  = log ++ map (fun leg => EvApplyIK (id_number leg)
                                     (posed_tip_minus_delta_z leg)) legs.
Proof.
  revert log. induction legs as [|leg rest IH]; intro log.
  - simpl. symmetry. apply app_nil_r.
  - cbn [ik_loop map]. cbv zeta.
    rewrite ik_target_as_specified.
    match goal with
    | |- context [ik_loop debug rest ?l] =>
        specialize (IH l); destruct (ik_loop debug rest l) as [rest1 log2]
    end.
    simpl in IH |- *. rewrite IH, <- app_assoc. reflexivity.
Qed.

Lemma ik_loop_legs (debug : bool) (legs : list Leg) (log : list Event) :
  List.length (fst (ik_loop debug legs log)) = List.length legs.
Proof.
  revert log. induction legs as [|leg rest IH]; intro log; [reflexivity|].
  cbn [ik_loop]. cbv zeta.
  match goal with
  | |- context [ik_loop debug rest ?l] =>
      specialize (IH l); destruct (ik_loop debug rest l) as [rest1 log2]
  end.
  simpl in IH |- *. rewrite IH. reflexivity.
Qed.

Lemma update_walk_and_pose_trace (st : SC) :
  trace (update_walk_and_pose st)
  = trace st ++ [EvUpdateWalk; EvUpdateManual; EvUpdateStance].
Proof.
  unfold update_walk_and_pose, call, emit. simpl.
  rewrite <- !app_assoc. reflexivity.
Qed.

Lemma apply_ik_to_legs_trace (st : SC) :
  trace (apply_ik_to_legs st)
  = trace st
    ++ map (fun leg => EvApplyIK (id_number leg) (posed_tip_minus_delta_z leg))
           (leg_container (model_ (robot st))).
Proof.
  unfold apply_ik_to_legs.
  pose proof (ik_loop_log (debug_IK (params_ st))
                (leg_container (model_ (robot st))) (trace st)) as H.
  destruct (ik_loop (debug_IK (params_ st))
              (leg_container (model_ (robot st))) (trace st)) as [legs log].
  simpl in H |- *. exact H.
Qed.

Lemma runningState_trace (st : SC) :
  trace (runningState st)
  = trace (running_action st)
    ++ (if pipeline_guard (running_action st)
        then [EvUpdateWalk; EvUpdateManual; EvUpdateStance]
             ++ map (fun leg =>
                       EvApplyIK (id_number leg) (posed_tip_minus_delta_z leg))
                    (leg_container
                       (model_
                          (robot (update_walk_and_pose (running_action st)))))
        else []).
Proof.
  unfold runningState. cbv zeta.
  destruct (pipeline_guard (running_action st)).
  - unfold update_tip_positions.
    rewrite apply_ik_to_legs_trace, update_walk_and_pose_trace, <- app_assoc.
    reflexivity.
  - symmetry. apply app_nil_r.
Qed.

Lemma ik_loop_result (debug : bool) (legs : list Leg) (log : list Event) :
  fst (ik_loop debug legs log)
  = map (fun leg =>
           applyIK true debug
             (setDesiredTipPosition (posed_tip_minus_delta_z leg) leg)) legs.
Proof.
  revert log. induction legs as [|leg rest IH]; intro log; [reflexivity|].
  cbn [ik_loop map]. cbv zeta.
  rewrite ik_target_as_specified.
  match goal with
  | |- context [ik_loop debug rest ?l] =>
      specialize (IH l); destruct (ik_loop debug rest l) as [rest1 log2]
  end.
  simpl in IH |- *. rewrite IH. reflexivity.
Qed.

Lemma apply_ik_to_legs_result (st : SC) :
  leg_container (model_ (robot (apply_ik_to_legs st)))
  = map (fun leg =>
           applyIK true (debug_IK (params_ st))
             (setDesiredTipPosition (posed_tip_minus_delta_z leg) leg))
        (leg_container (model_ (robot st))).
Proof.
  unfold apply_ik_to_legs.
  pose proof (ik_loop_result (debug_IK (params_ st))
                (leg_container (model_ (robot st))) (trace st)) as H.
  destruct (ik_loop (debug_IK (params_ st))
              (leg_container (model_ (robot st))) (trace st)) as [legs log].
  simpl in H |- *. exact H.
Qed.

Lemma runningState_legs (st : SC) :
  leg_container (model_ (robot (runningState st)))
  = if pipeline_guard (running_action st)
    then map (fun leg =>
                applyIK true
                  (debug_IK (params_ (update_walk_and_pose (running_action st))))
                  (setDesiredTipPosition (posed_tip_minus_delta_z leg) leg))
             (leg_container
                (model_ (robot (update_walk_and_pose (running_action st)))))
    else leg_container (model_ (robot (running_action st))).
Proof.
  unfold runningState. cbv zeta.
  destruct (pipeline_guard (running_action st)); [|reflexivity].
  unfold update_tip_positions. apply apply_ik_to_legs_result.
Qed.

(** C5.  In a tick that runs the pipeline, [runningState] calls the walker
    and the pose controller and then, for each leg of the model in key
    order, [applyIK] on the leg with a [desired_tip_position] equal to the
    leg poser's current tip position, with [delta_z] subtracted from the z
    component when the leg is not MANUAL and unchanged when it is MANUAL.
    The calls are logged in that order with that tip position; the legs of
    the model after the tick are the results of [applyIK] on the legs so
    prepared, which differ from the legs the pose controller left in
    [desired_tip_position] alone; a tick that skips the pipeline leaves
    the legs to the handler. *)
Theorem ik_input_is_posed_tip_minus_delta_z (st : SC) :
  let posed := update_walk_and_pose (running_action st) in
  let handed (leg : Leg) :=
    setDesiredTipPosition (posed_tip_minus_delta_z leg) leg in
  trace (runningState st)
  = trace (running_action st)
    ++ (if pipeline_guard (running_action st)
        then [EvUpdateWalk; EvUpdateManual; EvUpdateStance]
             ++ map (fun leg =>
                       EvApplyIK (id_number leg) (posed_tip_minus_delta_z leg))
                    (leg_container
                       (model_
                          (robot (update_walk_and_pose (running_action st)))))
        else [])
  /\ leg_container (model_ (robot (runningState st)))
     = (if pipeline_guard (running_action st)
        then map (fun leg => applyIK true (debug_IK (params_ posed))
                                     (handed leg))
                 (leg_container (model_ (robot posed)))
        else leg_container (model_ (robot (running_action st))))
  /\ (forall leg : Leg,
        desired_tip_position (handed leg) = posed_tip_minus_delta_z leg
        /\ setDesiredTipPosition (desired_tip_position leg) (handed leg)
           = leg).
Proof.
  cbv zeta. split; [exact (runningState_trace st)|].
  split; [exact (runningState_legs st)|].
  intro leg. split; [reflexivity|]. destruct leg. reflexivity.
Qed.

(** *** The stages of a tick *)





(** [transitionSystemState] logs no pipeline stage and keeps the
    parameters. *)
Lemma transitionSystemState_frame (st : SC) :
  logs_no_stage st (transitionSystemState st)
  /\ params_ (transitionSystemState st) = params_ st.
Proof.
  unfold transitionSystemState, call_returning, ros_shutdown, ROS_FATAL,
    ROS_WARN, emit, logs_no_stage.
  repeat break_innermost; simpl; (split; [solve_extension | reflexivity]).
Qed.

Lemma stages_of_ik_events (legs : list Leg) :
  stages (map (fun leg => EvApplyIK (id_number leg)
                                    (posed_tip_minus_delta_z leg)) legs)
  = repeat StageIK (List.length legs).
Proof.
  induction legs as [|leg rest IH]; simpl; [|rewrite IH]; reflexivity.
Qed.




Lemma update_tip_positions_keeps_lifecycle (st : SC) :
  keeps_lifecycle st (update_tip_positions st)
  /\ params_ (update_tip_positions st) = params_ st.
Proof.
  unfold update_tip_positions, apply_ik_to_legs.
  match goal with
  | |- context [ik_loop ?d ?l ?t] => destruct (ik_loop d l t) as [legs log]
  end.
  simpl. repeat split; reflexivity.
Qed.

Lemma runningState_keeps_lifecycle (st : SC) :
  keeps_lifecycle st (runningState st).
Proof.
  unfold runningState. cbv zeta.
  destruct (running_action_frame st) as ((A1 & A2 & A3) & _ & _).
  destruct (pipeline_guard (running_action st)).
  - destruct (update_tip_positions_keeps_lifecycle (running_action st))
      as ((B1 & B2 & B3) & _).
    repeat split; congruence.
  - repeat split; assumption.
Qed.



(** *** When the pipeline runs *)



Lemma guard_while_walking (st : SC) :
  (walk_state st != STOPPED) = true -> pipeline_guard st = true.
Proof.
  unfold pipeline_guard. intro H.
  destruct (walk_state st == STOPPED); [discriminate H|].
  rewrite andb_false_r. reflexivity.
Qed.



(** C7 (as amended).  After every tick, [system_state_ == new_system_state_]
    implies that [transition_state_flag_] is false.  After a system state
    command the implication holds when the flag was not raised before the
    command: the callback raises the flag only when the two states differ,
    and never clears it. *)
Theorem equal_states_imply_flag_cleared (st st' : SC) :
  st' = loop st
  \/ (transition_state_flag_ st = false
      /\ exists input : SystemState, st' = systemStateCallback input st) ->
  system_state_ st' = new_system_state_ st' ->
  transition_state_flag_ st' = false.
Proof.
  intros [-> | (Hflag & input & ->)].
  - unfold loop, loop_state_machine.
    destruct (loop_compensation_frame st) as (F1 & F2 & F3 & _ & _).
    destruct (transition_state_flag_ (loop_compensation st)) eqn:E.
    + apply transitionSystemState_clears_flag.
    + intros _.
      destruct (system_state_ (loop_compensation st) == RUNNING);
        [|exact E].
      destruct (runningState_keeps_lifecycle (loop_compensation st))
        as (_ & _ & R3).
      rewrite R3. exact E.
  - unfold systemStateCallback. cbv zeta.
    match goal with
    | |- context [if (new_system_state_ ?s != system_state_ ?s) && _
                  then _ else _] => set (st1 := s)
    end.
    assert (Hst1 : transition_state_flag_ st1 = false).
    { subst st1. repeat break_innermost; simpl; exact Hflag. }
    clearbody st1.
    destruct ((new_system_state_ st1 != system_state_ st1)
              && (system_state_ st1 != WAITING_FOR_USER)) eqn:G.
    + simpl. intro Heq. unfold_eqb.
      rewrite Heq, SystemState_beq_refl in G. discriminate G.
    + intros _. exact Hst1.
Qed.

(** ** Commands *)

(** C4 (the code departs from the specification).  With [start_up_sequence] true, a
    system state command that arrives after the controller has left
    WAITING_FOR_USER, and once a first target has been captured, does not
    change the target: no branch of [systemStateCallback] stores it. *)
Theorem command_ignored_with_start_up_sequence (st : SC)
  (input : SystemState) :
  start_up_sequence (params_ st) = true ->
  system_state_ st <> WAITING_FOR_USER ->
  new_system_state_ st <> WAITING_FOR_USER ->
  new_system_state_ (systemStateCallback input st) = new_system_state_ st.
Proof.
  intros Hstart Hsys Hnew. unfold systemStateCallback. rewrite Hstart.
  destruct (new_system_state_ st == WAITING_FOR_USER) eqn:E1.
  { apply SystemState_beq_eq in E1. contradiction. }
  destruct (system_state_ st == WAITING_FOR_USER) eqn:E2.
  { apply SystemState_beq_eq in E2. contradiction. }
  simpl. rewrite E2. simpl. rewrite andb_true_r.
  destruct (new_system_state_ st != system_state_ st); reflexivity.
Qed.

(** Without the start-up sequence the command is stored, READY and PACKED
    as OFF. *)
Lemma command_stored_without_start_up_sequence (st : SC)
  (input : SystemState) :
  start_up_sequence (params_ st) = false ->
  system_state_ st <> WAITING_FOR_USER ->
  new_system_state_ st <> WAITING_FOR_USER ->
  new_system_state_ (systemStateCallback input st)
  = match input with
    | READY | PACKED => OFF
    | _ => input
    end.
Proof.
  intros Hstart Hsys Hnew. unfold systemStateCallback. rewrite Hstart.
  destruct (new_system_state_ st == WAITING_FOR_USER) eqn:E1.
  { apply SystemState_beq_eq in E1. contradiction. }
  destruct (system_state_ st == WAITING_FOR_USER) eqn:E2.
  { apply SystemState_beq_eq in E2. contradiction. }
  simpl. destruct input; unfold_eqb; simpl; repeat break_innermost;
    reflexivity.
Qed.

(** ** Leg state toggle *)

(** A toggle request on a WALKING leg, walker STOPPED: the leg is marked
    WALKING_TO_MANUAL when [manual_leg_count_] is below the cap, otherwise
    both requests are cleared and the leg stays WALKING. *)
Lemma toggle_of_walking_leg (st : SC) (d : LegDesignation) (leg0 leg : Leg) :
  walk_state st = STOPPED ->
  (if toggle_primary_leg_state_ st then primary_leg_selection_ st
   else if toggle_secondary_leg_state_ st then secondary_leg_selection_ st
   else LEG_UNDESIGNATED) = d ->
  getLegByIDNumber (model_ (robot st)) d = Some leg0 ->
  getLegByIDNumber
    (model_ (calculateDefaultPose (params_ st) (robot st))) d = Some leg ->
  leg_state leg = WALKING ->
  if Z.ltb (manual_leg_count_ st) MAX_MANUAL_LEGS
  then model_ (robot (legStateToggle st))
       = store_leg (setLegState WALKING_TO_MANUAL leg)
           (model_ (calculateDefaultPose (params_ st) (robot st)))
       /\ toggle_primary_leg_state_ (legStateToggle st)
          = toggle_primary_leg_state_ st
       /\ toggle_secondary_leg_state_ (legStateToggle st)
          = toggle_secondary_leg_state_ st
  else model_ (robot (legStateToggle st))
       = model_ (calculateDefaultPose (params_ st) (robot st))
       /\ toggle_primary_leg_state_ (legStateToggle st) = false
       /\ toggle_secondary_leg_state_ (legStateToggle st) = false.
Proof.
  intros Hw Hd Hleg0 Hleg Hstate.
  unfold legStateToggle. rewrite Hw, Hd. cbn [eqb WalkState_EqB WalkState_beq].
  unfold with_leg, call, emit. rewrite Hleg0. simpl. rewrite Hleg, Hstate.
  destruct (Z.ltb (manual_leg_count_ st) MAX_MANUAL_LEGS); simpl;
    repeat split; reflexivity.
Qed.

(** ** Parameter adjustment *)

Lemma clamped_within (v lo hi : Q) :
  (lo <= hi)%Q -> (lo <= clamped v lo hi <= hi)%Q.
Proof.
  intro H. unfold clamped. split.
  - apply Q.le_max_l.
  - apply Q.max_lub; [exact H | apply Q.le_min_r].
Qed.

Lemma map_lookup_store_same (k : ParameterSelection)
  (a old : AdjustableParameter) (p : Parameters) :
  map_lookup p k = Some old -> map_lookup (map_store k a p) k = Some a.
Proof. destruct k; simpl; intro H; try discriminate H; reflexivity. Qed.

Lemma map_lookup_store_other (k k' : ParameterSelection)
  (a : AdjustableParameter) (p : Parameters) :
  k' <> k -> map_lookup (map_store k a p) k' = map_lookup p k'.
Proof.
  intro H. destruct k, k'; simpl; try reflexivity; contradiction H;
    reflexivity.
Qed.



(** ** The acceleration limits *)

Lemma map_store_keeps_accelerations (k : ParameterSelection)
  (a : AdjustableParameter) (p : Parameters) :
  max_linear_acceleration (map_store k a p) = max_linear_acceleration p
  /\ max_angular_acceleration (map_store k a p) = max_angular_acceleration p.
Proof. split; reflexivity. Qed.

Lemma changeGait_disables_clamping (st : SC) :
  walk_state st = STOPPED ->
  acceleration_clamping_disabled (params_ (changeGait st)).
Proof.
  intro H. unfold changeGait. rewrite H. split; reflexivity.
Qed.

Lemma loop_keeps_clamping_disabled (st : SC) :
  keeps_clamping_disabled st (loop st).
Proof.
  unfold keeps_clamping_disabled, loop, loop_state_machine.
  destruct (loop_compensation_frame st) as (_ & _ & _ & F4 & _).
  rewrite <- F4. generalize (loop_compensation st). intros s H.
  destruct (transition_state_flag_ s).
  - destruct (transitionSystemState_frame s) as (_ & E). rewrite E. exact H.
  - destruct (system_state_ s == RUNNING); [|exact H].
    unfold runningState. cbv zeta.
    destruct (running_action_frame s) as (_ & _ & K).
    destruct (pipeline_guard (running_action s)); [|exact (K H)].
    destruct (update_tip_positions_keeps_lifecycle (running_action s))
      as (_ & E).
    rewrite E. exact (K H).
Qed.

Lemma perform_keeps_clamping_disabled (op : Operation) (st : SC) :
  keeps_clamping_disabled st (perform op st).
Proof.
  destruct op; cbn [perform]; try apply loop_keeps_clamping_disabled;
    unfold keeps_clamping_disabled, acceleration_clamping_disabled;
    unfold init, publishDesiredJointState, bodyVelocityInputCallback,
      primaryTipVelocityInputCallback, secondaryTipVelocityInputCallback,
      bodyPoseInputCallback, systemStateCallback, gaitSelectionCallback,
      posingModeCallback, cruiseControlCallback, autoNavigationCallback,
      parameterSelectionCallback, parameterAdjustCallback,
      primaryLegSelectionCallback, secondaryLegSelectionCallback,
      primaryLegStateCallback, secondaryLegStateCallback, poseResetCallback,
      imuCallback, jointStatesCallback, tipForceCallback, with_leg, emit;
    repeat break_innermost; simpl; exact (fun H => H).
Qed.

Lemma run_keeps_clamping_disabled (ops : list Operation) (st : SC) :
  keeps_clamping_disabled st (run ops st).
Proof.
  revert st. induction ops as [|op ops IH]; intros st H; [exact H|].
  simpl. apply IH, perform_keeps_clamping_disabled, H.
Qed.

(** C10.  A gait change carried out by [changeGait] (walker STOPPED) leaves
    both acceleration limits at the sentinel -1, and every operation of the
    controller performed afterwards, in any number and order, keeps them
    there; in particular a write through the adjustable-parameter map never
    reaches them. *)
Theorem acceleration_clamping_stays_disabled (st : SC)
  (ops : list Operation) :
  walk_state st = STOPPED ->
  acceleration_clamping_disabled (params_ (changeGait st))
  /\ acceleration_clamping_disabled (params_ (run ops (changeGait st)))
  /\ (forall k a,
        max_linear_acceleration (map_store k a (params_ st))
        = max_linear_acceleration (params_ st)
        /\ max_angular_acceleration (map_store k a (params_ st))
           = max_angular_acceleration (params_ st)).
Proof.
  intro H. split; [|split].
  - apply changeGait_disables_clamping, H.
  - apply run_keeps_clamping_disabled, changeGait_disables_clamping, H.
  - intros k a. apply map_store_keeps_accelerations.
Qed.

(** ** Resolution of the UNKNOWN state *)

(** What [transitionSystemState] does in state UNKNOWN: the robot counts as
    packed when the number of joints within tolerance of their packed
    position equals the number of legs. *)
Lemma unknown_resolution (st : SC) :
  system_state_ st = UNKNOWN ->
  let counts_as_packed :=
    Z.eqb (count_packed (model_ (robot st))) (getLegCount (model_ (robot st)))
  in
  system_state_ (transitionSystemState st)
  = (if start_up_sequence (params_ st) then PACKED
     else if counts_as_packed then UNKNOWN else OFF)
  /\ shutdown_requested (transitionSystemState st)
     = (shutdown_requested st
        || (counts_as_packed && negb (start_up_sequence (params_ st)))).
Proof.
  intros H counts_as_packed. subst counts_as_packed.
  unfold transitionSystemState. rewrite H. cbn [eqb SystemState_EqB SystemState_beq].
  destruct (Z.eqb (count_packed (model_ (robot st)))
                  (getLegCount (model_ (robot st))));
    destruct (start_up_sequence (params_ st)); simpl;
    repeat break_innermost; simpl; rewrite ?H, ?orb_false_r, ?orb_true_r;
    split; reflexivity.
Qed.

End Properties.

(** * Runs on the test double *)

Section Runs.

Import Bench.

Local Open Scope cpp_scope.

(** C1 (the code departs from the specification).  A hexapod with every
    one of its eighteen joints at the packed position, [start_up_sequence]
    false, in state UNKNOWN: the fatal error is expected; the code counts
    eighteen packed joints, compares the count with the six legs, takes the
    robot for unpacked and puts it in state OFF with a warning.  The same
    comparison takes a hexapod with only six joints packed for a packed
    one and shuts down. *)
Theorem packed_hexapod_is_not_recognised :
  (system_state_ (started (hexapod 0)) = UNKNOWN
   /\ start_up_sequence (params_ (started (hexapod 0))) = false
   /\ all_joints_packed (model_ (robot (started (hexapod 0)))) = true
   /\ count_packed (model_ (robot (started (hexapod 0)))) = 18
   /\ getLegCount (model_ (robot (started (hexapod 0)))) = 6
   /\ system_state_ (loop (started (hexapod 0))) = OFF
   /\ shutdown_requested (loop (started (hexapod 0))) = false
   /\ trace (loop (started (hexapod 0))) = [EvWarn MSG_START_UP_FALSE])
  /\
  (system_state_ (started hexapod_two_legs_packed) = UNKNOWN
   /\ all_joints_packed (model_ (robot (started hexapod_two_legs_packed)))
      = false
   /\ count_packed (model_ (robot (started hexapod_two_legs_packed))) = 6
   /\ shutdown_requested (loop (started hexapod_two_legs_packed)) = true
   /\ trace (loop (started hexapod_two_legs_packed))
      = [EvFatal MSG_PACKED_NO_STARTUP; EvShutdown]).
Proof. vm_compute. repeat split; reflexivity. Qed.



(** C4, witness: the command READY sent to a running hexapod configured
    with the start-up sequence leaves the target at RUNNING. *)
Lemma command_ignored_with_start_up_sequence_witness :
  start_up_sequence (params_ (running_hexapod STOPPED)) = true
  /\ system_state_ (running_hexapod STOPPED) = RUNNING
  /\ new_system_state_ (systemStateCallback READY (running_hexapod STOPPED))
     = RUNNING.
Proof.
  split; [vm_compute; reflexivity|]. split; [vm_compute; reflexivity|].
  apply (command_ignored_with_start_up_sequence (running_hexapod STOPPED)
           READY); vm_compute; [reflexivity | discriminate | discriminate].
Defined.

(** C6 (the code departs from the specification).  From the standing hexapod in
    state RUNNING, all legs WALKING: a toggle of the primary leg is
    requested, and the primary selection is moved to another leg while the
    request is raised, twice.  Three legs end in WALKING_TO_MANUAL while
    [manual_leg_count_] is still 0. *)
Theorem three_legs_leave_walking :
  manual_associated_legs (model_ (robot (running_hexapod STOPPED))) = 0
  /\ manual_leg_count_ (running_hexapod STOPPED) = 0
  /\ map leg_state
       (leg_container
          (model_ (robot (run reselect_during_toggle
                              (running_hexapod STOPPED)))))
     = [WALKING_TO_MANUAL; WALKING_TO_MANUAL; WALKING_TO_MANUAL;
        WALKING; WALKING; WALKING]
  /\ manual_associated_legs
       (model_ (robot (run reselect_during_toggle
                           (running_hexapod STOPPED)))) = 3
  /\ Z.ltb MAX_MANUAL_LEGS
       (manual_associated_legs
          (model_ (robot (run reselect_during_toggle
                              (running_hexapod STOPPED))))) = true
  /\ manual_leg_count_ (run reselect_during_toggle (running_hexapod STOPPED))
     = 0.
Proof. vm_compute. repeat split; reflexivity. Qed.

(** C7, counterexample.  During a direct start-up (state OFF, target
    RUNNING, flag raised) the command OFF makes the target equal to the
    state and leaves the flag raised. *)
Lemma command_leaves_flag_raised :
  transition_state_flag_ starting_directly = true
  /\ system_state_ (systemStateCallback OFF starting_directly)
     = new_system_state_ (systemStateCallback OFF starting_directly)
  /\ transition_state_flag_ (systemStateCallback OFF starting_directly)
     = true.
Proof. vm_compute. repeat split; reflexivity. Qed.

(** C7, witness: the tick that switches a packed hexapod off, and the
    command READY, stored as OFF, on a controller that is OFF. *)
Lemma equal_states_imply_flag_cleared_witness :
  (system_state_ (loop switching_off) = new_system_state_ (loop switching_off)
   /\ transition_state_flag_ switching_off = true
   /\ transition_state_flag_ (loop switching_off) = false)
  /\ (transition_state_flag_ switched_off = false
      /\ system_state_ (systemStateCallback READY switched_off)
         = new_system_state_ (systemStateCallback READY switched_off)
      /\ transition_state_flag_ (systemStateCallback READY switched_off)
         = false).
Proof.
  assert (lowered : transition_state_flag_ switched_off = false)
    by (vm_compute; reflexivity).
  split.
  - split; [vm_compute; reflexivity|]. split; [vm_compute; reflexivity|].
    apply (equal_states_imply_flag_cleared switching_off
             (loop switching_off));
      [left; reflexivity | vm_compute; reflexivity].
  - split; [exact lowered|]. split; [vm_compute; reflexivity|].
    apply (equal_states_imply_flag_cleared switched_off
             (systemStateCallback READY switched_off));
      [right; split; [exact lowered | exists READY; reflexivity]
      | vm_compute; reflexivity].
Defined.



(** C9, witness: the command OFF during a direct start-up, and the tick
    that follows. *)
Lemma transition_between_equal_states_is_fatal_witness :
  (system_state_ (systemStateCallback OFF starting_directly) = OFF
   /\ new_system_state_ (systemStateCallback OFF starting_directly) = OFF
   /\ trace (transitionSystemState
               (systemStateCallback OFF starting_directly))
      = trace (systemStateCallback OFF starting_directly)
        ++ [EvFatal MSG_UNDEFINED_TRANSITION; EvShutdown]
   /\ shutdown_requested
        (transitionSystemState (systemStateCallback OFF starting_directly))
      = true)
  /\ (start_up_sequence (params_ starting_directly) = false
      /\ transition_state_flag_ starting_directly = true
      /\ transition_state_flag_ (systemStateCallback OFF starting_directly)
         = true
      /\ shutdown_requested (loop (systemStateCallback OFF starting_directly))
         = true).
Proof.
  assert (state : system_state_ (systemStateCallback OFF starting_directly)
                  = OFF) by (vm_compute; reflexivity).
  assert (target : new_system_state_
                     (systemStateCallback OFF starting_directly) = OFF)
    by (vm_compute; reflexivity).
  assert (direct : start_up_sequence (params_ starting_directly) = false)
    by (vm_compute; reflexivity).
  assert (state0 : system_state_ starting_directly = OFF)
    by (vm_compute; reflexivity).
  assert (target0 : new_system_state_ starting_directly = RUNNING)
    by (vm_compute; reflexivity).
  assert (raised : transition_state_flag_ starting_directly = true)
    by (vm_compute; reflexivity).
  split.
  - destruct (proj1 transition_between_equal_states_is_fatal
                (systemStateCallback OFF starting_directly) OFF
                (or_introl eq_refl) state target)
      as (K1 & K2 & _ & _).
    split; [exact state|]. split; [exact target|].
    split; [exact K1 | exact K2].
  - destruct (proj2 transition_between_equal_states_is_fatal
                starting_directly direct state0 target0 raised)
      as (_ & _ & K3 & K4).
    split; [exact direct|]. split; [exact raised|].
    split; [exact K3 | exact K4].
Defined.

(** C10, witness: a gait change on the stopped hexapod, whose limits were
    1/20, followed by a busy session. *)
Lemma acceleration_clamping_stays_disabled_witness :
  walk_state changing_gait = STOPPED
  /\ max_linear_acceleration (params_ changing_gait) = (5 # 100)%Q
  /\ acceleration_clamping_disabled (params_ (changeGait changing_gait))
  /\ acceleration_clamping_disabled
       (params_ (run busy_session (changeGait changing_gait))).
Proof.
  assert (stopped : walk_state changing_gait = STOPPED)
    by (vm_compute; reflexivity).
  split; [exact stopped|]. split; [vm_compute; reflexivity|].
  destruct (acceleration_clamping_stays_disabled changing_gait busy_session
              stopped) as (K1 & K2 & _).
  split; [exact K1 | exact K2].
Defined.

End Runs.

(** * Further properties of the controller *)

Section Behaviour.

Context {W P I : Type} {C : Collaborators W P I}.

Local Abbreviation SC := (StateController W P I).

Local Open Scope cpp_scope.

Ltac unfold_eqb :=
  cbv [eqb SystemState_EqB WalkState_EqB LegState_EqB GaitDesignation_EqB
       PosingMode_EqB CruiseControlMode_EqB AutoNavigationMode_EqB
       PoseResetMode_EqB ParameterSelection_EqB LegDesignation_EqB] in *.

Ltac break_innermost :=
  match goal with
  | |- context [match ?x with _ => _ end] =>
      lazymatch x with
      | context [match _ with _ => _ end] => fail
      | _ => destruct x eqn:?
      end
  end.

Ltac unfold_callbacks :=
  unfold bodyVelocityInputCallback,
    primaryTipVelocityInputCallback, secondaryTipVelocityInputCallback,
    bodyPoseInputCallback, systemStateCallback, gaitSelectionCallback,
    posingModeCallback, cruiseControlCallback, autoNavigationCallback,
    parameterSelectionCallback, parameterAdjustCallback,
    primaryLegSelectionCallback, secondaryLegSelectionCallback,
    primaryLegStateCallback, secondaryLegStateCallback, poseResetCallback,
    imuCallback, jointStatesCallback, tipForceCallback.

(** ** Inputs and the system state *)

(** X1.  An input that arrives in a system state its callback does not
    accept is dropped: the controller is exactly as before.  The gait,
    posing mode, cruise control, auto navigation, parameter and leg
    callbacks accept input in RUNNING only; the body pose and pose reset
    callbacks accept none in WAITING_FOR_USER. *)
Theorem input_dropped_outside_accepting_state (op : Operation) (st : SC) :
  accepted_in op (system_state_ st) = false -> perform op st = st.
Proof.
  destruct op; cbn [accepted_in perform]; try discriminate;
    unfold_callbacks; unfold_eqb; intro H; rewrite ?H;
    try (apply negb_false_iff in H; rewrite H); reflexivity.
Qed.

(** X2.  No topic callback changes the system state, requests a shutdown,
    or reaches the walker or the impedance controller: the state machine
    and these two controllers are driven by the tick alone. *)
Theorem callbacks_leave_state_machine_alone (op : Operation) (st : SC) :
  is_callback op = true ->
  system_state_ (perform op st) = system_state_ st
  /\ shutdown_requested (perform op st) = shutdown_requested st
  /\ walker_ (robot (perform op st)) = walker_ (robot st)
  /\ impedance_ (robot (perform op st)) = impedance_ (robot st).
Proof.
  destruct op; cbn [is_callback perform]; try discriminate; intros _;
    unfold_callbacks; unfold with_leg, emit;
    repeat break_innermost; simpl; repeat split; reflexivity.
Qed.

Lemma allowed_step_refl (s : SystemState) : allowed_step s s = true.
Proof. destruct s; reflexivity. Qed.

Lemma transitionSystemState_follows_graph (st : SC) :
  allowed_step (system_state_ st) (system_state_ (transitionSystemState st))
  = true.
Proof.
  unfold transitionSystemState, call_returning, ros_shutdown, ROS_FATAL,
    ROS_WARN, emit.
  destruct (system_state_ st) eqn:S, (new_system_state_ st) eqn:N;
    unfold_eqb; cbn [SystemState_beq andb orb negb];
    repeat break_innermost; simpl; rewrite ?S; reflexivity.
Qed.

(** X3.  A tick moves the system state along an edge of the state graph or
    leaves it where it is: from UNKNOWN to OFF or PACKED, from OFF to PACKED
    or RUNNING, from PACKED to OFF or READY, from READY to PACKED or
    RUNNING, from RUNNING to OFF or READY.  No tick takes the robot from
    PACKED to RUNNING or from RUNNING to PACKED in one step, and none
    leaves WAITING_FOR_USER or SUSPENDED. *)
Theorem tick_follows_state_graph (st : SC) :
  allowed_step (system_state_ st) (system_state_ (loop st)) = true.
Proof.
  unfold loop, loop_state_machine.
  destruct (loop_compensation_frame st) as (F1 & _ & _ & _ & _).
  rewrite <- F1. generalize (loop_compensation st). intro s.
  destruct (transition_state_flag_ s).
  - apply transitionSystemState_follows_graph.
  - destruct (system_state_ s == RUNNING); [|apply allowed_step_refl].
    destruct (runningState_keeps_lifecycle s) as (R1 & _ & _).
    rewrite R1. apply allowed_step_refl.
Qed.

(** X4.  Outside the UNKNOWN state, [transitionSystemState] requests the
    shutdown exactly for the undefined transitions, and these do not
    depend on [start_up_sequence]: the target equal to the current state
    from OFF and RUNNING, a target other than OFF, READY and RUNNING from
    PACKED, a target other than PACKED, OFF and RUNNING from READY, and
    every target from WAITING_FOR_USER and SUSPENDED.  From OFF and from
    RUNNING every other target, UNKNOWN and SUSPENDED included, starts a
    transition. *)
Theorem shutdown_exactly_on_undefined_transition (st : SC) :
  system_state_ st <> UNKNOWN ->
  shutdown_requested (transitionSystemState st)
  = shutdown_requested st
    || undefined_transition (system_state_ st) (new_system_state_ st).
Proof.
  intro H.
  unfold transitionSystemState, call_returning, ros_shutdown, ROS_FATAL,
    ROS_WARN, emit.
  destruct (system_state_ st) eqn:S; [| contradiction H; reflexivity | ..];
    destruct (new_system_state_ st) eqn:N;
    unfold_eqb; simpl; repeat break_innermost; simpl;
    rewrite ?orb_false_r, ?orb_true_r; reflexivity.
Qed.

Lemma idle_tick (st : SC) :
  system_state_ st = UNKNOWN -> transition_state_flag_ st = false ->
  loop st = st.
Proof.
  intros S F. unfold loop, loop_compensation, loop_state_machine.
  rewrite S. unfold_eqb. simpl. rewrite F, S. reflexivity.
Qed.

Lemma idle_ticks (n : nat) (st : SC) :
  system_state_ st = UNKNOWN -> transition_state_flag_ st = false ->
  run (repeat OpLoop n) st = st.
Proof.
  intros S F. induction n as [|n IH]; [reflexivity|].
  simpl. rewrite (idle_tick st S F). exact IH.
Qed.

(** X5.  The command received while the controller waits for the user is
    kept as the target but does not start a transition: after [init] the
    system state is UNKNOWN with the transition flag down, and ticks, any
    number of them, leave the controller as it is until a further command
    arrives. *)
Theorem first_command_starts_no_transition (st : SC) (input : SystemState)
  (n : nat) :
  system_state_ st = WAITING_FOR_USER ->
  transition_state_flag_ st = false ->
  new_system_state_ (init (systemStateCallback input st)) = input
  /\ system_state_ (init (systemStateCallback input st)) = UNKNOWN
  /\ transition_state_flag_ (init (systemStateCallback input st)) = false
  /\ run (repeat OpLoop n) (init (systemStateCallback input st))
     = init (systemStateCallback input st).
Proof.
  intros S F.
  assert (H : new_system_state_ (init (systemStateCallback input st)) = input
              /\ system_state_ (init (systemStateCallback input st)) = UNKNOWN
              /\ transition_state_flag_ (init (systemStateCallback input st))
                 = false).
  { unfold init, systemStateCallback. rewrite S. unfold_eqb. simpl.
    destruct (SystemState_beq (new_system_state_ st) WAITING_FOR_USER) eqn:E1;
      simpl; rewrite ?S; simpl; rewrite ?andb_false_r.
    - repeat break_innermost; simpl; repeat split; solve [reflexivity | exact F].
    - destruct (SystemState_beq (new_system_state_ st) input) eqn:E2; simpl;
        rewrite ?S; simpl; rewrite ?andb_false_r;
        repeat break_innermost; simpl; repeat split;
        try solve [reflexivity | exact F];
        apply SystemState_beq_eq in E2; exact E2. }
  destruct H as (H1 & H2 & H3).
  repeat split; try assumption.
  apply idle_ticks; assumption.
Qed.

(** ** Gaits *)

(** X6.  The gait type that [initGaitParameters] writes for a designated
    gait is the one [init] reads back as that gait: the names of the four
    gaits and the gait designations correspond one to one. *)
Theorem gait_name_round_trip (g : GaitDesignation) (st : SC) :
  g <> GAIT_UNDESIGNATED ->
  gait_type (params_ (initGaitParameters g st)) = gait_name g
  /\ gait_selection_ (init (initGaitParameters g st)) = g.
Proof.
  intro H. destruct g; try (contradiction H; reflexivity);
    split; reflexivity.
Qed.

(** X7.  A gait selection carried through: in state RUNNING with the
    walker STOPPED, selecting a designated gait other than the current one
    and handling the request in the RUNNING state loads the parameters of
    that gait under its own name, never under the name configured on the
    parameter server, and lowers the request. *)
Theorem selected_gait_is_loaded (g : GaitDesignation) (st : SC) :
  system_state_ st = RUNNING ->
  walk_state st = STOPPED ->
  g <> GAIT_UNDESIGNATED ->
  g <> gait_selection_ st ->
  gait_selection_ (running_action (gaitSelectionCallback g st)) = g
  /\ gait_change_flag_ (running_action (gaitSelectionCallback g st)) = false
  /\ gait_type (params_ (running_action (gaitSelectionCallback g st)))
     = gait_name g
  /\ gait_parameters (params_ (running_action (gaitSelectionCallback g st)))
     = rosparam_gait_parameters (gait_name g)
  /\ In (gait_name g)
        ["tripod_gait"; "ripple_gait"; "wave_gait"; "amble_gait"]%string.
Proof.
  intros S Hw Hg Hsel.
  assert (E : gaitSelectionCallback g st
              = set_gait_change_flag true (set_gait_selection g st)).
  { unfold gaitSelectionCallback. rewrite S. unfold_eqb.
    destruct (GaitDesignation_beq g (gait_selection_ st)) eqn:E1.
    - destruct g, (gait_selection_ st); try discriminate E1;
        contradiction Hsel; reflexivity.
    - destruct g; try reflexivity. contradiction Hg; reflexivity. }
  rewrite E. unfold running_action. cbn [gait_change_flag_ set_gait_change_flag].
  unfold changeGait.
  assert (Hw' : walk_state (set_gait_change_flag true (set_gait_selection g st))
                = STOPPED) by exact Hw.
  rewrite Hw'. unfold_eqb. cbn [WalkState_beq].
  unfold initGaitParameters, call, emit. simpl.
  destruct g; try (contradiction Hg; reflexivity); simpl; repeat split;
    auto 6.
Qed.

(** ** What a tick leaves alone *)

Lemma requests_only_lowered_refl (st : SC) : requests_only_lowered st st.
Proof. repeat split; apply implb_same. Qed.

Lemma implb_trans (a b c : bool) :
  implb a b = true -> implb b c = true -> implb a c = true.
Proof. destruct a, b, c; simpl; auto. Qed.

Lemma tick_frame_refl (st : SC) : tick_frame st st.
Proof. split; [reflexivity | apply requests_only_lowered_refl]. Qed.

Lemma tick_frame_trans (a b c : SC) :
  tick_frame a b -> tick_frame b c -> tick_frame a c.
Proof.
  intros (A & A1 & A2 & A3 & A4) (B & B1 & B2 & B3 & B4).
  split; [congruence|].
  repeat split; eapply implb_trans; eassumption.
Qed.

Ltac tick_primitive :=
  split; [reflexivity | repeat split; solve [apply implb_same | reflexivity]].

Lemma emit_tick e (st : SC) : tick_frame st (emit e st).
Proof. tick_primitive. Qed.

Lemma call_tick e f (st : SC) : tick_frame st (call e f st).
Proof. tick_primitive. Qed.

Lemma call_returning_tick {A : Type} e f (st st' : SC) (a : A) :
  call_returning e f st = (a, st') -> tick_frame st st'.
Proof.
  unfold call_returning. destruct (f (params_ st) (robot st)) as [a0 r].
  intro E. injection E as _ <-. tick_primitive.
Qed.

Lemma with_leg_tick d (k : Leg -> SC -> SC) (st : SC) :
  (forall leg s, tick_frame s (k leg s)) -> tick_frame st (with_leg d k st).
Proof.
  intro H. unfold with_leg.
  destruct (getLegByIDNumber (model_ (robot st)) d);
    [apply H | apply emit_tick].
Qed.

Lemma set_params_tick p (st : SC) : tick_frame st (set_params p st).
Proof. tick_primitive. Qed.

Lemma set_robot_tick r (st : SC) : tick_frame st (set_robot r st).
Proof. tick_primitive. Qed.

Lemma set_trace_tick t (st : SC) : tick_frame st (set_trace t st).
Proof. tick_primitive. Qed.

Lemma set_system_state_tick s (st : SC) :
  tick_frame st (set_system_state s st).
Proof. tick_primitive. Qed.

Lemma set_transition_state_flag_tick b (st : SC) :
  tick_frame st (set_transition_state_flag b st).
Proof. tick_primitive. Qed.

Lemma set_shutdown_requested_tick b (st : SC) :
  tick_frame st (set_shutdown_requested b st).
Proof. tick_primitive. Qed.

Lemma lower_gait_change_flag_tick (st : SC) :
  tick_frame st (set_gait_change_flag false st).
Proof. tick_primitive. Qed.

Lemma lower_parameter_adjust_flag_tick (st : SC) :
  tick_frame st (set_parameter_adjust_flag false st).
Proof. tick_primitive. Qed.

Lemma lower_toggle_primary_tick (st : SC) :
  tick_frame st (set_toggle_primary_leg_state false st).
Proof. tick_primitive. Qed.

Lemma lower_toggle_secondary_tick (st : SC) :
  tick_frame st (set_toggle_secondary_leg_state false st).
Proof. tick_primitive. Qed.

Lemma set_new_parameter_set_tick b (st : SC) :
  tick_frame st (set_new_parameter_set b st).
Proof. tick_primitive. Qed.

Lemma set_manual_leg_count_tick n (st : SC) :
  tick_frame st (set_manual_leg_count n st).
Proof. tick_primitive. Qed.

Lemma set_linear_velocity_input_tick v (st : SC) :
  tick_frame st (set_linear_velocity_input v st).
Proof. tick_primitive. Qed.

Lemma set_angular_velocity_input_tick v (st : SC) :
  tick_frame st (set_angular_velocity_input v st).
Proof. tick_primitive. Qed.

Lemma write_leg_tick leg (st : SC) : tick_frame st (write_leg leg st).
Proof. tick_primitive. Qed.

Lemma ROS_WARN_tick m (st : SC) : tick_frame st (ROS_WARN m st).
Proof. tick_primitive. Qed.

Lemma ROS_FATAL_tick m (st : SC) : tick_frame st (ROS_FATAL m st).
Proof. tick_primitive. Qed.

Lemma ros_shutdown_tick (st : SC) : tick_frame st (ros_shutdown st).
Proof. tick_primitive. Qed.

#[local] Hint Resolve emit_tick call_tick set_params_tick set_robot_tick
  set_trace_tick set_system_state_tick set_transition_state_flag_tick
  set_shutdown_requested_tick lower_gait_change_flag_tick
  lower_parameter_adjust_flag_tick lower_toggle_primary_tick
  lower_toggle_secondary_tick set_new_parameter_set_tick
  set_manual_leg_count_tick set_linear_velocity_input_tick
  set_angular_velocity_input_tick write_leg_tick ROS_WARN_tick ROS_FATAL_tick
  ros_shutdown_tick : tick.

(** Composition of tick frames along the structure of the resulting
    state. *)
Ltac tick :=
  cbv beta zeta;
  lazymatch goal with
  | |- tick_frame ?s ?s => apply tick_frame_refl
  | H : call_returning _ _ ?s0 = (_, ?s1) |- tick_frame ?s ?s1 =>
      apply (tick_frame_trans s s0 s1);
      [tick | apply (call_returning_tick _ _ _ _ _ H)]
  | |- tick_frame _ (if ?b then _ else _) => destruct b eqn:?; tick
  | |- tick_frame _ (match ?x with _ => _ end) => destruct x eqn:?; tick
  | |- tick_frame ?s (with_leg ?d ?k ?s') =>
      apply (tick_frame_trans s s' _);
      [tick | apply with_leg_tick; intros; tick]
  | |- tick_frame ?s (?f ?s') =>
      apply (tick_frame_trans s s' _); [tick | solve [auto with tick] ]
  end.

Lemma zero_velocity_inputs_tick (st : SC) :
  tick_frame st (zero_velocity_inputs st).
Proof. unfold zero_velocity_inputs. tick. Qed.

Lemma clear_toggle_flags_tick (st : SC) :
  tick_frame st (clear_toggle_flags st).
Proof. unfold clear_toggle_flags. tick. Qed.

Lemma call_setPoseResetMode_tick mode (st : SC) :
  tick_frame st (call_setPoseResetMode mode st).
Proof. unfold call_setPoseResetMode. tick. Qed.

Lemma call_updateLegStiffness_tick d res (st : SC) :
  tick_frame st (call_updateLegStiffness d res st).
Proof. unfold call_updateLegStiffness. tick. Qed.

#[local] Hint Resolve zero_velocity_inputs_tick clear_toggle_flags_tick
  call_setPoseResetMode_tick call_updateLegStiffness_tick : tick.

Lemma progress_leg_transition_tick d final count_step (st : SC) :
  tick_frame st (progress_leg_transition d final count_step st).
Proof. unfold progress_leg_transition. tick. Qed.

#[local] Hint Resolve progress_leg_transition_tick : tick.

Lemma adjustParameter_tick (st : SC) : tick_frame st (adjustParameter st).
Proof. unfold adjustParameter. tick. Qed.

Lemma changeGait_tick (st : SC) : tick_frame st (changeGait st).
Proof. unfold changeGait, initGaitParameters. tick. Qed.

Lemma legStateToggle_tick (st : SC) : tick_frame st (legStateToggle st).
Proof. unfold legStateToggle. tick. Qed.

Lemma running_action_tick (st : SC) : tick_frame st (running_action st).
Proof.
  unfold running_action.
  destruct (gait_change_flag_ st); [apply changeGait_tick|].
  destruct (parameter_adjust_flag_ st); [apply adjustParameter_tick|].
  destruct (toggle_primary_leg_state_ st || toggle_secondary_leg_state_ st);
    [apply legStateToggle_tick|].
  destruct (cruise_control_mode_ st == CRUISE_CONTROL_ON); tick.
Qed.

(** The pipeline and the impedance control write the robot and the trace
    and nothing else. *)
Lemma update_tip_positions_writes_robot_and_trace (st : SC) :
  exists r t, update_tip_positions st = set_trace t (set_robot r st).
Proof.
  unfold update_tip_positions, apply_ik_to_legs, update_walk_and_pose, call,
    emit.
  match goal with
  | |- context [ik_loop ?d ?l ?t] => destruct (ik_loop d l t) as [legs log]
  end.
  eexists. eexists. reflexivity.
Qed.

Lemma impedanceControl_writes_robot_and_trace (st : SC) :
  exists r t, impedanceControl st = set_trace t (set_robot r st).
Proof.
  unfold impedanceControl, call, emit.
  destruct (walk_state st != STOPPED);
    match goal with
    | |- context [impedance_loop ?p ?l ?i ?t] =>
        destruct (impedance_loop p l i t) as [[legs imp] log]
    end; eexists; eexists; reflexivity.
Qed.

Lemma loop_compensation_writes_robot_and_trace (st : SC) :
  exists r t, loop_compensation st = set_trace t (set_robot r st).
Proof.
  unfold loop_compensation.
  destruct (system_state_ st != UNKNOWN).
  - match goal with
    | |- context [if ?b then _ else _] => destruct b
    end.
    + match goal with
      | |- context [impedanceControl ?s] =>
          destruct (impedanceControl_writes_robot_and_trace s) as (r & t & E);
          rewrite E
      end.
      eexists. eexists. reflexivity.
    + eexists. eexists. reflexivity.
  - exists (robot st), (trace st). destruct st. reflexivity.
Qed.

Lemma runningState_tick (st : SC) : tick_frame st (runningState st).
Proof.
  unfold runningState. cbv zeta.
  destruct (pipeline_guard (running_action st));
    [|apply running_action_tick].
  apply (tick_frame_trans _ (running_action st)); [apply running_action_tick|].
  destruct (update_tip_positions_writes_robot_and_trace (running_action st))
    as (r & t & E).
  rewrite E. tick.
Qed.

Lemma transitionSystemState_tick (st : SC) :
  tick_frame st (transitionSystemState st).
Proof. unfold transitionSystemState. tick. Qed.

Lemma loop_tick (st : SC) : tick_frame st (loop st).
Proof.
  unfold loop, loop_state_machine.
  apply (tick_frame_trans _ (loop_compensation st)).
  - destruct (loop_compensation_writes_robot_and_trace st) as (r & t & E).
    rewrite E. tick.
  - destruct (transition_state_flag_ (loop_compensation st));
      [apply transitionSystemState_tick|].
    destruct (system_state_ (loop_compensation st) == RUNNING);
      [apply runningState_tick | apply tick_frame_refl].
Qed.

(** X8.  A tick never changes what the user selected or sent (gait, posing
    mode, cruise control and auto navigation modes, parameter selection and
    the parameter pointer, leg selections and leg state commands, tip
    velocity inputs, cruise velocities), nor the user-input and
    joint-positions latches, and it never raises a request: each of the
    gait-change, parameter-adjust and leg-toggle flags is after the tick
    what it was before, or lowered. *)
Theorem tick_keeps_selections_and_only_lowers_requests (st : SC) :
  selections (loop st) = selections st
  /\ implb (gait_change_flag_ (loop st)) (gait_change_flag_ st) = true
  /\ implb (parameter_adjust_flag_ (loop st)) (parameter_adjust_flag_ st)
     = true
  /\ implb (toggle_primary_leg_state_ (loop st))
           (toggle_primary_leg_state_ st) = true
  /\ implb (toggle_secondary_leg_state_ (loop st))
           (toggle_secondary_leg_state_ st) = true.
Proof. exact (loop_tick st). Qed.

(** ** Invariants over any sequence of operations *)

Lemma run_invariant (Inv : SC -> Prop) :
  (forall op st, Inv st -> Inv (perform op st)) ->
  forall ops st, Inv st -> Inv (run ops st).
Proof.
  intros step ops. induction ops as [|op ops IH]; intros st H; [exact H|].
  simpl. apply IH, step, H.
Qed.

Lemma perform_keeps_one_toggle (op : Operation) (st : SC) :
  one_toggle_at_most st -> one_toggle_at_most (perform op st).
Proof.
  unfold one_toggle_at_most. intro H.
  destruct op; cbn [perform];
    try (destruct (loop_tick st) as (_ & _ & _ & T1 & T2);
         destruct (toggle_primary_leg_state_ (loop st)),
           (toggle_secondary_leg_state_ (loop st)),
           (toggle_primary_leg_state_ st),
           (toggle_secondary_leg_state_ st);
         simpl in *; congruence);
    unfold init, publishDesiredJointState, emit; unfold_callbacks;
    unfold with_leg, emit;
    destruct (toggle_primary_leg_state_ st) eqn:TP,
      (toggle_secondary_leg_state_ st) eqn:TS; try discriminate H;
    repeat break_innermost; simpl; rewrite ?TP, ?TS; reflexivity.
Qed.

(** X9.  The two leg toggle requests are never raised together: if at most
    one of [toggle_primary_leg_state_] and [toggle_secondary_leg_state_]
    is raised, the same holds after any sequence of ticks and callbacks,
    so [legStateToggle] always serves one slot. *)
Theorem toggle_requests_exclude_each_other (ops : list Operation) (st : SC) :
  one_toggle_at_most st -> one_toggle_at_most (run ops st).
Proof. apply run_invariant. exact perform_keeps_one_toggle. Qed.

Lemma ParameterSelection_beq_eq (a b : ParameterSelection) :
  ParameterSelection_beq a b = true <-> a = b.
Proof.
  split.
  - apply internal_ParameterSelection_dec_bl.
  - apply internal_ParameterSelection_dec_lb.
Qed.

Lemma map_lookup_defined (p p' : Parameters) (k : ParameterSelection) :
  map_lookup p k <> None -> map_lookup p' k <> None.
Proof. destruct k; simpl; intro H; solve [exact H | discriminate]. Qed.

Lemma enumerator_has_entry (p : Parameters) (k : ParameterSelection) :
  names_enumerator k = true -> k <> NO_PARAMETER_SELECTION ->
  map_lookup p k <> None.
Proof.
  destruct k; simpl; intros E N; try discriminate;
    contradiction N; reflexivity.
Qed.

Lemma tick_keeps_parameter_pointer (st : SC) :
  parameter_pointer_assigned st -> parameter_pointer_assigned (loop st).
Proof.
  unfold parameter_pointer_assigned. intros (H0 & H1 & H2).
  destruct (loop_tick st) as (V & _ & T & _ & _).
  unfold selections in V.
  injection V as _ _ _ _ V1 V2 _ _ _ _ _ _ _ _ _ _ _ _.
  rewrite V1, V2. split; [exact H0|]. split; [exact H1|].
  intro F. rewrite F in T.
  apply (map_lookup_defined (params_ st)), H2.
  destruct (parameter_adjust_flag_ st); [reflexivity | discriminate T].
Qed.

Lemma parameterSelectionCallback_keeps_parameter_pointer
  (k : ParameterSelection) (st : SC) :
  names_enumerator k = true ->
  parameter_pointer_assigned st ->
  parameter_pointer_assigned (parameterSelectionCallback k st)
  /\ trace (parameterSelectionCallback k st) = trace st.
Proof.
  unfold parameter_pointer_assigned. intros E (H0 & H1 & H2).
  unfold parameterSelectionCallback. unfold_eqb.
  destruct (SystemState_beq (system_state_ st) RUNNING); [|auto].
  destruct (ParameterSelection_beq k (parameter_selection_ st)) eqn:K;
    cbn [negb]; [auto|].
  cbv zeta.
  destruct (ParameterSelection_beq
              (parameter_selection_ (set_parameter_selection k st))
              NO_PARAMETER_SELECTION) eqn:N; cbn [negb].
  - (* the selection is cleared *)
    apply ParameterSelection_beq_eq in N. simpl in N. subst k.
    simpl. split; [|reflexivity]. split; [reflexivity|].
    split; [intro F; contradiction F; reflexivity | exact H2].
  - (* a parameter is selected *)
    assert (D : k <> NO_PARAMETER_SELECTION).
    { intro F. subst k. discriminate N. }
    pose proof (enumerator_has_entry (params_ st) k E D) as L.
    simpl. destruct (map_lookup (params_ st) k) eqn:M;
      [|contradiction L; reflexivity].
    simpl. rewrite M. split; [|reflexivity]. split; [exact E|].
    split; [reflexivity | intros _ F; discriminate F].
Qed.

Lemma parameterAdjustCallback_dereferences_assigned (d : Z) (st : SC) :
  parameter_pointer_assigned st ->
  parameter_pointer_assigned (parameterAdjustCallback d st)
  /\ trace (parameterAdjustCallback d st) = trace st.
Proof.
  unfold parameter_pointer_assigned. intros (H0 & H1 & H2).
  unfold parameterAdjustCallback. unfold_eqb.
  destruct (SystemState_beq (system_state_ st) RUNNING); [|auto].
  destruct (negb (Z.eqb d 0) && negb (parameter_adjust_flag_ st)
            && negb (ParameterSelection_beq (parameter_selection_ st)
                                            NO_PARAMETER_SELECTION)) eqn:G;
    [|auto].
  apply andb_prop in G. destruct G as (_ & K). apply negb_true_iff in K.
  assert (D : parameter_selection_ st <> NO_PARAMETER_SELECTION).
  { intro E. rewrite E in K. discriminate K. }
  pose proof (enumerator_has_entry (params_ st) _ H0 D) as L.
  rewrite <- (H1 D) in L.
  destruct (map_lookup (params_ st) (parameter_being_adjusted_ st)) as [p|]
    eqn:M; [|contradiction L; reflexivity].
  cbv zeta.
  destruct (negb (Z.eqb (sign (adjust_step p)) (sign (inject_Z d)))); simpl;
    (split; [|reflexivity]); (split; [exact H0|]); (split; [exact H1|]);
    intros _.
  - apply (map_lookup_defined (params_ st)). rewrite M. discriminate.
  - rewrite M. discriminate.
Qed.

Lemma perform_keeps_parameter_pointer (op : Operation) (st : SC) :
  selects_enumerator op = true ->
  parameter_pointer_assigned st -> parameter_pointer_assigned (perform op st).
Proof.
  intros E H. destruct op; cbn [perform].
  2: exact (tick_keeps_parameter_pointer st H).
  12: exact (proj1 (parameterSelectionCallback_keeps_parameter_pointer
                      input st E H)).
  12: exact (proj1 (parameterAdjustCallback_dereferences_assigned input st H)).
  all: revert H; unfold parameter_pointer_assigned;
    unfold init, publishDesiredJointState, emit; unfold_callbacks;
    unfold with_leg, emit; unfold_eqb;
    repeat break_innermost; simpl; intros (H0 & H1 & H2);
    (split; [exact H0|]); (split; [exact H1 | exact H2]).
Qed.

Lemma run_keeps_parameter_pointer (ops : list Operation) (st : SC) :
  forallb selects_enumerator ops = true ->
  parameter_pointer_assigned st -> parameter_pointer_assigned (run ops st).
Proof.
  revert st. induction ops as [|op ops IH]; intros st E H; [exact H|].
  simpl in E. apply andb_prop in E. destruct E as (E1 & E2).
  simpl. apply IH; [exact E2|].
  apply perform_keeps_parameter_pointer; assumption.
Qed.

Lemma adjustParameter_dereferences_assigned (st : SC) :
  parameter_pointer_assigned st ->
  parameter_adjust_flag_ st = true ->
  existsb is_invalid_pointer (appended adjustParameter st) = false.
Proof.
  intros (_ & _ & H2) F. specialize (H2 F).
  assert (E : exists evs, trace (adjustParameter st) = trace st ++ evs
                          /\ existsb is_invalid_pointer evs = false).
  { unfold adjustParameter, call_returning, call, zero_velocity_inputs, emit.
    destruct (map_lookup (params_ st) (parameter_being_adjusted_ st)) eqn:K;
      [|contradiction H2; reflexivity];
      repeat break_innermost; simpl;
      first
        [ exists []; split; [symmetry; apply app_nil_r | reflexivity]
        | eexists; split; [reflexivity | reflexivity] ]. }
  destruct E as (evs & E & N).
  rewrite (appended_of_extension adjustParameter st _ E). exact N.
Qed.

Lemma unlisted_selection_reads_null (k : ParameterSelection) (st : SC) :
  system_state_ st = RUNNING ->
  names_enumerator (parameter_selection_ st) = true ->
  names_enumerator k = false ->
  trace (parameterSelectionCallback k st) = trace st ++ [EvInvalidPointer]
  /\ parameter_selection_ (parameterSelectionCallback k st) = k.
Proof.
  intros R E U. unfold parameterSelectionCallback. rewrite R.
  destruct k; try discriminate U.
  destruct (parameter_selection_ st) eqn:K; try discriminate E;
    unfold_eqb; simpl; rewrite ?K; simpl; split; reflexivity.
Qed.

(** X10.  The pointer [parameter_being_adjusted_] is read only once it has
    been assigned, as long as the parameter selection messages carry the
    value of an enumerator.  After any sequence of ticks and callbacks with
    such messages, on a controller whose pointer is in step with its
    selection (as on the constructed controller, which has no selection),
    the pointer refers to the selected parameter, and to a parameter of the
    map whenever an adjustment is requested; so neither
    [parameterAdjustCallback], nor [adjustParameter] run on a requested
    adjustment, nor a further selection of an enumerator reads through a
    null or unassigned pointer.  The proviso is needed: the callback does
    not check the integer it casts, and a message whose value is that of no
    enumerator, received in state RUNNING, is stored as the selection and
    read through the null pointer [params_.map] returns for it. *)
Theorem parameter_pointer_is_assigned_before_use (ops : list Operation)
  (st : SC) (direction : Z) :
  forallb selects_enumerator ops = true ->
  parameter_pointer_assigned st ->
  parameter_pointer_assigned (run ops st)
  /\ trace (parameterAdjustCallback direction (run ops st))
     = trace (run ops st)
  /\ (parameter_adjust_flag_ (run ops st) = true ->
      existsb is_invalid_pointer (appended adjustParameter (run ops st))
      = false)
  /\ (forall k : ParameterSelection,
        names_enumerator k = true ->
        trace (parameterSelectionCallback k (run ops st))
        = trace (run ops st))
  /\ (forall k : ParameterSelection,
        names_enumerator k = false ->
        system_state_ (run ops st) = RUNNING ->
        appended (parameterSelectionCallback k) (run ops st)
        = [EvInvalidPointer]
        /\ parameter_selection_ (parameterSelectionCallback k (run ops st))
           = k).
Proof.
  intros E H.
  pose proof (run_keeps_parameter_pointer ops st E H) as K.
  split; [exact K|]. split; [|split; [|split]].
  - apply parameterAdjustCallback_dereferences_assigned, K.
  - apply adjustParameter_dereferences_assigned, K.
  - intros k Ek.
    apply parameterSelectionCallback_keeps_parameter_pointer; assumption.
  - intros k U R.
    destruct (unlisted_selection_reads_null k (run ops st) R (proj1 K) U)
      as (T & S).
    split; [|exact S].
    apply appended_of_extension. exact T.
Qed.

Lemma perform_keeps_latches (op : Operation) (st : SC) :
  implb (user_input_flag_ st) (user_input_flag_ (perform op st)) = true
  /\ implb (joint_positions_initialised st)
           (joint_positions_initialised (perform op st)) = true.
Proof.
  destruct op; cbn [perform].
  2:{ destruct (loop_tick st) as (V & _).
      unfold selections in V.
      injection V as _ _ _ _ _ _ _ _ _ _ _ _ V1 V2 _ _ _ _.
      rewrite V1, V2. split; apply implb_same. }
  all: unfold init, publishDesiredJointState, emit; unfold_callbacks;
    unfold with_leg, emit;
    destruct (user_input_flag_ st) eqn:U,
      (joint_positions_initialised st) eqn:J;
    repeat break_innermost; simpl in *; rewrite ?U, ?J in *; repeat split;
    solve [reflexivity | discriminate].
Qed.

(** X11.  The user-input flag and the joint-positions flag are latches:
    once raised, no tick and no callback lowers them, whatever is received
    afterwards. *)
Theorem latches_stay_raised (ops : list Operation) (st : SC) :
  (user_input_flag_ st = true -> user_input_flag_ (run ops st) = true)
  /\ (joint_positions_initialised st = true ->
      joint_positions_initialised (run ops st) = true).
Proof.
  split; intro H.
  - revert st H. apply (run_invariant (fun s => user_input_flag_ s = true)).
    intros op st H. destruct (perform_keeps_latches op st) as (K & _).
    rewrite H in K. exact K.
  - revert st H.
    apply (run_invariant (fun s => joint_positions_initialised s = true)).
    intros op st H. destruct (perform_keeps_latches op st) as (_ & K).
    rewrite H in K. exact K.
Qed.

(** ** Velocity inputs in the RUNNING state *)

(** X12.  Cruise control overrides the velocity command.  When cruise
    control is switched on in state RUNNING, the velocity held is the
    configured cruise velocity if [force_cruise_velocity] is set and the
    velocity input of that moment otherwise; with no gait change, parameter
    adjustment or leg toggle pending, a velocity command received
    afterwards is replaced by the held velocity when the RUNNING state is
    next handled. *)
Theorem cruise_control_overrides_velocity_command (st : SC)
  (linear_x linear_y angular_z : Q) :
  system_state_ st = RUNNING ->
  cruise_control_mode_ st = CRUISE_CONTROL_OFF ->
  action_pending st = false ->
  linear_velocity_input_
    (running_action
       (bodyVelocityInputCallback linear_x linear_y angular_z
          (cruiseControlCallback CRUISE_CONTROL_ON st)))
  = (if force_cruise_velocity (params_ st)
     then linear_cruise_velocity (params_ st)
     else linear_velocity_input_ st)
  /\ angular_velocity_input_
       (running_action
          (bodyVelocityInputCallback linear_x linear_y angular_z
             (cruiseControlCallback CRUISE_CONTROL_ON st)))
     = (if force_cruise_velocity (params_ st)
        then angular_cruise_velocity (params_ st)
        else angular_velocity_input_ st).
Proof.
  intros S M A. unfold action_pending in A.
  apply orb_false_elim in A. destruct A as (A & A4).
  apply orb_false_elim in A. destruct A as (A & A3).
  apply orb_false_elim in A. destruct A as (A1 & A2).
  unfold cruiseControlCallback. rewrite S, M. unfold_eqb.
  cbn [SystemState_beq CruiseControlMode_beq negb].
  unfold running_action, bodyVelocityInputCallback.
  simpl.
  destruct (force_cruise_velocity (params_ st)) eqn:F; simpl;
    rewrite A1, A2, A3, A4; simpl; split; reflexivity.
Qed.

Lemma running_action_forces_stop (st : SC) :
  action_pending st = true ->
  walk_state st <> STOPPED ->
  running_action st = zero_velocity_inputs st.
Proof.
  intros A Hw. unfold action_pending in A.
  assert (G : (walk_state st == STOPPED) = false).
  { destruct (walk_state st == STOPPED) eqn:G; [|reflexivity].
    apply WalkState_beq_eq in G. contradiction. }
  unfold running_action, changeGait, adjustParameter, legStateToggle.
  rewrite G.
  destruct (gait_change_flag_ st); [reflexivity|].
  destruct (parameter_adjust_flag_ st); [reflexivity|].
  simpl in A. rewrite A. reflexivity.
Qed.

(** X13.  The forced stop.  While a gait change, a parameter adjustment or
    a leg toggle is pending and the walker has not stopped, the RUNNING
    state does nothing to the pending request: it replaces the velocity
    inputs by zero and runs the pipeline on them, so that the walker is
    driven with zero velocity, whatever the user or the cruise control
    asks for. *)
Theorem pending_action_drives_walker_with_zero_velocity (st : SC) :
  action_pending st = true ->
  walk_state st <> STOPPED ->
  runningState st = update_tip_positions (zero_velocity_inputs st)
  /\ linear_velocity_input_ (runningState st) = mkVector2d 0 0
  /\ angular_velocity_input_ (runningState st) = 0%Q
  /\ params_ (runningState st) = params_ st
  /\ action_pending (runningState st) = true.
Proof.
  intros A Hw.
  assert (E : runningState st = update_tip_positions (zero_velocity_inputs st)).
  { unfold runningState. cbv zeta.
    rewrite (running_action_forces_stop st A Hw).
    assert (G : pipeline_guard (zero_velocity_inputs st) = true).
    { apply guard_while_walking.
      change (walk_state (zero_velocity_inputs st)) with (walk_state st).
      destruct (walk_state st == STOPPED) eqn:G; [|reflexivity].
      apply WalkState_beq_eq in G. contradiction. }
    rewrite G. reflexivity. }
  split; [exact E|]. rewrite E.
  destruct (update_tip_positions_writes_robot_and_trace
              (zero_velocity_inputs st)) as (r & t & K).
  rewrite K. repeat split; try reflexivity. exact A.
Qed.

(** ** Publication of the joint targets *)

Lemma zero_velocity (d dt : Q) : ((d - d) / dt == 0)%Q.
Proof.
  unfold Qdiv, Qminus. rewrite Qplus_opp_r. apply Qmult_0_l.
Qed.

(** X14.  [publishDesiredJointState] never changes a joint target or a
    measured joint value; after it the previous desired position of every
    joint is its desired position, and it publishes once.  Publishing a
    second time with the targets unchanged gives every joint the desired
    velocity zero (the time step being non-zero). *)
Theorem publish_records_targets (st : SC) :
  ~ (time_delta (params_ st) == 0)%Q ->
  appended publishDesiredJointState st = [EvPublish]
  /\ map (fun leg => map (fun j => (desired_position j, current_position j))
                         (joint_container leg))
         (leg_container (model_ (robot (publishDesiredJointState st))))
     = map (fun leg => map (fun j => (desired_position j, current_position j))
                           (joint_container leg))
           (leg_container (model_ (robot st)))
  /\ Forall (fun leg =>
               Forall (fun j => prev_desired_position j = desired_position j)
                      (joint_container leg))
            (leg_container (model_ (robot (publishDesiredJointState st))))
  /\ Forall (fun leg =>
               Forall (fun j => (desired_velocity j == 0)%Q)
                      (joint_container leg))
            (leg_container
               (model_ (robot (publishDesiredJointState
                                 (publishDesiredJointState st))))).
Proof.
  intros _. split; [|split; [|split]].
  - apply appended_of_extension. reflexivity.
  - unfold publishDesiredJointState, emit. simpl. rewrite map_map.
    apply map_ext. intro leg. simpl. rewrite map_map. reflexivity.
  - unfold publishDesiredJointState, emit. simpl.
    apply Forall_map, Forall_forall. intros leg _. simpl.
    apply Forall_map, Forall_forall. intros j _. reflexivity.
  - unfold publishDesiredJointState, emit. simpl. rewrite map_map.
    apply Forall_map, Forall_forall. intros leg _. simpl. rewrite map_map.
    apply Forall_map, Forall_forall. intros j _. simpl.
    apply zero_velocity.
Qed.

(** ** Impedance control *)




(** ** Resolution of the UNKNOWN state, in joints *)

Lemma joint_is_packed_b2z (joint : Joint) :
  joint_is_packed joint = Z.b2z (within_packed_tolerance joint).
Proof. reflexivity. Qed.

Lemma count_packed_joints_spec (leg : Leg) (n : Z) :
  count_packed_joints n leg
  = n + Z.of_nat (List.length (filter within_packed_tolerance
                                      (joint_container leg))).
Proof.
  unfold count_packed_joints. revert n.
  induction (joint_container leg) as [|j js IH]; intro n.
  - simpl. lia.
  - cbn [fold_left filter]. rewrite IH, joint_is_packed_b2z.
    destruct (within_packed_tolerance j); cbn [Z.b2z List.length]; lia.
Qed.

Lemma count_packed_spec (m : Model) :
  count_packed m = Z.of_nat (packed_joints m).
Proof.
  unfold count_packed, packed_joints.
  assert (H : forall legs n,
             fold_left count_packed_joints legs n
             = n + Z.of_nat (List.length
                               (filter within_packed_tolerance
                                       (flat_map joint_container legs)))).
  { induction legs as [|leg rest IH]; intro n.
    - simpl. lia.
    - cbn [fold_left flat_map]. rewrite IH, count_packed_joints_spec.
      rewrite filter_app, length_app. lia. }
  rewrite H. lia.
Qed.

(** X16.  How the UNKNOWN state is resolved.  The robot is taken for
    packed exactly when the number of joints within 0.01 rad of their
    packed position, over all legs, equals the number of legs.  With the
    start-up sequence the state becomes PACKED either way; without it, a
    robot taken for packed leaves the state UNKNOWN and requests the
    shutdown, and any other robot is put in state OFF. *)
Theorem unknown_state_resolution (st : SC) :
  system_state_ st = UNKNOWN ->
  let taken_for_packed :=
    Nat.eqb (packed_joints (model_ (robot st)))
            (List.length (leg_container (model_ (robot st)))) in
  system_state_ (transitionSystemState st)
  = (if start_up_sequence (params_ st) then PACKED
     else if taken_for_packed then UNKNOWN else OFF)
  /\ shutdown_requested (transitionSystemState st)
     = (shutdown_requested st
        || (taken_for_packed && negb (start_up_sequence (params_ st)))).
Proof.
  intros H taken_for_packed.
  assert (E : Z.eqb (count_packed (model_ (robot st)))
                    (getLegCount (model_ (robot st)))
              = taken_for_packed).
  { subst taken_for_packed. rewrite count_packed_spec. unfold getLegCount.
    destruct (Nat.eqb_spec (packed_joints (model_ (robot st)))
                (List.length (leg_container (model_ (robot st)))))
      as [K | K].
    - rewrite K. apply Z.eqb_refl.
    - apply Z.eqb_neq. lia. }
  pose proof (unknown_resolution st H) as K. cbv zeta in K.
  rewrite E in K. exact K.
Qed.

(** ** Tip forces *)

Lemma tip_force_loop_log (m : JointStateMessage) (legs : list Leg)
  (log : list Event) :
  exists evs : list Event,
    snd (tip_force_loop m legs log) = log ++ evs
    /\ existsb is_invalid_pointer evs = negb (tip_forces_present m legs).
Proof.
  revert log. induction legs as [|leg rest IH]; intro log.
  - exists []. split; [symmetry; apply app_nil_r | reflexivity].
  - cbn [tip_force_loop tip_forces_present forallb]. cbv zeta.
    fold (tip_forces_present m rest).
    destruct (nth_error (msg_effort m) (id_number leg * 2)) as [e|] eqn:N.
    + assert (L : Nat.ltb (id_number leg * 2) (List.length (msg_effort m))
                  = true).
      { apply Nat.ltb_lt, nth_error_Some. rewrite N. discriminate. }
      rewrite L. destruct (IH log) as (evs & E & X).
      destruct (tip_force_loop m rest log) as [rest1 log1].
      exists evs. split; [exact E | exact X].
    + assert (L : Nat.ltb (id_number leg * 2) (List.length (msg_effort m))
                  = false).
      { apply Nat.ltb_ge, nth_error_None. exact N. }
      rewrite L. destruct (IH (log ++ [EvInvalidPointer])) as (evs & E & _).
      destruct (tip_force_loop m rest (log ++ [EvInvalidPointer]))
        as [rest1 log1].
      exists (EvInvalidPointer :: evs). simpl in E |- *.
      rewrite E, <- app_assoc. split; reflexivity.
Qed.

Lemma tip_force_loop_present (m : JointStateMessage) (legs : list Leg)
  (log : list Event) :
  tip_forces_present m legs = true ->
  tip_force_loop m legs log
  = (map (fun leg =>
            setTipForce
              (clamped (nth (id_number leg * 2) (msg_effort m) 0 - 1255)
                       0 1000)%Q leg) legs, log).
Proof.
  induction legs as [|leg rest IH]; intro H; [reflexivity|].
  cbn [tip_forces_present forallb] in H. apply andb_prop in H.
  destruct H as (L & H). fold (tip_forces_present m rest) in H.
  cbn [tip_force_loop map]. cbv zeta.
  apply Nat.ltb_lt in L.
  destruct (nth_error (msg_effort m) (id_number leg * 2)) as [e|] eqn:N.
  - rewrite (IH H). rewrite (nth_error_nth _ _ 0%Q N). reflexivity.
  - apply nth_error_None in N. lia.
Qed.

(** X17.  [tipForceCallback] does not check the length of the message: it
    reads past the end of the effort array exactly when the message lacks
    the entry [2 n] of some leg [n].  On a message that holds these
    entries it gives the leg [n] the tip force [effort[2 n] - 1255]
    clamped to the range from 0 to 1000, changes nothing else of a leg and
    logs nothing; two such messages whose efforts agree at the entry [2 n]
    of every leg [n], whatever their other entries and fields, leave the
    controller in the same state. *)
Theorem tip_force_is_clamped_even_entry (m1 m2 : JointStateMessage) (st : SC) :
  let legs := leg_container (model_ (robot st)) in
  existsb is_invalid_pointer (appended (tipForceCallback m1) st)
  = negb (tip_forces_present m1 legs)
  /\ (tip_forces_present m1 legs = true ->
      trace (tipForceCallback m1 st) = trace st
      /\ map tip_force
             (leg_container (model_ (robot (tipForceCallback m1 st))))
         = map (fun leg =>
                  (clamped (nth (id_number leg * 2) (msg_effort m1) 0 - 1255)
                           0 1000)%Q) legs
      /\ Forall (fun leg => (0 <= tip_force leg <= 1000)%Q)
                (leg_container (model_ (robot (tipForceCallback m1 st))))
      /\ map (fun leg => setTipForce 0 leg)
             (leg_container (model_ (robot (tipForceCallback m1 st))))
         = map (fun leg => setTipForce 0 leg) legs
      /\ (Forall (fun leg =>
                    nth_error (msg_effort m1) (id_number leg * 2)
                    = nth_error (msg_effort m2) (id_number leg * 2)) legs ->
          tipForceCallback m1 st = tipForceCallback m2 st)).
Proof.
  intro legs. subst legs. split.
  - destruct (tip_force_loop_log m1 (leg_container (model_ (robot st)))
                (trace st)) as (evs & E & X).
    assert (T : trace (tipForceCallback m1 st) = trace st ++ evs).
    { unfold tipForceCallback.
      destruct (tip_force_loop m1 (leg_container (model_ (robot st)))
                  (trace st)) as [legs log].
      exact E. }
    rewrite (appended_of_extension (tipForceCallback m1) st _ T). exact X.
  - intro H.
    assert (E : tipForceCallback m1 st
                = set_trace (trace st)
                    (set_robot
                       (set_model
                          (mkModel
                             (map (fun leg =>
                                     setTipForce
                                       (clamped
                                          (nth (id_number leg * 2)
                                               (msg_effort m1) 0 - 1255)
                                          0 1000)%Q leg)
                                  (leg_container (model_ (robot st)))))
                          (robot st)) st)).
    { unfold tipForceCallback. rewrite (tip_force_loop_present _ _ _ H).
      reflexivity. }
    split; [rewrite E; reflexivity|].
    split; [rewrite E; simpl; rewrite map_map; reflexivity|].
    split; [|split].
    + rewrite E. simpl. apply Forall_map, Forall_forall. intros leg _. simpl.
      apply clamped_within. unfold Qle. simpl. lia.
    + rewrite E. simpl. rewrite map_map. apply map_ext. intro leg.
      reflexivity.
    + intro A.
      assert (H2 : tip_forces_present m2 (leg_container (model_ (robot st)))
                   = true).
      { unfold tip_forces_present in H |- *.
        rewrite forallb_forall in H |- *. rewrite Forall_forall in A.
        intros leg K. specialize (H leg K). specialize (A leg K).
        apply Nat.ltb_lt. apply Nat.ltb_lt in H.
        apply nth_error_Some. rewrite <- A. apply nth_error_Some. exact H. }
      unfold tipForceCallback.
      rewrite (tip_force_loop_present _ _ _ H),
        (tip_force_loop_present _ _ _ H2).
      f_equal. f_equal. f_equal. f_equal.
      apply map_ext_in. intros leg K. rewrite Forall_forall in A.
      specialize (A leg K).
      unfold tip_forces_present in H. rewrite forallb_forall in H.
      specialize (H leg K). apply Nat.ltb_lt in H.
      destruct (nth_error (msg_effort m1) (id_number leg * 2)) as [e|] eqn:N.
      * rewrite (nth_error_nth _ _ 0%Q N).
        symmetry in A. rewrite (nth_error_nth _ _ 0%Q A). reflexivity.
      * apply nth_error_None in N. lia.
Qed.

(** ** Parameter adjustment requests *)

(** X18.  A parameter adjustment command is dropped, leaving the
    controller exactly as it was, when its direction is 0, when an
    adjustment is already requested, or when no parameter is selected. *)
Theorem adjustment_command_dropped (direction : Z) (st : SC) :
  direction = 0
  \/ parameter_adjust_flag_ st = true
  \/ parameter_selection_ st = NO_PARAMETER_SELECTION ->
  parameterAdjustCallback direction st = st.
Proof.
  intro H. unfold parameterAdjustCallback.
  destruct (system_state_ st == RUNNING); [|reflexivity].
  destruct H as [-> | [H | H]]; rewrite ?H; unfold_eqb; simpl;
    rewrite ?andb_false_r; reflexivity.
Qed.

Lemma set_adjust_step_same (p : AdjustableParameter) :
  set_adjust_step (adjust_step p) p = p.
Proof. destruct p. reflexivity. Qed.

(** X19.  An accepted adjustment command (state RUNNING, direction not 0,
    no adjustment requested yet, a parameter selected) raises the request
    and logs nothing.  It changes no parameter value: the parameter being
    adjusted keeps its current value and its bounds, and its step is kept
    or negated; every other parameter is untouched.  When the sign of the
    step already agrees with the direction the parameters are unchanged. *)
Theorem adjustment_command_accepted (direction : Z) (st : SC)
  (p : AdjustableParameter) :
  system_state_ st = RUNNING ->
  direction <> 0 ->
  parameter_adjust_flag_ st = false ->
  parameter_selection_ st <> NO_PARAMETER_SELECTION ->
  map_lookup (params_ st) (parameter_being_adjusted_ st) = Some p ->
  parameter_adjust_flag_ (parameterAdjustCallback direction st) = true
  /\ trace (parameterAdjustCallback direction st) = trace st
  /\ (exists step : Q,
        (step = adjust_step p \/ step = (adjust_step p * -1)%Q)
        /\ map_lookup (params_ (parameterAdjustCallback direction st))
                      (parameter_being_adjusted_ st)
           = Some (set_adjust_step step p))
  /\ (forall k, k <> parameter_being_adjusted_ st ->
                map_lookup (params_ (parameterAdjustCallback direction st)) k
                = map_lookup (params_ st) k)
  /\ (sign (adjust_step p) = sign (inject_Z direction) ->
      params_ (parameterAdjustCallback direction st) = params_ st).
Proof.
  intros S D F Sel Hp.
  assert (E : parameterAdjustCallback direction st
              = set_parameter_adjust_flag true
                  (if negb (Z.eqb (sign (adjust_step p))
                                  (sign (inject_Z direction)))
                   then set_params
                          (map_store (parameter_being_adjusted_ st)
                             (set_adjust_step (adjust_step p * -1) p)
                             (params_ st)) st
                   else st)).
  { unfold parameterAdjustCallback. rewrite S, F, Hp.
    apply Z.eqb_neq in D. rewrite D. unfold_eqb.
    destruct (parameter_selection_ st);
      [contradiction Sel; reflexivity | reflexivity ..]. }
  rewrite E.
  destruct (Z.eqb (sign (adjust_step p)) (sign (inject_Z direction))) eqn:G;
    simpl.
  - split; [reflexivity|]. split; [reflexivity|]. split.
    + exists (adjust_step p). split; [left; reflexivity|].
      rewrite set_adjust_step_same. exact Hp.
    + split; [intros; reflexivity | intros _; reflexivity].
  - split; [reflexivity|]. split; [reflexivity|]. split.
    + exists (adjust_step p * -1)%Q. split; [right; reflexivity|].
      apply (map_lookup_store_same _ _ p). exact Hp.
    + split.
      * intros k Hk. apply map_lookup_store_other. exact Hk.
      * intro K. rewrite K, Z.eqb_refl in G. discriminate G.
Qed.

(** ** Leg state toggles *)

Lemma progress_leg_transition_count d final count_step (st : SC) :
  manual_leg_count_ (progress_leg_transition d final count_step st)
  = manual_leg_count_ st
  \/ (manual_leg_count_ (progress_leg_transition d final count_step st)
      = manual_leg_count_ st + count_step
      /\ toggle_primary_leg_state_
           (progress_leg_transition d final count_step st) = false
      /\ toggle_secondary_leg_state_
           (progress_leg_transition d final count_step st) = false).
Proof.
  unfold progress_leg_transition, call_updateLegStiffness,
    call_setPoseResetMode, clear_toggle_flags, with_leg, write_leg,
    call_returning, emit.
  repeat break_innermost; simpl;
    first [left; reflexivity | right; repeat split; reflexivity].
Qed.

(** X20.  One call of [legStateToggle] changes [manual_leg_count_] by at
    most one, and only in the call that completes a transition: whenever
    the count changes, both toggle requests are lowered by the same
    call. *)
Theorem manual_leg_count_moves_with_completed_toggle (st : SC) :
  manual_leg_count_ (legStateToggle st) = manual_leg_count_ st
  \/ ((manual_leg_count_ (legStateToggle st) = manual_leg_count_ st + 1
       \/ manual_leg_count_ (legStateToggle st) = manual_leg_count_ st - 1)
      /\ toggle_primary_leg_state_ (legStateToggle st) = false
      /\ toggle_secondary_leg_state_ (legStateToggle st) = false).
Proof.
  unfold legStateToggle.
  destruct (walk_state st == STOPPED); [|left; reflexivity].
  unfold with_leg. cbv beta zeta.
  set (sel := if toggle_primary_leg_state_ st then primary_leg_selection_ st
              else if toggle_secondary_leg_state_ st
                   then secondary_leg_selection_ st
                   else LEG_UNDESIGNATED).
  set (st1 := call EvCalculateDefaultPose calculateDefaultPose st).
  change (manual_leg_count_ st) with (manual_leg_count_ st1).
  destruct (getLegByIDNumber (model_ (robot st)) sel);
    [|left; reflexivity].
  destruct (getLegByIDNumber (model_ (robot st1)) sel) as [leg|];
    [|left; reflexivity].
  clearbody st1.
  destruct (leg_state leg).
  - destruct (Z.ltb (manual_leg_count_ st1) MAX_MANUAL_LEGS);
      left; reflexivity.
  - left; reflexivity.
  - destruct (progress_leg_transition_count sel MANUAL 1 st1)
      as [H | (H & T1 & T2)]; [left; exact H | right].
    split; [left; exact H | split; assumption].
  - destruct (progress_leg_transition_count sel WALKING (-1) st1)
      as [H | (H & T1 & T2)]; [left; exact H | right].
    split; [right; rewrite H; reflexivity | split; assumption].
Qed.

(** ** Start of the controller *)

(** X21.  The user-input flag, on which the start of the controller waits,
    is raised by the second of two commands only if the two differ and the
    first is not WAITING_FOR_USER: while the controller waits for the user
    a repeated command leaves the flag down.  Either way the last command
    is the target, the system state stays WAITING_FOR_USER and the
    transition flag is not touched. *)
Theorem start_needs_two_different_commands (st : SC) (a b : SystemState) :
  system_state_ st = WAITING_FOR_USER ->
  new_system_state_ st = WAITING_FOR_USER ->
  new_system_state_ (systemStateCallback b (systemStateCallback a st)) = b
  /\ system_state_ (systemStateCallback b (systemStateCallback a st))
     = WAITING_FOR_USER
  /\ transition_state_flag_ (systemStateCallback b (systemStateCallback a st))
     = transition_state_flag_ st
  /\ user_input_flag_ (systemStateCallback b (systemStateCallback a st))
     = user_input_flag_ st
       || (negb (SystemState_beq a WAITING_FOR_USER)
           && negb (SystemState_beq a b)).
Proof.
  intros S N.
  assert (E : systemStateCallback a st = set_new_system_state a st).
  { unfold systemStateCallback. rewrite N. unfold_eqb. simpl. rewrite S.
    simpl. rewrite andb_false_r. reflexivity. }
  rewrite E. unfold systemStateCallback. unfold_eqb. simpl. rewrite S.
  destruct a, b; simpl; rewrite ?S; simpl; rewrite ?andb_false_r,
    ?orb_false_r, ?orb_true_r; repeat split;
    solve [reflexivity | exact S].
Qed.

Lemma transition_tick (st : SC) :
  transition_state_flag_ st = true ->
  loop st = transitionSystemState (loop_compensation st).
Proof.
  intro F. unfold loop, loop_state_machine.
  destruct (loop_compensation_frame st) as (_ & _ & F3 & _ & _).
  rewrite F3, F. reflexivity.
Qed.

Lemma unpack_step (s : SC) :
  (forall p d r, fst (unpackLegs p d r) = true) ->
  system_state_ s = PACKED -> new_system_state_ s = RUNNING ->
  transition_state_flag_ s = true ->
  system_state_ (transitionSystemState s) = READY
  /\ new_system_state_ (transitionSystemState s) = RUNNING
  /\ transition_state_flag_ (transitionSystemState s) = true.
Proof.
  intros U S N F. unfold transitionSystemState, call_returning.
  rewrite S, N. unfold_eqb. cbn [SystemState_beq andb orb negb].
  specialize (U (params_ s) (2 / data (step_frequency (params_ s)))%Q
                (robot s)).
  destruct (unpackLegs (params_ s) (2 / data (step_frequency (params_ s)))
                       (robot s)) as [c r].
  simpl in U. subst c. simpl. rewrite ?N. simpl. rewrite ?N, ?F.
  repeat split; reflexivity.
Qed.

Lemma start_up_step (s : SC) :
  (forall p r, fst (startUpSequence p r) = true) ->
  system_state_ s = READY -> new_system_state_ s = RUNNING ->
  system_state_ (transitionSystemState s) = RUNNING
  /\ transition_state_flag_ (transitionSystemState s) = false.
Proof.
  intros U S N. unfold transitionSystemState, call_returning.
  rewrite S, N. unfold_eqb. cbn [SystemState_beq andb orb negb].
  specialize (U (params_ s) (robot s)).
  destruct (startUpSequence (params_ s) (robot s)) as [c r].
  simpl in U. subst c. simpl. rewrite ?N. simpl. split; reflexivity.
Qed.

Lemma unknown_step (s : SC) :
  start_up_sequence (params_ s) = true ->
  system_state_ s = UNKNOWN -> new_system_state_ s = RUNNING ->
  transition_state_flag_ s = true ->
  system_state_ (transitionSystemState s) = PACKED
  /\ new_system_state_ (transitionSystemState s) = RUNNING
  /\ transition_state_flag_ (transitionSystemState s) = true
  /\ start_up_sequence (params_ (transitionSystemState s)) = true.
Proof.
  intros U S N F. unfold transitionSystemState, ROS_WARN, emit.
  rewrite S, U. unfold_eqb. cbn [SystemState_beq andb orb negb].
  destruct (Z.eqb (count_packed (model_ (robot s)))
                  (getLegCount (model_ (robot s))));
    simpl; rewrite ?N; simpl; rewrite ?N, ?F, ?U; repeat split; reflexivity.
Qed.

(** X22.  The cold start with the start-up sequence.  If the pose
    controller completes [unpackLegs] and [startUpSequence] in one call
    each, a controller in state UNKNOWN with target RUNNING and the
    transition flag raised is RUNNING after three ticks, by way of PACKED
    and READY, with the flag lowered. *)
Theorem cold_start_reaches_running (st : SC) :
  (forall p d r, fst (unpackLegs p d r) = true) ->
  (forall p r, fst (startUpSequence p r) = true) ->
  start_up_sequence (params_ st) = true ->
  system_state_ st = UNKNOWN ->
  new_system_state_ st = RUNNING ->
  transition_state_flag_ st = true ->
  system_state_ (loop st) = PACKED
  /\ system_state_ (loop (loop st)) = READY
  /\ system_state_ (loop (loop (loop st))) = RUNNING
  /\ transition_state_flag_ (loop (loop (loop st))) = false.
Proof.
  intros U1 U2 Hstart S N F.
  assert (step : forall s sys,
             system_state_ s = sys -> new_system_state_ s = RUNNING ->
             transition_state_flag_ s = true ->
             loop s = transitionSystemState (loop_compensation s)
             /\ system_state_ (loop_compensation s) = sys
             /\ new_system_state_ (loop_compensation s) = RUNNING
             /\ transition_state_flag_ (loop_compensation s) = true
             /\ params_ (loop_compensation s) = params_ s).
  { intros s sys Hs Hn Hf.
    destruct (loop_compensation_frame s) as (F1 & F2 & F3 & F4 & _).
    split; [apply transition_tick; exact Hf|].
    repeat split; congruence. }
  destruct (step st UNKNOWN S N F) as (E1 & A1 & A2 & A3 & A4).
  assert (P1 : start_up_sequence (params_ (loop_compensation st)) = true)
    by (rewrite A4; exact Hstart).
  destruct (unknown_step _ P1 A1 A2 A3) as (B1 & B2 & B3 & B4).
  rewrite <- E1 in B1, B2, B3, B4.
  split; [exact B1|].
  destruct (step (loop st) PACKED B1 B2 B3) as (E2 & C1 & C2 & C3 & C4).
  destruct (unpack_step _ U1 C1 C2 C3) as (D1 & D2 & D3).
  rewrite <- E2 in D1, D2, D3.
  split; [exact D1|].
  destruct (step (loop (loop st)) READY D1 D2 D3) as (E3 & G1 & G2 & _ & _).
  destruct (start_up_step _ U2 G1 G2) as (H1 & H2).
  rewrite <- E3 in H1, H2.
  split; [exact H1 | exact H2].
Qed.

(** ** Impedance control disabled *)

Lemma no_impedance_stage_no_impedance_call (evs : list Event) :
  ~ In StageImpedance (stages evs) ->
  existsb is_impedance_control_call evs = false.
Proof.
  induction evs as [|e evs IH]; intro H; [reflexivity|].
  destruct e; simpl in H |- *;
    solve [ apply IH; exact H
          | apply IH; intro K; apply H; right; exact K
          | contradiction H; left; reflexivity ].
Qed.

Lemma compensation_without_impedance_control (st : SC) :
  impedance_control (params_ st) = false ->
  loop_compensation st
  = if system_state_ st != UNKNOWN
    then call EvUpdateCurrentPose
           (fun p r => updateCurrentPose p (getBodyHeight (walker_ r)) r) st
    else st.
Proof.
  intro D. unfold loop_compensation.
  destruct (system_state_ st != UNKNOWN); [|reflexivity].
  assert (K : impedance_control
                (params_ (call EvUpdateCurrentPose
                            (fun p r =>
                               updateCurrentPose p
                                 (getBodyHeight (walker_ r)) r) st))
              = false) by exact D.
  rewrite K. reflexivity.
Qed.

Lemma tick_stages_without_impedance_control (st : SC) :
  impedance_control (params_ st) = false ->
  stages (appended loop st)
  = if negb (transition_state_flag_ st) && (system_state_ st == RUNNING)
       && pipeline_guard (running_action (loop_compensation st))
    then [StageWalk; StageWalk; StagePose]
         ++ repeat StageIK
              (List.length
                 (leg_container
                    (model_
                       (robot
                          (update_walk_and_pose
                             (running_action (loop_compensation st)))))))
    else [].
Proof.
  intro D.
  assert (Ec : exists comp, trace (loop_compensation st) = trace st ++ comp
                            /\ stages comp = []).
  { rewrite (compensation_without_impedance_control st D).
    destruct (system_state_ st != UNKNOWN).
    - exists [EvUpdateCurrentPose]. split; reflexivity.
    - exists []. split; [symmetry; apply app_nil_r | reflexivity]. }
  destruct Ec as (comp & Ec & Sc).
  destruct (loop_compensation_frame st) as (F1 & _ & F3 & _ & _).
  assert (E : exists machine,
             trace (loop st) = trace st ++ comp ++ machine
             /\ stages machine
                = if negb (transition_state_flag_ st)
                     && (system_state_ st == RUNNING)
                     && pipeline_guard (running_action (loop_compensation st))
                  then [StageWalk; StageWalk; StagePose]
                       ++ repeat StageIK
                            (List.length
                               (leg_container
                                  (model_
                                     (robot
                                        (update_walk_and_pose
                                           (running_action
                                              (loop_compensation st)))))))
                  else []).
  { unfold loop, loop_state_machine. rewrite F1, F3.
    destruct (transition_state_flag_ st); simpl negb; cbn [andb].
    - destruct (transitionSystemState_frame (loop_compensation st))
        as ((evs & E & S) & _).
      exists evs. rewrite E, Ec, <- app_assoc. auto.
    - destruct (system_state_ st == RUNNING).
      + rewrite runningState_trace.
        destruct (running_action_frame (loop_compensation st))
          as (_ & (evs & E & S) & _).
        rewrite E, Ec.
        destruct (pipeline_guard (running_action (loop_compensation st))).
        * eexists (evs ++ _). rewrite <- !app_assoc.
          split; [reflexivity|].
          rewrite stages_app, S. simpl. rewrite stages_of_ik_events.
          reflexivity.
        * exists evs. rewrite app_nil_r, <- app_assoc. auto.
      + exists []. rewrite app_nil_r. auto. }
  destruct E as (machine & E & Sm).
  rewrite (appended_of_extension loop st _ E), stages_app, Sc, Sm.
  reflexivity.
Qed.

(** X23.  With [impedance_control] false a tick does not run
    [impedanceControl]: it makes neither the stiffness update for the walk
    cycle nor the impedance update of any leg, and its compensation step
    is the pose controller's [updateCurrentPose] alone.  (The stiffness
    update of a leg in transition, made by [legStateToggle], is another
    call and depends on [dynamic_stiffness] only.)  The stages of the tick
    are those of the pipeline, and the inverse kinematics goes on
    subtracting delta Z: a tick that runs the pipeline leaves, for each
    leg, the result of [applyIK] on the leg with the posed tip minus the
    delta Z the leg holds. *)
Theorem no_impedance_stage_when_disabled (st : SC) :
  impedance_control (params_ st) = false ->
  let compensated := loop_compensation st in
  let posed := update_walk_and_pose (running_action compensated) in
  let runs_pipeline :=
    negb (transition_state_flag_ st) && (system_state_ st == RUNNING)
    && pipeline_guard (running_action compensated) in
  existsb is_impedance_control_call (appended loop st) = false
  /\ robot compensated
     = (if system_state_ st != UNKNOWN
        then updateCurrentPose (params_ st)
               (getBodyHeight (walker_ (robot st))) (robot st)
        else robot st)
  /\ stages (appended loop st)
     = (if runs_pipeline
        then [StageWalk; StageWalk; StagePose]
             ++ repeat StageIK
                  (List.length (leg_container (model_ (robot posed))))
        else [])
  /\ (runs_pipeline = true ->
      leg_container (model_ (robot (loop st)))
      = map (fun leg =>
               applyIK true (debug_IK (params_ posed))
                 (setDesiredTipPosition (posed_tip_minus_delta_z leg) leg))
            (leg_container (model_ (robot posed)))).
Proof.
  intros D compensated posed runs_pipeline.
  pose proof (tick_stages_without_impedance_control st D) as S.
  fold compensated in S. fold posed in S. fold runs_pipeline in S.
  split; [|split; [|split; [exact S|]]].
  - apply no_impedance_stage_no_impedance_call. rewrite S.
    destruct runs_pipeline; [|intros []].
    intro K. apply in_app_or in K. destruct K as [K | K].
    + simpl in K. intuition discriminate.
    + apply repeat_spec in K. discriminate K.
  - subst compensated.
    rewrite (compensation_without_impedance_control st D).
    destruct (system_state_ st != UNKNOWN); reflexivity.
  - intro R. clear S. subst runs_pipeline posed compensated.
    apply andb_prop in R. destruct R as (R & G).
    apply andb_prop in R. destruct R as (T & R).
    apply negb_true_iff in T.
    destruct (loop_compensation_frame st) as (F1 & _ & F3 & _ & _).
    unfold loop, loop_state_machine. rewrite F1, F3, T, R.
    rewrite runningState_legs, G. reflexivity.
Qed.

End Behaviour.

(** * Further runs on the test double *)

Section FurtherRuns.

Import Bench Scenarios.

Local Open Scope cpp_scope.

(** X1, witness: a gait selection and a body pose sent to the controller
    that waits for the user. *)
Lemma input_dropped_outside_accepting_state_witness :
  perform (OpGaitSelection WAVE_GAIT) waiting = waiting
  /\ perform (OpBodyPoseInput (mkVector3d 1 0 0) (mkVector3d 0 0 1)) waiting
     = waiting.
Proof.
  split; apply input_dropped_outside_accepting_state; vm_compute;
    reflexivity.
Defined.

(** X2, witness: the command OFF on the running hexapod. *)
Lemma callbacks_leave_state_machine_alone_witness :
  system_state_ (perform (OpSystemState OFF) (running_hexapod MOVING))
  = system_state_ (running_hexapod MOVING)
  /\ shutdown_requested (perform (OpSystemState OFF) (running_hexapod MOVING))
     = shutdown_requested (running_hexapod MOVING)
  /\ walker_ (robot (perform (OpSystemState OFF) (running_hexapod MOVING)))
     = walker_ (robot (running_hexapod MOVING))
  /\ impedance_ (robot (perform (OpSystemState OFF) (running_hexapod MOVING)))
     = impedance_ (robot (running_hexapod MOVING)).
Proof.
  apply (callbacks_leave_state_machine_alone (OpSystemState OFF)
           (running_hexapod MOVING)).
  reflexivity.
Defined.

(** X4, witness: from RUNNING the target UNKNOWN is not an undefined
    transition; the shutdown sequence is run and no shutdown requested. *)
Lemma shutdown_exactly_on_undefined_transition_witness :
  system_state_ running_asked_for_unknown <> UNKNOWN
  /\ shutdown_requested (transitionSystemState running_asked_for_unknown)
     = shutdown_requested running_asked_for_unknown
       || undefined_transition (system_state_ running_asked_for_unknown)
                               (new_system_state_ running_asked_for_unknown).
Proof.
  assert (H : system_state_ running_asked_for_unknown <> UNKNOWN)
    by (vm_compute; discriminate).
  split; [exact H|].
  apply (shutdown_exactly_on_undefined_transition running_asked_for_unknown H).
Defined.

(** X5, witness: the command RUNNING, [init], and three ticks. *)
Lemma first_command_starts_no_transition_witness :
  new_system_state_ (init (systemStateCallback RUNNING waiting)) = RUNNING
  /\ system_state_ (init (systemStateCallback RUNNING waiting)) = UNKNOWN
  /\ transition_state_flag_ (init (systemStateCallback RUNNING waiting))
     = false
  /\ run (repeat OpLoop 3) (init (systemStateCallback RUNNING waiting))
     = init (systemStateCallback RUNNING waiting).
Proof.
  apply (first_command_starts_no_transition waiting RUNNING 3);
    vm_compute; reflexivity.
Defined.

(** X6, witness: the wave gait. *)
Lemma gait_name_round_trip_witness :
  gait_type (params_ (initGaitParameters WAVE_GAIT waiting))
  = gait_name WAVE_GAIT
  /\ gait_selection_ (init (initGaitParameters WAVE_GAIT waiting))
     = WAVE_GAIT.
Proof.
  apply (gait_name_round_trip WAVE_GAIT waiting). discriminate.
Defined.

(** X7, witness: the wave gait selected on the stopped hexapod. *)
Lemma selected_gait_is_loaded_witness :
  gait_change_flag_
    (running_action (gaitSelectionCallback WAVE_GAIT
                       (running_hexapod STOPPED))) = false
  /\ gait_type
       (params_ (running_action (gaitSelectionCallback WAVE_GAIT
                                   (running_hexapod STOPPED))))
     = gait_name WAVE_GAIT.
Proof.
  assert (S : system_state_ (running_hexapod STOPPED) = RUNNING)
    by (vm_compute; reflexivity).
  assert (Hw : walk_state (running_hexapod STOPPED) = STOPPED)
    by (vm_compute; reflexivity).
  assert (Hg : WAVE_GAIT <> GAIT_UNDESIGNATED) by discriminate.
  assert (Hs : WAVE_GAIT <> gait_selection_ (running_hexapod STOPPED))
    by (vm_compute; discriminate).
  destruct (selected_gait_is_loaded WAVE_GAIT (running_hexapod STOPPED)
              S Hw Hg Hs) as (_ & K2 & K3 & _).
  split; [exact K2 | exact K3].
Defined.

(** X9, witness: toggles requested in both slots. *)
Lemma toggle_requests_exclude_each_other_witness :
  one_toggle_at_most (running_hexapod STOPPED)
  /\ one_toggle_at_most (run toggles_of_both_slots (running_hexapod STOPPED)).
Proof.
  assert (H : one_toggle_at_most (running_hexapod STOPPED))
    by (vm_compute; reflexivity).
  split; [exact H|].
  apply (toggle_requests_exclude_each_other toggles_of_both_slots
           (running_hexapod STOPPED) H).
Defined.

(** X10, witness: an adjustment requested, the selection cleared before
    the tick that carries the adjustment out; then a selection message
    with the integer 42. *)
Lemma parameter_pointer_is_assigned_before_use_witness :
  forallb selects_enumerator adjustment_with_selection_cleared = true
  /\ parameter_pointer_assigned (running_hexapod STOPPED)
  /\ parameter_adjust_flag_
       (run adjustment_with_selection_cleared (running_hexapod STOPPED))
     = true
  /\ parameter_pointer_assigned
       (run adjustment_with_selection_cleared (running_hexapod STOPPED))
  /\ existsb is_invalid_pointer
       (appended adjustParameter
          (run adjustment_with_selection_cleared (running_hexapod STOPPED)))
     = false
  /\ appended (parameterSelectionCallback (PARAMETER_UNLISTED 42))
       (run adjustment_with_selection_cleared (running_hexapod STOPPED))
     = [EvInvalidPointer].
Proof.
  assert (E : forallb selects_enumerator adjustment_with_selection_cleared
              = true) by (vm_compute; reflexivity).
  assert (H : parameter_pointer_assigned (running_hexapod STOPPED)).
  { split; [vm_compute; reflexivity|]. split; intro K.
    - contradiction K. vm_compute. reflexivity.
    - vm_compute in K. discriminate K. }
  assert (F : parameter_adjust_flag_
                (run adjustment_with_selection_cleared
                     (running_hexapod STOPPED)) = true)
    by (vm_compute; reflexivity).
  assert (R : system_state_
                (run adjustment_with_selection_cleared
                     (running_hexapod STOPPED)) = RUNNING)
    by (vm_compute; reflexivity).
  destruct (parameter_pointer_is_assigned_before_use
              adjustment_with_selection_cleared (running_hexapod STOPPED)
              (-1) E H) as (K1 & _ & K3 & _ & K5).
  split; [exact E|]. split; [exact H|]. split; [exact F|].
  split; [exact K1|]. split; [exact (K3 F)|].
  exact (proj1 (K5 (PARAMETER_UNLISTED 42) eq_refl R)).
Defined.

(** X11, witness: the latched controller through a busy session. *)
Lemma latches_stay_raised_witness :
  user_input_flag_ latched = true
  /\ joint_positions_initialised latched = true
  /\ user_input_flag_ (run busy_session latched) = true
  /\ joint_positions_initialised (run busy_session latched) = true.
Proof.
  assert (U : user_input_flag_ latched = true) by (vm_compute; reflexivity).
  assert (J : joint_positions_initialised latched = true)
    by (vm_compute; reflexivity).
  destruct (latches_stay_raised busy_session latched) as (K1 & K2).
  split; [exact U|]. split; [exact J|]. split; [exact (K1 U) | exact (K2 J)].
Defined.

(** X12, witness: cruise control switched on at 1/2 along x, then the
    command to reverse. *)
Lemma cruise_control_overrides_velocity_command_witness :
  linear_velocity_input_ walking_forward = mkVector2d (1 # 2) 0
  /\ force_cruise_velocity (params_ walking_forward) = false
  /\ linear_velocity_input_
       (running_action
          (bodyVelocityInputCallback (-1) 0 0
             (cruiseControlCallback CRUISE_CONTROL_ON walking_forward)))
     = (if force_cruise_velocity (params_ walking_forward)
        then linear_cruise_velocity (params_ walking_forward)
        else linear_velocity_input_ walking_forward).
Proof.
  assert (S : system_state_ walking_forward = RUNNING)
    by (vm_compute; reflexivity).
  assert (M : cruise_control_mode_ walking_forward = CRUISE_CONTROL_OFF)
    by (vm_compute; reflexivity).
  assert (A : action_pending walking_forward = false)
    by (vm_compute; reflexivity).
  split; [vm_compute; reflexivity|]. split; [vm_compute; reflexivity|].
  exact (proj1 (cruise_control_overrides_velocity_command walking_forward
                  (-1) 0 0 S M A)).
Defined.

(** X13, witness: an adjustment requested on the moving hexapod. *)
Lemma pending_action_drives_walker_with_zero_velocity_witness :
  action_pending (adjusting MOVING) = true
  /\ runningState (adjusting MOVING)
     = update_tip_positions (zero_velocity_inputs (adjusting MOVING))
  /\ linear_velocity_input_ (runningState (adjusting MOVING))
     = mkVector2d 0 0.
Proof.
  assert (A : action_pending (adjusting MOVING) = true)
    by (vm_compute; reflexivity).
  assert (Hw : walk_state (adjusting MOVING) <> STOPPED)
    by (vm_compute; discriminate).
  destruct (pending_action_drives_walker_with_zero_velocity
              (adjusting MOVING) A Hw) as (K1 & K2 & _).
  split; [exact A|]. split; [exact K1 | exact K2].
Defined.

(** X14, witness: the running hexapod, time step 1/50. *)
Lemma publish_records_targets_witness :
  ~ (time_delta (params_ (running_hexapod STOPPED)) == 0)%Q
  /\ appended publishDesiredJointState (running_hexapod STOPPED)
     = [EvPublish]
  /\ Forall (fun leg =>
               Forall (fun j => (desired_velocity j == 0)%Q)
                      (joint_container leg))
            (leg_container
               (model_
                  (robot (publishDesiredJointState
                            (publishDesiredJointState
                               (running_hexapod STOPPED)))))).
Proof.
  assert (H : ~ (time_delta (params_ (running_hexapod STOPPED)) == 0)%Q)
    by (vm_compute; discriminate).
  destruct (publish_records_targets (running_hexapod STOPPED) H)
    as (K1 & _ & _ & K4).
  split; [exact H|]. split; [exact K1 | exact K4].
Defined.

(** X16, witness: the packed hexapod without start-up sequence, eighteen
    joints packed and six legs. *)
Lemma unknown_state_resolution_witness :
  system_state_ (started (hexapod 0)) = UNKNOWN
  /\ packed_joints (model_ (robot (started (hexapod 0)))) = 18%nat
  /\ system_state_ (transitionSystemState (started (hexapod 0)))
     = (if start_up_sequence (params_ (started (hexapod 0))) then PACKED
        else if Nat.eqb (packed_joints (model_ (robot (started (hexapod 0)))))
                        (List.length
                           (leg_container
                              (model_ (robot (started (hexapod 0))))))
             then UNKNOWN else OFF).
Proof.
  assert (H : system_state_ (started (hexapod 0)) = UNKNOWN)
    by (vm_compute; reflexivity).
  split; [exact H|]. split; [vm_compute; reflexivity|].
  exact (proj1 (unknown_state_resolution (started (hexapod 0)) H)).
Defined.

(** X17, witness: two messages for the six legs that differ in the odd
    entries, in their length and in the fields that are not efforts; and a
    message of three entries, too short for the legs 2 to 5. *)
Lemma tip_force_is_clamped_even_entry_witness :
  tip_forces_present forces_a
    (leg_container (model_ (robot (running_hexapod STOPPED)))) = true
  /\ map tip_force
       (leg_container
          (model_ (robot (tipForceCallback forces_a
                            (running_hexapod STOPPED)))))
     = [45; 0; 0; 1000; 1000; 500]%Q
  /\ tipForceCallback forces_a (running_hexapod STOPPED)
     = tipForceCallback forces_b (running_hexapod STOPPED)
  /\ existsb is_invalid_pointer
       (appended (tipForceCallback forces_short) (running_hexapod STOPPED))
     = true.
Proof.
  assert (H : tip_forces_present forces_a
                (leg_container (model_ (robot (running_hexapod STOPPED))))
              = true) by (vm_compute; reflexivity).
  assert (A : Forall (fun leg =>
                        nth_error (msg_effort forces_a) (id_number leg * 2)
                        = nth_error (msg_effort forces_b) (id_number leg * 2))
                     (leg_container
                        (model_ (robot (running_hexapod STOPPED)))))
    by (repeat constructor).
  destruct (tip_force_is_clamped_even_entry forces_a forces_b
              (running_hexapod STOPPED)) as (_ & K).
  destruct (K H) as (_ & V & _ & _ & S).
  split; [exact H|]. split; [exact V|]. split; [exact (S A)|].
  exact (proj1 (tip_force_is_clamped_even_entry forces_short forces_short
                  (running_hexapod STOPPED))).
Defined.

(** X18, witness: the direction 0 with the step frequency selected. *)
Lemma adjustment_command_dropped_witness :
  parameterAdjustCallback 0 step_frequency_selected = step_frequency_selected.
Proof.
  apply (adjustment_command_dropped 0 step_frequency_selected).
  left. reflexivity.
Defined.

(** X19, witness: the step frequency, step 1/10, asked to decrease. *)
Lemma adjustment_command_accepted_witness :
  adjust_step (step_frequency (params_ step_frequency_selected)) = (1 # 10)%Q
  /\ parameter_adjust_flag_
       (parameterAdjustCallback (-1) step_frequency_selected) = true
  /\ trace (parameterAdjustCallback (-1) step_frequency_selected)
     = trace step_frequency_selected
  /\ (forall k, k <> parameter_being_adjusted_ step_frequency_selected ->
                map_lookup
                  (params_ (parameterAdjustCallback (-1)
                              step_frequency_selected)) k
                = map_lookup (params_ step_frequency_selected) k).
Proof.
  assert (S : system_state_ step_frequency_selected = RUNNING)
    by (vm_compute; reflexivity).
  assert (D : (-1)%Z <> 0%Z) by discriminate.
  assert (F : parameter_adjust_flag_ step_frequency_selected = false)
    by (vm_compute; reflexivity).
  assert (Sel : parameter_selection_ step_frequency_selected
                <> NO_PARAMETER_SELECTION) by (vm_compute; discriminate).
  assert (Hp : map_lookup (params_ step_frequency_selected)
                 (parameter_being_adjusted_ step_frequency_selected)
               = Some (step_frequency (params_ step_frequency_selected)))
    by (vm_compute; reflexivity).
  destruct (adjustment_command_accepted (-1) step_frequency_selected
              (step_frequency (params_ step_frequency_selected))
              S D F Sel Hp) as (K1 & K2 & _ & K4 & _).
  split; [vm_compute; reflexivity|]. split; [exact K1|].
  split; [exact K2 | exact K4].
Defined.

(** X21, witness: the command RUNNING twice, and RUNNING then OFF. *)
Lemma start_needs_two_different_commands_witness :
  user_input_flag_ waiting = false
  /\ user_input_flag_
       (systemStateCallback RUNNING (systemStateCallback RUNNING waiting))
     = user_input_flag_ waiting
       || (negb (SystemState_beq RUNNING WAITING_FOR_USER)
           && negb (SystemState_beq RUNNING RUNNING))
  /\ user_input_flag_
       (systemStateCallback OFF (systemStateCallback RUNNING waiting))
     = user_input_flag_ waiting
       || (negb (SystemState_beq RUNNING WAITING_FOR_USER)
           && negb (SystemState_beq RUNNING OFF)).
Proof.
  assert (S : system_state_ waiting = WAITING_FOR_USER)
    by (vm_compute; reflexivity).
  assert (N : new_system_state_ waiting = WAITING_FOR_USER)
    by (vm_compute; reflexivity).
  split; [vm_compute; reflexivity|]. split.
  - exact (proj2 (proj2 (proj2 (start_needs_two_different_commands
                                  waiting RUNNING RUNNING S N)))).
  - exact (proj2 (proj2 (proj2 (start_needs_two_different_commands
                                  waiting RUNNING OFF S N)))).
Defined.

(** X22, witness: the packed hexapod with the start-up sequence, on the
    test double, whose choreographies complete in one call. *)
Lemma cold_start_reaches_running_witness :
  system_state_ cold = UNKNOWN
  /\ system_state_ (loop cold) = PACKED
  /\ system_state_ (loop (loop cold)) = READY
  /\ system_state_ (loop (loop (loop cold))) = RUNNING
  /\ transition_state_flag_ (loop (loop (loop cold))) = false.
Proof.
  assert (S : system_state_ cold = UNKNOWN) by (vm_compute; reflexivity).
  assert (N : new_system_state_ cold = RUNNING) by (vm_compute; reflexivity).
  assert (F : transition_state_flag_ cold = true)
    by (vm_compute; reflexivity).
  assert (P : start_up_sequence (params_ cold) = true)
    by (vm_compute; reflexivity).
  split; [exact S|].
  apply (cold_start_reaches_running cold); try assumption.
  - intros p d r. reflexivity.
  - intros p r. reflexivity.
Defined.

(** X23, witness: impedance control off and dynamic stiffness on, leg 0
    on its way to MANUAL and completing the transition in this tick.  The
    tick updates the stiffness of leg 0 for the transition, runs no
    impedance control, and its inverse kinematics subtracts the delta Z of
    1/4 that the five walking legs hold from the posed z of 3. *)
Lemma no_impedance_stage_when_disabled_witness :
  impedance_control (params_ toggling_without_impedance) = false
  /\ In (EvUpdateLegStiffness 0) (appended loop toggling_without_impedance)
  /\ existsb is_impedance_control_call
       (appended loop toggling_without_impedance) = false
  /\ stages (appended loop toggling_without_impedance)
     = [StageWalk; StageWalk; StagePose] ++ repeat StageIK 6
  /\ map (fun leg => (leg_state leg, v3z (desired_tip_position leg)))
         (leg_container (model_ (robot (loop toggling_without_impedance))))
     = [(MANUAL, 3%Q); (WALKING, 11 # 4); (WALKING, 11 # 4);
        (WALKING, 11 # 4); (WALKING, 11 # 4); (WALKING, 11 # 4)].
Proof.
  assert (D : impedance_control (params_ toggling_without_impedance) = false)
    by (vm_compute; reflexivity).
  assert (L : In (EvUpdateLegStiffness 0)
                 (appended loop toggling_without_impedance))
    by (vm_compute; do 4 right; left; reflexivity).
  assert (R : negb (transition_state_flag_ toggling_without_impedance)
              && (system_state_ toggling_without_impedance == RUNNING)
              && pipeline_guard
                   (running_action
                      (loop_compensation toggling_without_impedance))
              = true) by (vm_compute; reflexivity).
  pose proof (no_impedance_stage_when_disabled toggling_without_impedance D)
    as K.
  cbv zeta in K. destruct K as (K1 & _ & K3 & K4).
  split; [exact D|]. split; [exact L|]. split; [exact K1|]. split.
  - rewrite K3, R. vm_compute. reflexivity.
  - rewrite (K4 R). vm_compute. reflexivity.
Defined.


End FurtherRuns.
